(** * Plan / Execute / Validate / Route control loop of the web automation agent

    A shallow embedding of [src/agent/state.py], [src/agent/graph.py], the
    three node functions under [src/agent/nodes/], the browser tools, the
    chunking of the knowledge base builder and the scraper's loop, followed
    by their properties.

    Python text is modelled as [string], a character being a code point
    below 256: the statements speak of text written in ASCII and Latin-1.
    Dynamically typed data (plans, page snapshots, collaborator results,
    verdicts) is carried by [value]. *)

From Stdlib Require Import ZArith List String Ascii Bool Lia ZifyBool DecimalString.
Import ListNotations.

Open Scope string_scope.
Open Scope Z_scope.

(** ** Python strings

    A [str] is the sequence of its characters; a character is a code point
    below 256 (ASCII and Latin-1), which is what the type can hold.  On
    these, case, blanks and [repr] are Python's. *)
Module PyStr.

(** the capitals: A-Z, and the Latin-1 ones but the multiplication sign *)
Definition is_upper (c : ascii) : bool :=
  let n := nat_of_ascii c in
  ((Nat.leb 65 n && Nat.leb n 90)
   || (Nat.leb 192 n && Nat.leb n 222 && negb (Nat.eqb n 215)))%bool.

Definition lower_char (c : ascii) : ascii :=
  if is_upper c then ascii_of_nat (nat_of_ascii c + 32) else c.

(** [str.lower()] *)
Fixpoint lower (s : string) : string :=
  match s with
  | EmptyString => EmptyString
  | String c t => String (lower_char c) (lower t)
  end.

(** [needle in hay] on two strings *)
Fixpoint contains (needle hay : string) : bool :=
  if String.prefix needle hay then true
  else match hay with
       | EmptyString => false
       | String _ t => contains needle t
       end.

(** the characters [str.split()] and [str.strip()] treat as blank: tab to
    carriage return, the four separators, the space, next line (U+0085)
    and the no-break space (U+00A0) *)
Definition is_space (c : ascii) : bool :=
  let n := nat_of_ascii c in
  ((Nat.leb 9 n && Nat.leb n 13) || (Nat.leb 28 n && Nat.leb n 32)
   || Nat.eqb n 133 || Nat.eqb n 160)%bool.

Fixpoint mem_char (c : ascii) (chars : string) : bool :=
  match chars with
  | EmptyString => false
  | String d t => if Ascii.eqb c d then true else mem_char c t
  end.

Fixpoint lstrip_by (p : ascii -> bool) (s : string) : string :=
  match s with
  | EmptyString => EmptyString
  | String c t => if p c then lstrip_by p t else s
  end.

Fixpoint rstrip_by (p : ascii -> bool) (s : string) : string :=
  match s with
  | EmptyString => EmptyString
  | String c t =>
      match rstrip_by p t with
      | EmptyString => if p c then EmptyString else String c EmptyString
      | r => String c r
      end
  end.

(** [s.strip(chars)] *)
Definition strip_chars (chars s : string) : string :=
  rstrip_by (fun c => mem_char c chars) (lstrip_by (fun c => mem_char c chars) s).

(** [s.strip()] *)
Definition strip (s : string) : string :=
  rstrip_by is_space (lstrip_by is_space s).

(** [s.split()]: the maximal runs of non-blank characters. [cur] is the
    word being read, kept reversed. *)
Fixpoint rev_string (acc s : string) : string :=
  match s with
  | EmptyString => acc
  | String c t => rev_string (String c acc) t
  end.

Fixpoint split_aux (cur : string) (s : string) : list string :=
  match s with
  | EmptyString =>
      match cur with
      | EmptyString => []
      | _ => [rev_string EmptyString cur]
      end
  | String c t =>
      if is_space c then
        match cur with
        | EmptyString => split_aux EmptyString t
        | _ => rev_string EmptyString cur :: split_aux EmptyString t
        end
      else split_aux (String c cur) t
  end.

Definition split (s : string) : list string := split_aux EmptyString s.

(** [s.replace(old, new)] for a non-empty [old]: occurrences are replaced
    left to right without overlap; [skip] counts the characters of a
    matched occurrence still to be dropped. *)
Fixpoint replace_aux (old new : string) (skip : nat) (s : string) : string :=
  match s with
  | EmptyString => EmptyString
  | String c t =>
      match skip with
      | S k => replace_aux old new k t
      | O =>
          if String.prefix old s
          then new ++ replace_aux old new (String.length old - 1) t
          else String c (replace_aux old new 0 t)
      end
  end.

Fixpoint intersperse (new s : string) : string :=
  match s with
  | EmptyString => new
  | String c t => new ++ String c (intersperse new t)
  end.

Definition replace (old new s : string) : string :=
  match old with
  | EmptyString => intersperse new s
  | _ => replace_aux old new 0 s
  end.

(** [s[:n]] for [n >= 0] *)
Fixpoint take (n : nat) (s : string) : string :=
  match n, s with
  | S k, String c t => String c (take k t)
  | _, _ => EmptyString
  end.

(** decimal rendering of an [int] inside an f-string *)
Definition of_Z (n : Z) : string := NilZero.string_of_int (Z.to_int n).

End PyStr.

(** ** Python values *)

(** The objects the program handles: what [json.loads] can return, what the
    collaborators hand back, and the literals of the code itself.  A float is
    carried by whether it is zero and by its printed form, the two things the
    program can observe of it. *)
#[local] Unset Elimination Schemes.
Inductive value : Type :=
| VNone
| VBool (b : bool)
| VInt (n : Z)
| VFloat (is_zero : bool) (repr : string)
| VStr (s : string)
| VList (l : list value)
| VDict (d : list (string * value)).
#[local] Set Elimination Schemes.

(** Python exceptions, by class, with what [str(e)] needs. *)
Inductive exn : Type :=
| AttributeError (type_name attr : string)
| TypeError (msg : string)
| KeyError (key : value)
| IndexError (msg : string)
| CollaboratorError (msg : string).

Inductive result (A : Type) : Type :=
| Ok (a : A)
| Raise (e : exn).
Arguments Ok {A} a.
Arguments Raise {A} e.

Definition rbind {A B} (m : result A) (k : A -> result B) : result B :=
  match m with
  | Ok a => k a
  | Raise e => Raise e
  end.

Declare Scope result_scope.
Delimit Scope result_scope with result.
Notation "x <- m ;; k" := (rbind m (fun x => k))
  (at level 61, m at next level, right associativity) : result_scope.

Module Py.

(** [type(v).__name__] *)
Definition type_name (v : value) : string :=
  match v with
  | VNone => "NoneType"
  | VBool _ => "bool"
  | VInt _ => "int"
  | VFloat _ _ => "float"
  | VStr _ => "str"
  | VList _ => "list"
  | VDict _ => "dict"
  end.

(** [bool(v)] *)
Definition truthy (v : value) : bool :=
  match v with
  | VNone => false
  | VBool b => b
  | VInt n => negb (n =? 0)
  | VFloat z _ => negb z
  | VStr s => negb (String.eqb s "")
  | VList l => match l with [] => false | _ => true end
  | VDict d => match d with [] => false | _ => true end
  end.

Fixpoint lookup (k : string) (d : list (string * value)) : option value :=
  match d with
  | [] => None
  | (k', v) :: t => if String.eqb k k' then Some v else lookup k t
  end.

(** [v.get(k, default)] *)
Definition get (v : value) (k : string) (default : value) : result value :=
  match v with
  | VDict d => Ok (match lookup k d with Some x => x | None => default end)
  | _ => Raise (AttributeError (type_name v) "get")
  end.

(** [len(v)] *)
Definition len (v : value) : result Z :=
  match v with
  | VStr s => Ok (Z.of_nat (String.length s))
  | VList l => Ok (Z.of_nat (List.length l))
  | VDict d => Ok (Z.of_nat (List.length d))
  | _ => Raise (TypeError ("object of type '" ++ type_name v ++ "' has no len()"))
  end.

(** [v.lower()] *)
Definition lower (v : value) : result string :=
  match v with
  | VStr s => Ok (PyStr.lower s)
  | _ => Raise (AttributeError (type_name v) "lower")
  end.

Definition hex_digit (n : nat) : ascii :=
  if Nat.ltb n 10 then ascii_of_nat (48 + n) else ascii_of_nat (87 + n).

Definition dquote : ascii := ascii_of_nat 34.
Definition squote : ascii := ascii_of_nat 39.
Definition backslash : ascii := ascii_of_nat 92.

(** one character of [repr(s)], [q] being the quote chosen for [s] *)
Definition repr_char (q c : ascii) : string :=
  let n := nat_of_ascii c in
  if Ascii.eqb c backslash then String backslash (String backslash "")
  else if Ascii.eqb c q then String backslash (String q "")
  else if Nat.eqb n 10 then String backslash "n"
  else if Nat.eqb n 13 then String backslash "r"
  else if Nat.eqb n 9 then String backslash "t"
  else if (Nat.ltb n 32 || (Nat.leb 127 n && Nat.leb n 160) || Nat.eqb n 173)%bool
       then String backslash
              (String "x" (String (hex_digit (n / 16)) (String (hex_digit (n mod 16)) "")))
  else String c "".

Fixpoint repr_chars (q : ascii) (s : string) : string :=
  match s with
  | EmptyString => EmptyString
  | String c t => repr_char q c ++ repr_chars q t
  end.

(** [repr(s)] of a string: double quotes only when [s] holds a single
    quote and no double quote *)
Definition repr_str (s : string) : string :=
  let q := if (PyStr.mem_char squote s && negb (PyStr.mem_char dquote s))%bool
           then dquote else squote in
  String q (repr_chars q s ++ String q "").

(** [repr(v)] *)
Fixpoint repr (v : value) : string :=
  match v with
  | VNone => "None"
  | VBool true => "True"
  | VBool false => "False"
  | VInt n => PyStr.of_Z n
  | VFloat _ r => r
  | VStr s => repr_str s
  | VList l =>
      "[" ++ (fix items (l : list value) : string :=
                match l with
                | [] => ""
                | x :: t =>
                    match t with
                    | [] => repr x
                    | _ => repr x ++ ", " ++ items t
                    end
                end) l ++ "]"
  | VDict d =>
      "{" ++ (fix items (d : list (string * value)) : string :=
                match d with
                | [] => ""
                | (k, x) :: t =>
                    match t with
                    | [] => repr_str k ++ ": " ++ repr x
                    | _ => repr_str k ++ ": " ++ repr x ++ ", " ++ items t
                    end
                end) d ++ "}"
  end.

(** [str(v)] *)
Definition str (v : value) : string :=
  match v with
  | VStr s => s
  | _ => repr v
  end.

(** [v[i]] for an integer [i] *)
Definition index (v : value) (i : Z) : result value :=
  match v with
  | VList l =>
      let n := Z.of_nat (List.length l) in
      if (0 <=? i) && (i <? n) then Ok (nth (Z.to_nat i) l VNone)
      else if (- n <=? i) && (i <? 0) then Ok (nth (Z.to_nat (n + i)) l VNone)
      else Raise (IndexError "list index out of range")
  | VStr s =>
      let n := Z.of_nat (String.length s) in
      if (0 <=? i) && (i <? n) then Ok (VStr (String.substring (Z.to_nat i) 1 s))
      else if (- n <=? i) && (i <? 0)
           then Ok (VStr (String.substring (Z.to_nat (n + i)) 1 s))
      else Raise (IndexError "string index out of range")
  | VDict d => Raise (KeyError (VInt i))
  | _ => Raise (TypeError ("'" ++ type_name v ++ "' object is not subscriptable"))
  end.

(** [v[k]] for a string key [k] *)
Definition getitem (v : value) (k : string) : result value :=
  match v with
  | VDict d =>
      match lookup k d with
      | Some x => Ok x
      | None => Raise (KeyError (VStr k))
      end
  | VStr _ => Raise (TypeError "string indices must be integers, not 'str'")
  | VList _ => Raise (TypeError "list indices must be integers or slices, not str")
  | _ => Raise (TypeError ("'" ++ type_name v ++ "' object is not subscriptable"))
  end.

Fixpoint chars (s : string) : list value :=
  match s with
  | EmptyString => []
  | String c t => VStr (String c "") :: chars t
  end.

(** the items [for x in v] visits *)
Definition iter (v : value) : result (list value) :=
  match v with
  | VList l => Ok l
  | VStr s => Ok (chars s)
  | VDict d => Ok (map (fun kv => VStr (fst kv)) d)
  | _ => Raise (TypeError ("'" ++ type_name v ++ "' object is not iterable"))
  end.

Definition is_str (k : string) (v : value) : bool :=
  match v with
  | VStr s => String.eqb s k
  | _ => false
  end.

(** [k in v] for a string [k] *)
Definition contains (k : string) (v : value) : result bool :=
  match v with
  | VDict d => Ok (match lookup k d with Some _ => true | None => false end)
  | VStr s => Ok (PyStr.contains k s)
  | VList l => Ok (existsb (is_str k) l)
  | _ => Raise (TypeError ("argument of type '" ++ type_name v ++ "' is not iterable"))
  end.

Definition is_dict (v : value) : bool :=
  match v with
  | VDict _ => true
  | _ => false
  end.

(** the dict display [{k: v}].  Lists and dicts cannot be keys; a key that
    is not text is recorded by its printed form (such a dict is only ever
    handed on to the browser collaborator). *)
Definition singleton (k v : value) : result value :=
  match k with
  | VStr s => Ok (VDict [(s, v)])
  | VList _ | VDict _ =>
      Raise (TypeError ("unhashable type: '" ++ type_name k ++ "'"))
  | _ => Ok (VDict [(repr k, v)])
  end.

Fixpoint map_result {A B} (f : A -> result B) (l : list A) : result (list B) :=
  match l with
  | [] => Ok []
  | x :: t =>
      match f x with
      | Ok y =>
          match map_result f t with
          | Ok ys => Ok (y :: ys)
          | Raise e => Raise e
          end
      | Raise e => Raise e
      end
  end.

(** [str(e)] for an exception *)
Definition str_exn (e : exn) : string :=
  match e with
  | AttributeError t a => "'" ++ t ++ "' object has no attribute '" ++ a ++ "'"
  | TypeError m => m
  | KeyError k => repr k
  | IndexError m => m
  | CollaboratorError m => m
  end.

End Py.

(** ** The shared state ([src/agent/state.py]) *)

Record WebAutomationState : Type := mkState {
  task : string;
  domain : string;
  retrieved_context : value;
  website_schema : value;
  plan : value;
  current_step : Z;
  steps_completed : list Z;
  browser_state : value;
  form_data : value;
  success : bool;
  error : value;
  screenshots : list value;
  agent_reasoning : string;
  execution_id : string;
  timestamp : string;
  retries : Z
}.

(** [state[key] = v] for the keys the nodes assign *)
Definition set_plan (v : value) (s : WebAutomationState) :=
  mkState s.(task) s.(domain) s.(retrieved_context) s.(website_schema) v
    s.(current_step) s.(steps_completed) s.(browser_state) s.(form_data)
    s.(success) s.(error) s.(screenshots) s.(agent_reasoning)
    s.(execution_id) s.(timestamp) s.(retries).

Definition set_current_step (v : Z) (s : WebAutomationState) :=
  mkState s.(task) s.(domain) s.(retrieved_context) s.(website_schema) s.(plan)
    v s.(steps_completed) s.(browser_state) s.(form_data)
    s.(success) s.(error) s.(screenshots) s.(agent_reasoning)
    s.(execution_id) s.(timestamp) s.(retries).

Definition set_steps_completed (v : list Z) (s : WebAutomationState) :=
  mkState s.(task) s.(domain) s.(retrieved_context) s.(website_schema) s.(plan)
    s.(current_step) v s.(browser_state) s.(form_data)
    s.(success) s.(error) s.(screenshots) s.(agent_reasoning)
    s.(execution_id) s.(timestamp) s.(retries).

Definition set_browser_state (v : value) (s : WebAutomationState) :=
  mkState s.(task) s.(domain) s.(retrieved_context) s.(website_schema) s.(plan)
    s.(current_step) s.(steps_completed) v s.(form_data)
    s.(success) s.(error) s.(screenshots) s.(agent_reasoning)
    s.(execution_id) s.(timestamp) s.(retries).

Definition set_success (v : bool) (s : WebAutomationState) :=
  mkState s.(task) s.(domain) s.(retrieved_context) s.(website_schema) s.(plan)
    s.(current_step) s.(steps_completed) s.(browser_state) s.(form_data)
    v s.(error) s.(screenshots) s.(agent_reasoning)
    s.(execution_id) s.(timestamp) s.(retries).

Definition set_error (v : value) (s : WebAutomationState) :=
  mkState s.(task) s.(domain) s.(retrieved_context) s.(website_schema) s.(plan)
    s.(current_step) s.(steps_completed) s.(browser_state) s.(form_data)
    s.(success) v s.(screenshots) s.(agent_reasoning)
    s.(execution_id) s.(timestamp) s.(retries).

Definition set_screenshots (v : list value) (s : WebAutomationState) :=
  mkState s.(task) s.(domain) s.(retrieved_context) s.(website_schema) s.(plan)
    s.(current_step) s.(steps_completed) s.(browser_state) s.(form_data)
    s.(success) s.(error) v s.(agent_reasoning)
    s.(execution_id) s.(timestamp) s.(retries).

Definition set_agent_reasoning (v : string) (s : WebAutomationState) :=
  mkState s.(task) s.(domain) s.(retrieved_context) s.(website_schema) s.(plan)
    s.(current_step) s.(steps_completed) s.(browser_state) s.(form_data)
    s.(success) s.(error) s.(screenshots) v
    s.(execution_id) s.(timestamp) s.(retries).

Definition set_retries (v : Z) (s : WebAutomationState) :=
  mkState s.(task) s.(domain) s.(retrieved_context) s.(website_schema) s.(plan)
    s.(current_step) s.(steps_completed) s.(browser_state) s.(form_data)
    s.(success) s.(error) s.(screenshots) s.(agent_reasoning)
    s.(execution_id) s.(timestamp) v.

(** [state["current_step"]] *)
Definition current_step_of (s : WebAutomationState) : Z := s.(current_step).

(** [state.get("plan", {}).get("steps", [])] *)
Definition get_steps (s : WebAutomationState) : result value :=
  Py.get s.(plan) "steps" (VList []).

(** The plans the typed reading of the state admits: a dict whose ["steps"],
    when present, is a list. *)
Definition plan_steps (s : WebAutomationState) : option (list value) :=
  match s.(plan) with
  | VDict d =>
      match Py.lookup "steps" d with
      | None => Some []
      | Some (VList l) => Some l
      | Some _ => None
      end
  | _ => None
  end.

(** ** The router ([graph.py], [_should_continue]) *)

Inductive route : Type := Continue | Done.

Definition _should_continue (state : WebAutomationState)
  : result (route * WebAutomationState) :=
  let error := state.(error) in
  let retries := state.(retries) in
  if (Py.truthy error && (retries >=? 2))%bool then Ok (Done, state)
  else
    (steps <- get_steps state ;;
     let current_step := state.(current_step) in
     finished <- (if state.(success) then Ok true
                  else (n <- Py.len steps ;; Ok (current_step >=? n))) ;;
     if (finished : bool) then Ok (Done, set_success true state)
     else if current_step >=? 10 then Ok (Done, state)
     else if Py.truthy error
          then Ok (Continue, set_error VNone (set_retries (retries + 1) state))
          else Ok (Continue, state))%result.

(** ** Collaborators and the effects of a node *)

(** What a node does to the outside world, in order. *)
Inductive event : Type :=
| LlmInvoke (prompt : string)
| ToolCall (method : string) (args : list value).

(** A node runs on the shared state object and leaves a trace of collaborator
    calls.  The state is mutated in place, so what was written before an
    exception is still there when the handler runs. *)
Record config : Type := mkConfig {
  st : WebAutomationState;
  trace : list event
}.

Definition M (A : Type) : Type := config -> result A * config.

Definition ret {A} (a : A) : M A := fun c => (Ok a, c).

Definition bind {A B} (m : M A) (k : A -> M B) : M B :=
  fun c => match m c with
           | (Ok a, c') => k a c'
           | (Raise e, c') => (Raise e, c')
           end.

Definition lift {A} (r : result A) : M A := fun c => (r, c).

Definition read : M WebAutomationState := fun c => (Ok c.(st), c).

Definition modify (f : WebAutomationState -> WebAutomationState) : M unit :=
  fun c => (Ok tt, mkConfig (f c.(st)) c.(trace)).

(** [try: body except Exception as e: handler(e)] *)
Definition try_except {A} (body : M A) (handler : exn -> M A) : M A :=
  fun c => match body c with
           | (Ok a, c') => (Ok a, c')
           | (Raise e, c') => handler e c'
           end.

Declare Scope machine_scope.
Delimit Scope machine_scope with machine.
Notation "x <- m ;; k" := (bind m (fun x => k))
  (at level 61, m at next level, right associativity) : machine_scope.
Notation "m ;;; k" := (bind m (fun _ => k))
  (at level 61, right associativity) : machine_scope.

(** ** The plan generator ([src/agent/nodes/planner.py]) *)

Definition nl : string := String (ascii_of_nat 10) "".
Definition dq : string := String Py.dquote "".

Definition PLANNER_PROMPT (task domain retrieved_context : string) : string :=
    nl ++ "You are a smart web automation planner." ++ nl ++ "TASK: " ++ task ++ nl ++
    "URL: " ++ domain ++ nl ++ nl ++ "CONTEXT (Scraped HTML):" ++ nl ++
    retrieved_context ++ nl ++ nl ++ "INSTRUCTIONS:" ++ nl ++
    "1. Analyze the CONTEXT to find input names/ids for the task." ++ nl ++
    "2. HackerNews uses name='acct' (user) and name='pw' (pass)." ++ nl ++
    "3. Standard sites use name='username', 'email', 'password'." ++ nl ++
    "4. Create a JSON plan." ++ nl ++ nl ++ "OUTPUT JSON format:" ++ nl ++ "{" ++ nl ++
    "  " ++ dq ++ "steps" ++ dq ++ ": [" ++ nl ++ "    { " ++ dq ++ "step" ++ dq ++
    ": 1, " ++ dq ++ "action" ++ dq ++ ": " ++ dq ++ "navigate" ++ dq ++ ", " ++ dq ++
    "target" ++ dq ++ ": " ++ dq ++ domain ++ dq ++ ", " ++ dq ++ "expected_outcome" ++
    dq ++ ": " ++ dq ++ "Page loaded" ++ dq ++ " }," ++ nl ++ "    { " ++ dq ++
    "step" ++ dq ++ ": 2, " ++ dq ++ "action" ++ dq ++ ": " ++ dq ++ "fill" ++ dq ++
    ", " ++ dq ++ "target" ++ dq ++ ": " ++ dq ++ "SELECTOR" ++ dq ++ ", " ++ dq ++
    "data" ++ dq ++ ": { " ++ dq ++ "value" ++ dq ++ ": " ++ dq ++ "VALUE" ++ dq ++
    " } }," ++ nl ++ "    { " ++ dq ++ "step" ++ dq ++ ": 3, " ++ dq ++ "action" ++
    dq ++ ": " ++ dq ++ "click" ++ dq ++ ", " ++ dq ++ "target" ++ dq ++ ": " ++ dq ++
    "SELECTOR" ++ dq ++ " }" ++ nl ++ "  ]" ++ nl ++ "}" ++ nl.

(** Leftmost match of the regular expression of [extract_json] (planner.py
    142): an opening brace, then text in which braces nest at most one level
    deep, up to the first closing brace at the outer level.  [scan] runs
    after the opening brace; [inner] tells whether a nested brace is open;
    [acc] is the matched text, reversed. *)
Definition lbrace : ascii := ascii_of_nat 123.
Definition rbrace : ascii := ascii_of_nat 125.

Fixpoint scan (inner : bool) (acc : string) (s : string) : option string :=
  match s with
  | EmptyString => None
  | String c t =>
      if Ascii.eqb c rbrace then
        if inner then scan false (String c acc) t
        else Some (PyStr.rev_string EmptyString (String c acc))
      else if Ascii.eqb c lbrace then
        if inner then None else scan true (String c acc) t
      else scan inner (String c acc) t
  end.

Fixpoint re_search (s : string) : option string :=
  match s with
  | EmptyString => None
  | String c t =>
      if Ascii.eqb c lbrace then
        match scan false (String c EmptyString) t with
        | Some m => Some m
        | None => re_search t
        end
      else re_search t
  end.

Module Planner.

(** [extract_value] (planner.py 126-136); [i] and [rest] walk
    [enumerate(words)] *)
Fixpoint extract_value_from (keys words : list string) (i : nat)
         (rest : list string) : string :=
  match rest with
  | [] => "unknown_value"
  | word :: rest' =>
      if (existsb (fun k => PyStr.contains k (PyStr.lower word)) keys
          && Nat.ltb (i + 2) (List.length words))%bool
      then PyStr.strip_chars dq (PyStr.strip_chars "'" (nth (i + 2) words ""))
      else extract_value_from keys words (S i) rest'
  end.

Definition extract_value (text : string) (keys : list string) : string :=
  let words := PyStr.split text in
  extract_value_from keys words 0 words.

(** [generate_heuristic_plan] (planner.py 69-124) *)
Definition generate_heuristic_plan (task domain : string) : value :=
  let steps :=
    [VDict [("step", VInt 1); ("action", VStr "navigate"); ("target", VStr domain);
            ("expected_outcome", VStr "Page loaded")]] in
  let step_count := 2 in
  let task_lower := PyStr.lower task in
  let '(steps, step_count) :=
    if (PyStr.contains "user" task_lower || PyStr.contains "login" task_lower)%bool
    then
      ((steps ++
        [VDict [("step", VInt step_count); ("action", VStr "fill");
                ("target",
                 VStr "input[name='acct'], input[name='username'], input[name='email'], #username, #email");
                ("data",
                 VDict [("value",
                         VStr (extract_value task ["username"; "user"; "id"]))]);
                ("expected_outcome", VStr "Username filled")]])%list,
       step_count + 1)
    else (steps, step_count) in
  let '(steps, step_count) :=
    if PyStr.contains "pass" task_lower
    then
      ((steps ++
        [VDict [("step", VInt step_count); ("action", VStr "fill");
                ("target",
                 VStr "input[name='pw'], input[name='password'], #password, #pass");
                ("data",
                 VDict [("value", VStr (extract_value task ["password"; "pass"]))]);
                ("expected_outcome", VStr "Password filled")]])%list,
       step_count + 1)
    else (steps, step_count) in
  let steps :=
    (steps ++
     [VDict [("step", VInt step_count); ("action", VStr "click");
             ("target",
              VStr "input[type='submit'], button[type='submit'], #loginbtn, button:has-text('Log in'), button:has-text('Sign in')");
             ("expected_outcome", VStr "Form submitted")]])%list in
  let step_count := step_count + 1 in
  let steps :=
    (steps ++
     [VDict [("step", VInt step_count); ("action", VStr "screenshot");
             ("target", VStr "final_result");
             ("expected_outcome", VStr "Evidence captured")]])%list in
  VDict [("steps", VList steps)].

End Planner.

(** ** The step validator, heuristic tier ([src/agent/nodes/validator.py] 87-118) *)

Definition VALIDATOR_PROMPT (expected_outcome page_state error : string) : string :=
    nl ++ "Precise web automation step validator." ++ nl ++ nl ++
    "Expected Outcome: " ++ expected_outcome ++ nl ++ "Page State: " ++ page_state ++
    nl ++ "Error: " ++ error ++ nl ++ nl ++ "SUCCESS RULES:" ++ nl ++
    "- Navigate: Current URL contains " ++ dq ++ "login/index.php" ++ dq ++ nl ++
    "- Fill: Target field value matches data  " ++ nl ++
    "- Click/Submit: Target no longer exists OR page changes" ++ nl ++
    "- Post-login: " ++ dq ++ "dashboard" ++ dq ++ ", " ++ dq ++ "profile" ++ dq ++
    ", " ++ dq ++ "welcome" ++ dq ++ ", " ++ dq ++ "logout" ++ dq ++ ", " ++ dq ++
    "student" ++ dq ++ ", " ++ dq ++ "courses" ++ dq ++ " OR no " ++ dq ++ "#login" ++
    dq ++ "/" ++ dq ++ "#username" ++ dq ++ nl ++ "- Screenshot: File saved" ++ nl ++
    nl ++ "Output ONLY JSON:" ++ nl ++ "{" ++ dq ++ "success" ++ dq ++
    ": true/false, " ++ dq ++ "reason" ++ dq ++ ": " ++ dq ++ "brief" ++ dq ++ ", " ++
    dq ++ "should_retry" ++ dq ++ ": false}" ++ nl.

Definition verdict (reason : string) : value :=
  VDict [("success", VBool true); ("reason", VStr reason);
         ("should_retry", VBool false)].

Definition success_keywords : list string :=
  ["dashboard"; "profile"; "welcome"; "logout"; "student"; "courses"; "saveetha"].

(** The function ends after computing [has_success]: no statement follows
    it, so every path that reaches the second pass returns [None]. *)
Definition second_pass (page_content : string) (current_step : Z) : result value :=
  if current_step >=? 3 then
    let has_success :=
      existsb (fun kw => PyStr.contains kw page_content) success_keywords in
    Ok VNone
  else Ok VNone.

Definition validate_heuristic (step page_state error : value) (current_step : Z)
  : result value :=
  (a <- Py.get step "action" (VStr "") ;;
   action <- Py.lower a ;;
   t <- Py.get step "target" (VStr "") ;;
   target <- Py.lower t ;;
   let page_content := PyStr.lower (Py.str page_state) in
   u <- Py.get page_state "url" (VStr "") ;;
   current_url <- Py.lower u ;;
   if String.eqb action "navigate" then
     if PyStr.contains "login/index.php" current_url
     then Ok (verdict "On login page")
     else second_pass page_content current_step
   else if String.eqb action "fill" then
     let clean_target := PyStr.replace "." "" (PyStr.replace "#" "" target) in
     if (PyStr.contains clean_target page_content
         || PyStr.contains target page_content)%bool
     then Ok (verdict ("Filled " ++ target))
     else second_pass page_content current_step
   else if (String.eqb action "click" || String.eqb action "submit")%bool then
     let no_login_form :=
       forallb (fun ind => negb (PyStr.contains ind page_content))
               ["#login"; "#username"] in
     let page_changed := negb (PyStr.contains "login/index.php" current_url) in
     if (no_login_form || page_changed)%bool
     then Ok (verdict "Form submitted/page changed")
     else second_pass page_content current_step
   else if String.eqb action "screenshot" then
     Ok (verdict "Screenshot completed")
   else second_pass page_content current_step)%result.

(** The success rules of [validate_heuristic], on the lower-cased action,
    target, page snapshot and URL: the conditions under which one of its
    [return] statements is reached. *)
Definition rule_matches (action target page_content current_url : string) : bool :=
  if String.eqb action "navigate" then PyStr.contains "login/index.php" current_url
  else if String.eqb action "fill" then
    (PyStr.contains (PyStr.replace "." "" (PyStr.replace "#" "" target)) page_content
     || PyStr.contains target page_content)%bool
  else if (String.eqb action "click" || String.eqb action "submit")%bool then
    (forallb (fun ind => negb (PyStr.contains ind page_content)) ["#login"; "#username"]
     || negb (PyStr.contains "login/index.php" current_url))%bool
  else String.eqb action "screenshot".

(** ** The nodes, over their collaborators *)

(** [hasattr(tools.browser, "fill")]: the adapter's [fill] is defined inside
    the body of [fill_form] (playwright_adapter.py 73), so the class has no
    such attribute; [screenshot] is a method of the class. *)
Definition browser_has_fill : bool := false.
Definition browser_has_screenshot : bool := true.

Section Nodes.

(** The language model: the text of the reply to a prompt, or an
    exception; it may depend on everything that happened before. *)
Variable llm : list event -> string -> result string.
(** The browser adapter's methods, called by name. *)
Variable browser : list event -> string -> list value -> result value.
(** [json.loads] ([None] when it raises), [json.dumps(_, default=str)] and
    [int(_)]. *)
Variable json_loads : string -> option value.
Variable json_dumps : value -> string.
Variable py_int : value -> result Z.

Definition llm_ainvoke (prompt : string) : M string :=
  fun c => (llm c.(trace) prompt,
            mkConfig c.(st) (c.(trace) ++ [LlmInvoke prompt])%list).

Definition browser_call (method : string) (args : list value) : M value :=
  fun c => (browser c.(trace) method args,
            mkConfig c.(st) (c.(trace) ++ [ToolCall method args])%list).

(** [extract_json] (planner.py 138-148) *)
Definition extract_json (text : string) : value :=
  match json_loads text with
  | Some v => v
  | None =>
      match re_search text with
      | Some m =>
          match json_loads m with
          | Some v => v
          | None => VDict [("steps", VList [])]
          end
      | None => VDict [("steps", VList [])]
      end
  end.

(** [plan_workflow] (planner.py 31-67).  The last statement of the [try]
    block logs [len(plan_json['steps'])] and [s['action']] for every step,
    and can raise. *)
Definition plan_workflow : M unit :=
  try_except
    (state <- read ;;
     let context := state.(retrieved_context) in
     let context_str := PyStr.take 2000 (Py.str context) in
     let prompt := PLANNER_PROMPT state.(task) state.(domain) context_str in
     content <- llm_ainvoke prompt ;;
     let plan_text := PyStr.strip content in
     let plan_json := extract_json plan_text in
     got <- lift (Py.get plan_json "steps" VNone) ;;
     let plan_json :=
       if Py.truthy got then plan_json
       else Planner.generate_heuristic_plan state.(task) state.(domain) in
     modify (set_plan plan_json) ;;;
     modify (set_current_step 0) ;;;
     modify (set_steps_completed []) ;;;
     steps <- lift (Py.getitem plan_json "steps") ;;
     n <- lift (Py.len steps) ;;
     items <- lift (Py.iter steps) ;;
     actions <- lift (Py.map_result (fun s => Py.getitem s "action") items) ;;
     ret tt)%machine
    (fun e =>
       (state <- read ;;
        modify (set_plan
                  (Planner.generate_heuristic_plan state.(task) state.(domain))))%machine).

(** the [except] branch of [validate_step] (validator.py 76-85) *)
Definition validate_recover (e : exn) : M unit :=
  (state <- read ;;
   let current_step := state.(current_step) in
   if current_step <=? 4 then modify (set_current_step (current_step + 1))
   else modify (set_error (VStr ("Validation failed: " ++ Py.str_exn e))))%machine.

(** [validate_step] (validator.py 27-85) *)
Definition validate_step : M unit :=
  try_except
    (state <- read ;;
     let plan := state.(plan) in
     steps <- lift (Py.get plan "steps" (VList [])) ;;
     let current_step := state.(current_step) in
     n <- lift (Py.len steps) ;;
     if current_step >=? n then modify (set_success true)
     else
       step <- lift (Py.index steps current_step) ;;
       expected_outcome <- lift (Py.get step "expected_outcome" (VStr "Complete step")) ;;
       let page_state := state.(browser_state) in
       let error := state.(error) in
       validation <- lift (validate_heuristic step page_state error current_step) ;;
       ok <- lift (Py.get validation "success" VNone) ;;
       validation <-
         (if Py.truthy ok then ret validation
          else
            let prompt :=
              VALIDATOR_PROMPT (Py.str expected_outcome) (Py.str page_state)
                               (Py.str error) in
            content <- llm_ainvoke prompt ;;
            ret (extract_json (PyStr.strip content))) ;;
       ok <- lift (Py.get validation "success" VNone) ;;
       if Py.truthy ok then
         modify (fun s => set_steps_completed
                            (s.(steps_completed) ++ [current_step])%list s) ;;;
         modify (set_current_step (current_step + 1)) ;;;
         state' <- read ;;
         if current_step_of state' >=? n then modify (set_success true)
         else ret tt
       else
         retry <- lift (Py.get validation "should_retry" (VBool false)) ;;
         if negb (Py.truthy retry) then
           reason <- lift (Py.get validation "reason" (VStr "Validation failed")) ;;
           modify (set_error reason) ;;;
           if current_step <? 3 then
             modify (set_current_step (current_step + 1)) ;;;
             modify (set_error VNone)
           else ret tt
         else ret tt)%machine
    validate_recover.

(** *** The browser tools ([src/mcp/tools/browser_tools.py]) *)

Definition failure (e : exn) : value :=
  VDict [("success", VBool false); ("error", VStr (Py.str_exn e))].

Definition tools_navigate (url : value) : M value :=
  try_except
    (_ <- browser_call "navigate" [url] ;;
     state <- browser_call "get_page_state" [] ;;
     ret (VDict [("success", VBool true);
                 ("message", VStr ("Navigated to " ++ Py.str url));
                 ("page_state", state)]))%machine
    (fun e => ret (failure e)).

Definition tools_fill_form (form_selector field_data : value) : M value :=
  try_except
    (_ <- browser_call "fill_form" [form_selector; field_data] ;;
     state <- browser_call "get_page_state" [] ;;
     n <- lift (Py.len field_data) ;;
     ret (VDict [("success", VBool true);
                 ("message", VStr ("Filled " ++ PyStr.of_Z n ++ " fields"));
                 ("page_state", state)]))%machine
    (fun e => ret (failure e)).

Definition tools_click (selector : value) : M value :=
  try_except
    (_ <- browser_call "click" [selector] ;;
     state <- browser_call "get_page_state" [] ;;
     ret (VDict [("success", VBool true);
                 ("message", VStr ("Clicked " ++ Py.str selector));
                 ("page_state", state)]))%machine
    (fun e => ret (failure e)).

Definition tools_wait_for (selector : value) (timeout : Z) : M value :=
  try_except
    (_ <- browser_call "wait_for_element" [selector; VInt timeout] ;;
     state <- browser_call "get_page_state" [] ;;
     ret (VDict [("success", VBool true);
                 ("message", VStr ("Element " ++ Py.str selector ++ " found"));
                 ("page_state", state)]))%machine
    (fun e => ret (failure e)).

Definition tools_submit_form (form_selector : value) : M value :=
  try_except
    (_ <- browser_call "submit_form" [form_selector] ;;
     state <- browser_call "get_page_state" [] ;;
     ret (VDict [("success", VBool true); ("message", VStr "Form submitted");
                 ("page_state", state)]))%machine
    (fun e => ret (failure e)).

Definition tools_extract_text (selector : value) : M value :=
  try_except
    (text <- browser_call "extract_text" [selector] ;;
     ret (VDict [("success", VBool true); ("text", text)]))%machine
    (fun e => ret (failure e)).


Definition tools_screenshot : M value :=
  try_except
    (path <- browser_call "screenshot" [] ;;
     ret (VDict [("success", VBool true); ("path", path)]))%machine
    (fun e => ret (failure e)).

Definition tools_select_option (selector value_ : value) : M value :=
  try_except
    (_ <- browser_call "select_option" [selector; value_] ;;
     state <- browser_call "get_page_state" [] ;;
     ret (VDict [("success", VBool true);
                 ("message", VStr ("Selected " ++ Py.str value_));
                 ("page_state", state)]))%machine
    (fun e => ret (failure e)).

(** *** The step executor ([src/agent/nodes/executor.py]) *)

(** the [fill] / [fill_form] branch (executor.py 33-55) *)
Definition dispatch_fill (target data : value) : M value :=
  (has_value <- lift (Py.contains "value" data) ;;
   single <- (if (has_value : bool)
              then (n <- lift (Py.len data) ;; ret (n =? 1))
              else ret false) ;;
   field_data <-
     (if (single : bool) then
        (v <- lift (Py.getitem data "value") ;; lift (Py.singleton target v))
      else if (negb (Py.is_dict data) || negb (Py.truthy data))%bool then
        lift (Py.singleton target data)
      else ret data) ;;
   try_except
     (if browser_has_fill then
        (v <- lift (Py.get data "value" (VStr "")) ;;
         _ <- browser_call "fill" [target; VStr (Py.str v)] ;;
         state <- browser_call "get_page_state" [] ;;
         ret (VDict [("success", VBool true); ("page_state", state)]))
      else tools_fill_form target field_data)
     (fun e => ret (failure e)))%machine.

(** the dispatch on [action] (executor.py 30-81) *)
Definition dispatch (action : string) (target data : value) (current_step : Z)
  : M value :=
  (if String.eqb action "navigate" then tools_navigate target
   else if (String.eqb action "fill" || String.eqb action "fill_form")%bool then
     dispatch_fill target data
   else if String.eqb action "click" then tools_click target
   else if String.eqb action "select" then
     (v <- lift (Py.get data "value" (VStr "")) ;; tools_select_option target v)
   else if String.eqb action "submit" then tools_submit_form target
   else if String.eqb action "wait" then
     (t <- lift (Py.get data "timeout" (VInt 30000)) ;;
      timeout <- lift (py_int t) ;;
      tools_wait_for target timeout)
   else if String.eqb action "extract" then tools_extract_text target
   else if String.eqb action "screenshot" then
     let path := "screenshots/step-" ++ PyStr.of_Z (current_step + 1) ++ ".png" in
     if browser_has_screenshot then
       (saved_path <- browser_call "screenshot" [VStr path] ;;
        state <- browser_call "get_page_state" [] ;;
        ret (VDict [("success", VBool true); ("path", saved_path);
                    ("page_state", state)]))
     else tools_screenshot
   else
     ret (VDict [("success", VBool false);
                 ("error", VStr ("Unknown action: " ++ action))]))%machine.

(** [execute_action] (executor.py 7-97) *)
Definition execute_action : M unit :=
  try_except
    (state <- read ;;
     got <- lift (Py.get state.(plan) "steps" VNone) ;;
     if negb (Py.truthy got) then modify (set_error (VStr "No plan available"))
     else
       let current_step := state.(current_step) in
       steps <- lift (Py.get state.(plan) "steps" (VList [])) ;;
       n <- lift (Py.len steps) ;;
       if current_step >=? n then modify (set_success true)
       else
         step <- lift (Py.index steps current_step) ;;
         a <- lift (Py.get step "action" (VStr "")) ;;
         action <- lift (Py.lower a) ;;
         target <- lift (Py.get step "target" VNone) ;;
         d <- lift (Py.get step "data" (VDict [])) ;;
         let data := if Py.truthy d then d else VDict [] in
         result <- dispatch action target data current_step ;;
         ok <- (if Py.truthy result
                then (s <- lift (Py.get result "success" VNone) ;; ret (Py.truthy s))
                else ret false) ;;
         (if (ok : bool) then
            page_state <- lift (Py.get result "page_state" (VDict [])) ;;
            modify (set_browser_state page_state) ;;;
            has_path <- lift (Py.contains "path" result) ;;
            if (has_path : bool) then
              path <- lift (Py.getitem result "path") ;;
              modify (fun s => set_screenshots (s.(screenshots) ++ [path])%list s)
            else ret tt
          else
            err <- (if Py.truthy result
                    then lift (Py.get result "error" (VStr "Action failed"))
                    else ret (VStr "No result")) ;;
            modify (set_error err)) ;;;
         modify (set_agent_reasoning
                   (json_dumps (if Py.truthy result then result else VDict []))))%machine
    (fun e => modify (set_error (VStr ("Execution failed: " ++ Py.str_exn e)))).

End Nodes.

(** What the [except] branch of [validate_step] (validator.py 76-85) does to
    a state. *)
Definition recovered (e : exn) (s : WebAutomationState) : WebAutomationState :=
  if s.(current_step) <=? 4 then set_current_step (s.(current_step) + 1) s
  else set_error (VStr ("Validation failed: " ++ Py.str_exn e)) s.

(** ** The graph and the orchestrator ([src/agent/graph.py]) *)

(** The nodes of [_build_graph]: [plan -> execute -> validate], then the
    conditional edge decided by [_should_continue]. *)
Inductive node : Type := NPlan | NExecute | NValidate.

Definition node_eqb (a b : node) : bool :=
  match a, b with
  | NPlan, NPlan | NExecute, NExecute | NValidate, NValidate => true
  | _, _ => false
  end.

(** How a run of the graph ends: at [END], with the exception of a node or
    of the routing function, or with the engine's own [GraphRecursionError]. *)
Inductive outcome : Type :=
| Finished (c : config)
| Failed (e : exn) (c : config)
| RecursionLimit (c : config).

(** the number of Execute / Validate / Route cycles among the nodes run *)
Definition cycles (visited : list node) : nat :=
  List.length (filter (node_eqb NValidate) visited).

Section Graph.

Variable llm : list event -> string -> result string.
Variable browser : list event -> string -> list value -> result value.
Variable json_loads : string -> option value.
Variable json_dumps : value -> string.
Variable py_int : value -> result Z.
(** [kb_builder.search], [uuid.uuid4()] and [datetime.now()] *)
Variable kb_search : string -> result value.
Variable new_uuid : string.
Variable now : string.
(** [str(e)] of the engine's [GraphRecursionError] for a limit: the
    library's text *)
Variable recursion_error_text : nat -> string.

Definition run_node (n : node) : M unit :=
  match n with
  | NPlan => plan_workflow llm json_loads
  | NExecute => execute_action browser json_dumps py_int
  | NValidate => validate_step llm json_loads
  end.

(** The edge leaving a node; [None] is [END].  What a node returns is
    written to the state of the graph.  The routing function is not a node:
    the engine calls it on a state read from the graph and keeps the route
    it names, nothing else, so what [_should_continue] assigns to its
    argument ([success], [retries], [error]) reaches neither the next node
    nor the result. *)
Definition next_node (n : node) (s : WebAutomationState) : result (option node) :=
  match n with
  | NPlan => Ok (Some NExecute)
  | NExecute => Ok (Some NValidate)
  | NValidate =>
      match _should_continue s with
      | Ok (Continue, _) => Ok (Some NExecute)
      | Ok (Done, _) => Ok None
      | Raise e => Raise e
      end
  end.

(** [graph.ainvoke(state, {"recursion_limit": limit})]: every node run is
    one step of the graph engine, which gives up with a recursion error
    once [limit] steps have run without reaching [END].  [visited] lists
    the nodes run so far. *)
Fixpoint run_graph (limit : nat) (n : node) (visited : list node)
         (c : config) : list node * outcome :=
  match limit with
  | O => (visited, RecursionLimit c)
  | S k =>
      match run_node n c with
      | (Raise e, c') => ((visited ++ [n])%list, Failed e c')
      | (Ok _, c') =>
          match next_node n c'.(st) with
          | Raise e => ((visited ++ [n])%list, Failed e c')
          | Ok None => ((visited ++ [n])%list, Finished c')
          | Ok (Some n') => run_graph k n' (visited ++ [n])%list c'
          end
      end
  end.

Definition recursion_limit : nat := 15.

Definition ainvoke (c : config) : list node * outcome :=
  run_graph recursion_limit NPlan [] c.

(** the concrete initial state of [execute_task_with_context] (graph.py
    117-141) *)
Definition initial_state (task domain : string) (login_context : value)
  : WebAutomationState :=
  {| task := task;
     domain := domain;
     retrieved_context := login_context;
     website_schema :=
       VDict [("login_url", VStr "http://lms2.ai.saveetha.in/login/index.php");
              ("selectors",
               VDict [("username", VStr "#username");
                      ("password", VStr "#password");
                      ("loginbtn", VStr "#loginbtn")])];
     plan := VDict [];
     current_step := 0;
     steps_completed := [];
     browser_state := VDict [];
     form_data := VDict [("username", VStr ""); ("password", VStr "")];
     success := false;
     error := VNone;
     screenshots := [];
     agent_reasoning := "";
     execution_id := new_uuid;
     timestamp := now;
     retries := 0 |}.

(** what [execute_task_with_context] returns: the state the graph ended
    in, or the failure record of the [except] branch *)
Inductive task_result : Type :=
| Completed (s : WebAutomationState)
| Aborted (error : string).

(** [execute_task_with_context] (graph.py 101-166), with the nodes run and
    the collaborator calls made *)
Definition execute_task_with_context (task domain : string)
  : task_result * list node * list event :=
  let t0 := [ToolCall "initialize" []] in
  match browser [] "initialize" [] with
  | Raise e => (Aborted (Py.str_exn e), [], (t0 ++ [ToolCall "close" []])%list)
  | Ok _ =>
      match kb_search "login form username password" with
      | Raise e => (Aborted (Py.str_exn e), [], (t0 ++ [ToolCall "close" []])%list)
      | Ok login_context =>
          let state := initial_state task domain login_context in
          match ainvoke (mkConfig state t0) with
          | (visited, Finished c) =>
              (Completed c.(st), visited, (c.(trace) ++ [ToolCall "close" []])%list)
          | (visited, Failed e c) =>
              (Aborted (Py.str_exn e), visited,
               (c.(trace) ++ [ToolCall "close" []])%list)
          | (visited, RecursionLimit c) =>
              (Aborted (recursion_error_text recursion_limit), visited,
               (c.(trace) ++ [ToolCall "close" []])%list)
          end
      end
  end.

End Graph.

(** ** The cycles of a run *)

(** the most Validate runs a graph run can still hold, by node and by the
    engine steps left *)
Definition budget (n : node) (limit : nat) : nat :=
  match n with
  | NPlan => (limit - 1) / 2
  | NExecute => limit / 2
  | NValidate => (limit + 1) / 2
  end.

(** ** Frames of the nodes *)

(** The fields the router leaves alone: all but [success], [error] and
    [retries]. *)
Definition router_frame (s s' : WebAutomationState) : Prop :=
  task s' = task s
  /\ domain s' = domain s
  /\ retrieved_context s' = retrieved_context s
  /\ website_schema s' = website_schema s
  /\ plan s' = plan s
  /\ current_step s' = current_step s
  /\ steps_completed s' = steps_completed s
  /\ browser_state s' = browser_state s
  /\ form_data s' = form_data s
  /\ screenshots s' = screenshots s
  /\ agent_reasoning s' = agent_reasoning s
  /\ execution_id s' = execution_id s
  /\ timestamp s' = timestamp s.

(** [steps_completed] as a record of validated steps: every recorded index
    is a step already passed, and none is recorded twice. *)
Definition recorded_below (s : WebAutomationState) : Prop :=
  Forall (fun i => 0 <= i < current_step s) (steps_completed s)
  /\ NoDup (steps_completed s).

(** the state [validate_step] leaves after a success verdict at
    [current_step], on a plan of [n] steps *)
Definition validated (n : Z) (s : WebAutomationState) : WebAutomationState :=
  let s1 := set_current_step (current_step s + 1)
              (set_steps_completed (steps_completed s ++ [current_step s])%list s) in
  if current_step s + 1 >=? n then set_success true s1 else s1.

(** the last step of the heuristic plan *)
Definition screenshot_step : value :=
  VDict [("step", VInt 5); ("action", VStr "screenshot");
         ("target", VStr "final_result");
         ("expected_outcome", VStr "Evidence captured")].

(** a language model that fails *)
Definition failing_llm (_ : list event) (_ : string) : result string :=
  Raise (CollaboratorError "connection refused").

(** the prompt [plan_workflow] sends for a state *)
Definition planner_prompt_of (s : WebAutomationState) : string :=
  PLANNER_PROMPT s.(task) s.(domain) (PyStr.take 2000 (Py.str s.(retrieved_context))).

(** a plan as a language model may return it, and a reader of its reply *)
Definition model_plan : value :=
  VDict [("steps",
          VList [VDict [("step", VInt 1); ("action", VStr "navigate");
                        ("target", VStr "https://news.ycombinator.com/login")];
                 VDict [("step", VInt 2); ("action", VStr "click");
                        ("target", VStr "input[type=submit]")]])].
Definition plan_reply : string := "PLAN".
Definition planning_llm (_ : list event) (_ : string) : result string := Ok plan_reply.
Definition plan_loads (text : string) : option value :=
  if String.eqb text plan_reply then Some model_plan else None.

(** ** The executor, step by step *)

(** the actions [execute_action] dispatches on (executor.py 30-72) *)
Definition known_actions : list string :=
  ["navigate"; "fill"; "fill_form"; "click"; "select"; "submit"; "wait";
   "extract"; "screenshot"].

(** a computation that leaves the shared state as it found it *)
Definition state_kept {A} (m : M A) : Prop :=
  forall c, st (snd (m c)) = st c.

(** What the statements after the dispatch (executor.py 83-92) do to the
    state for a result [rd], a dict: a successful result overwrites
    [browser_state] and records a ["path"], any other sets [error]; the
    result is serialised into [agent_reasoning] either way. *)
Definition stored (json_dumps : value -> string) (rd : list (string * value))
           (s : WebAutomationState) : WebAutomationState :=
  let result := VDict rd in
  let reasoning := json_dumps (if Py.truthy result then result else VDict []) in
  let ok :=
    (Py.truthy result
     && Py.truthy (match Py.lookup "success" rd with Some v => v | None => VNone end))%bool in
  if ok then
    let s1 :=
      set_browser_state
        (match Py.lookup "page_state" rd with Some v => v | None => VDict [] end) s in
    let s2 :=
      match Py.lookup "path" rd with
      | Some path => set_screenshots (screenshots s1 ++ [path])%list s1
      | None => s1
      end in
    set_agent_reasoning reasoning s2
  else
    let err :=
      if Py.truthy result
      then match Py.lookup "error" rd with Some v => v | None => VStr "Action failed" end
      else VStr "No result" in
    set_agent_reasoning reasoning (set_error err s).

(** [f"screenshots/step-{current_step + 1}.png"] *)
Definition screenshot_path (current_step : Z) : string :=
  "screenshots/step-" ++ PyStr.of_Z (current_step + 1) ++ ".png".


(** The fields the executor may write are [browser_state], [error],
    [screenshots], [agent_reasoning] and [success]; of these, [screenshots]
    only grows, by one entry at most, and [success] is only ever raised. *)
Definition executor_frame (s s' : WebAutomationState) : Prop :=
  task s' = task s
  /\ domain s' = domain s
  /\ retrieved_context s' = retrieved_context s
  /\ website_schema s' = website_schema s
  /\ plan s' = plan s
  /\ current_step s' = current_step s
  /\ steps_completed s' = steps_completed s
  /\ form_data s' = form_data s
  /\ execution_id s' = execution_id s
  /\ timestamp s' = timestamp s
  /\ retries s' = retries s
  /\ (screenshots s' = screenshots s
      \/ exists path, screenshots s' = (screenshots s ++ [path])%list)
  /\ (success s' = success s
      \/ (success s' = true
          /\ exists stp n,
              Py.get (plan s) "steps" (VList []) = Ok stp
              /\ Py.len stp = Ok n /\ n <= current_step s)).

(** ** Invariants of a run *)

(** the state before planning, as [execute_task_with_context] builds it *)
Definition fresh (s : WebAutomationState) : Prop :=
  current_step s = 0 /\ steps_completed s = [] /\ retries s = 0
  /\ success s = false.

(** What holds of the state after the plan node and after every later
    node.  No node writes [retries], and what the router adds to it is not
    kept. *)
Definition run_inv (s : WebAutomationState) : Prop :=
  exists steps,
    plan_steps s = Some steps
    /\ (1 <= List.length steps)%nat
    /\ 0 <= current_step s <= Z.of_nat (List.length steps)
    /\ retries s = 0
    /\ recorded_below s
    /\ (success s = true -> current_step s = Z.of_nat (List.length steps)).

(** a run before the end of its plan: a step is left, [success] is not set
    and the last step is not recorded *)
Definition underway (s : WebAutomationState) : Prop :=
  exists steps,
    plan_steps s = Some steps
    /\ current_step s < Z.of_nat (List.length steps)
    /\ success s = false
    /\ ~ In (Z.of_nat (List.length steps) - 1) (steps_completed s).

(** [success] says that the validator passed the last step of the plan *)
Definition reports_last_step (s : WebAutomationState) : Prop :=
  exists steps,
    plan_steps s = Some steps
    /\ (success s = true
        <-> In (Z.of_nat (List.length steps) - 1) (steps_completed s)).

(** why the router answers DONE in a run: the plan was walked to its end,
    or the step ceiling was reached *)
Definition done_reason (s : WebAutomationState) : Prop :=
  (exists steps,
      plan_steps s = Some steps
      /\ current_step s = Z.of_nat (List.length steps))
  \/ 10 <= current_step s.

(** a knowledge base without entries *)
Definition empty_kb (_ : string) : result value := Ok (VList []).

(** the edges of [_build_graph] on a CONTINUE: plan, execute, validate,
    execute, validate, ... *)
Definition next_in_order (n : node) : node :=
  match n with
  | NPlan => NExecute
  | NExecute => NValidate
  | NValidate => NExecute
  end.

Fixpoint expected_order (k : nat) (n : node) : list node :=
  match k with
  | O => []
  | S k' => n :: expected_order k' (next_in_order n)
  end.

(** the state a graph run stopped in *)
Definition final_config (o : outcome) : config :=
  match o with
  | Finished c => c
  | Failed _ c => c
  | RecursionLimit c => c
  end.

(** what a node may assume of the state it is handed *)
Definition node_pre (n : node) (s : WebAutomationState) : Prop :=
  match n with
  | NPlan => fresh s
  | _ => run_inv s /\ underway s
  end.

(** ** The knowledge base builder ([src/knowledge_base/retriever.py]) *)

Module Chunker.

(** [s[n:]] for [n >= 0] *)
Fixpoint skip (n : nat) (s : string) : string :=
  match n, s with
  | S k, String _ t => skip k t
  | _, _ => s
  end.

(** an index of a slice, brought into [0, len] as Python does *)
Definition clamp (len x : Z) : Z :=
  if x <? 0 then Z.max 0 (x + len) else Z.min x len.

(** [s[lo:hi]] *)
Definition slice (s : string) (lo hi : Z) : string :=
  let len := Z.of_nat (String.length s) in
  let l := clamp len lo in
  let h := clamp len hi in
  if l <? h then PyStr.take (Z.to_nat (h - l)) (skip (Z.to_nat l) s)
  else EmptyString.

(** [range(0, stop, step)] as a list; [None] is the [ValueError] Python
    raises for a step of zero *)
Definition range0 (stop step : Z) : option (list Z) :=
  if step =? 0 then None
  else
    let count :=
      if step <? 0 then (- stop - step - 1) / (- step)
      else (stop + step - 1) / step in
    Some (map (fun k => Z.of_nat k * step) (seq 0 (Z.to_nat count))).

(** [_chunk_text] (retriever.py 14-19) *)
Definition _chunk_text (text : string) (chunk_size overlap : Z)
  : option (list string) :=
  match range0 (Z.of_nat (String.length text)) (chunk_size - overlap) with
  | None => None
  | Some starts => Some (map (fun i => slice text i (i + chunk_size)) starts)
  end.

(** [chunk_size] and [overlap] as [build_from_scraped_pages] and the
    defaults give them *)
Definition default_overlap : Z := 100.
Definition page_chunk_size : Z := 1500.

Fixpoint join (l : list string) : string :=
  match l with
  | [] => EmptyString
  | x :: t => x ++ join t
  end.

End Chunker.

(** * The scraper (scraper/web_scraper.py)

    Playwright, BeautifulSoup and urllib are collaborators: the start of
    the browser ([initialize]), what a page load gives ([browse]: the
    content of the page, or the message of whatever stopped the load), the
    title, the forms BeautifulSoup finds in a page, the links of a page
    joined with its URL, the comparison of network locations behind
    [_is_same_domain] (urlparse raises on a malformed URL) and the order in
    which [list(set(...))] lists a set. *)
Module Scraper.

Record scraper : Type := {
  visited : list string;              (* self.visited, latest first *)
  scraped_pages : list (string * value);  (* self.scraped_pages *)
  loads : list string                 (* the URLs given to the browser, latest first *)
}.

(** [__init__] (web_scraper.py 11-19) *)
Definition fresh : scraper :=
  {| visited := []; scraped_pages := []; loads := [] |}.

(** [url in urls] *)
Definition mem (url : string) (urls : list string) : bool :=
  existsb (String.eqb url) urls.

(** [d[k] = v] *)
Fixpoint dict_set (k : string) (v : value) (d : list (string * value))
  : list (string * value) :=
  match d with
  | [] => [(k, v)]
  | (k', v') :: t =>
      if String.eqb k k' then (k, v) :: t else (k', v') :: dict_set k v t
  end.

Definition error_page (url msg : string) : value :=
  VDict [("url", VStr url); ("error", VStr msg); ("status", VStr "error")].

Definition success_page (url title html : string) (forms : value) : value :=
  VDict [("url", VStr url); ("title", VStr title);
         ("html", VStr (PyStr.take (Z.to_nat 30000) html));
         ("forms", forms); ("status", VStr "success")].

Section Scrape.

Variable domain : string.
Variable depth : Z.
Variable initialize : result unit.
Variable browse : list string -> string -> result string.
Variable page_title : string -> result string.
Variable find_forms : string -> result value.
Variable find_links : string -> value -> result (list string).
Variable same_netloc : string -> result bool.
Variable set_order : list string -> list string.

(** [scrape_page] (web_scraper.py 49-147): every failure inside the [try]
    ends in a page of status error *)
Definition scrape_page (url : string) (s : scraper) : value * scraper :=
  if mem url (visited s) then
    (match Py.lookup url (scraped_pages s) with
     | Some page => page
     | None => VDict []
     end, s)
  else
    let s1 := {| visited := url :: visited s;
                 scraped_pages := scraped_pages s;
                 loads := url :: loads s |} in
    match browse (loads s) url with
    | Raise e => (error_page url (Py.str_exn e), s1)
    | Ok html =>
        if (String.eqb html "" || (Z.of_nat (String.length html) <? 100))%bool
        then (error_page url "Empty page content", s1)
        else
          let title :=
            match page_title url with
            | Ok t => t
            | Raise _ => "No title"
            end in
          match find_forms html with
          | Raise e => (error_page url (Py.str_exn e), s1)
          | Ok forms =>
              let page_data := success_page url title html forms in
              (page_data,
               {| visited := visited s1;
                  scraped_pages := dict_set url page_data (scraped_pages s1);
                  loads := loads s1 |})
          end
    end.

(** the loop over the links of a page (web_scraper.py 167-170) *)
Fixpoint add_links (s : scraper) (links next_level : list string)
  : result (list string) :=
  match links with
  | [] => Ok next_level
  | link_url :: t =>
      (same <- same_netloc link_url ;;
       add_links s t
         (if (same && negb (mem link_url (visited s)))%bool
          then (next_level ++ [link_url])%list
          else next_level))%result
  end.

(** the loop over [to_visit[:5]] (web_scraper.py 160-170) *)
Fixpoint visit (urls next_level : list string) (s : scraper)
  : result (list string) * scraper :=
  match urls with
  | [] => (Ok next_level, s)
  | url :: t =>
      if mem url (visited s) then visit t next_level s
      else
        let (page_data, s1) := scrape_page url s in
        match Py.get page_data "status" VNone with
        | Raise e => (Raise e, s1)
        | Ok status =>
            if Py.is_str "success" status then
              match (html <- Py.getitem page_data "html" ;;
                     links <- find_links url html ;;
                     add_links s1 links next_level)%result with
              | Raise e => (Raise e, s1)
              | Ok next_level' => visit t next_level' s1
              end
            else visit t next_level s1
        end
  end.

Definition is_empty (urls : list string) : bool :=
  match urls with
  | [] => true
  | _ => false
  end.

(** the [while] loop (web_scraper.py 157-173); [None] when the fuel runs
    out before the loop ends *)
Fixpoint levels (fuel : nat) (to_visit : list string) (current_depth : Z)
         (s : scraper) : option (result unit * scraper) :=
  match fuel with
  | O => None
  | S fuel' =>
      if (negb (is_empty to_visit) && (current_depth <? depth))%bool then
        match visit (firstn 5 to_visit) [] s with
        | (Raise e, s') => Some (Raise e, s')
        | (Ok next_level, s') =>
            levels fuel' (firstn 10 (set_order next_level)) (current_depth + 1) s'
        end
      else Some (Ok tt, s)
  end.

(** [scrape] (web_scraper.py 151-181); [close] in the [finally] keeps its
    own failures to itself *)
Definition scrape (fuel : nat) (s : scraper)
  : option (result (list (string * value)) * scraper) :=
  match initialize with
  | Raise e => Some (Raise e, s)
  | Ok _ =>
      match levels fuel [domain] 0 s with
      | None => None
      | Some (Raise e, s') => Some (Raise e, s')
      | Some (Ok _, s') => Some (Ok (scraped_pages s'), s')
      end
  end.

End Scrape.

(** what [scrape] needs of fuel: one round of the loop for each level *)
Definition enough_fuel (depth : Z) : nat := S (Z.to_nat depth).

(** the pages the loop can still load: one for each URL at hand, at most
    five, then five for each further level *)
Definition page_bound (to_visit : list string) (levels_left : Z) : nat :=
  if levels_left <=? 0 then 0%nat
  else (Nat.min 5 (List.length to_visit) + 5 * (Z.to_nat levels_left - 1))%nat.

(** a page as the success branch of [scrape_page] stores it *)
Definition stored_page (url : string) (page : value) : Prop :=
  exists title html forms,
    page = success_page url title html forms
    /\ 100 <= Z.of_nat (String.length html).

(** no page is stored under a URL that was not visited *)
Definition consistent (s : scraper) : Prop :=
  forall url, mem url (visited s) = false ->
              Py.lookup url (scraped_pages s) = None.

(** what the scraper keeps true of itself from [__init__] on *)
Definition scraper_inv (s : scraper) : Prop :=
  NoDup (visited s)
  /\ loads s = visited s
  /\ NoDup (map fst (scraped_pages s))
  /\ forall url page, In (url, page) (scraped_pages s) ->
                      In url (visited s) /\ stored_page url page.

End Scraper.

(** ** Concrete inputs *)


Definition hn_task : string :=
  "Log into HackerNews. Username is 'bob'. Password is 'secret'.".
Definition hn_domain : string := "https://news.ycombinator.com/login".

(** the heuristic plan for the HackerNews task: five steps *)
Definition hn_plan : value := Planner.generate_heuristic_plan hn_task hn_domain.

Definition hn_steps : list value :=
  match hn_plan with
  | VDict [(_, VList l)] => l
  | _ => []
  end.

(** a page still showing the login form *)
Definition login_page : value :=
  VDict [("url", VStr "http://example.com/login/index.php");
         ("title", VStr "Log in");
         ("html", VStr "<form id=#login>")].

(** a state in the middle of the HackerNews plan *)
Definition state_at (current_step : Z) (error : value) (retries : Z)
  : WebAutomationState :=
  {| task := hn_task;
     domain := hn_domain;
     retrieved_context := VList [];
     website_schema := VDict [];
     plan := hn_plan;
     current_step := current_step;
     steps_completed := [];
     browser_state := login_page;
     form_data := VDict [];
     success := false;
     error := error;
     screenshots := [];
     agent_reasoning := "";
     execution_id := "id";
     timestamp := "t";
     retries := retries |}.

(** a page after login, showing a post-login marker *)
Definition dashboard_page : value :=
  VDict [("url", VStr "http://example.com/my");
         ("title", VStr "Home");
         ("html", VStr "<h1>dashboard</h1>")].

Definition wait_step : value :=
  VDict [("step", VInt 4); ("action", VStr "wait"); ("target", VStr "#page");
         ("expected_outcome", VStr "Logged in")].

(** a language model that always judges the step failed, not to be
    retried, and a [json.loads] that reads that reply *)
Definition judge_reply : string := "FAILED".
Definition judge_llm (_ : list event) (_ : string) : result string := Ok judge_reply.
Definition judge_loads (text : string) : option value :=
  if String.eqb text judge_reply
  then Some (VDict [("success", VBool false);
                    ("reason", VStr "still on the login page");
                    ("should_retry", VBool false)])
  else None.

(** the task written as [src/main.py] writes it, a space before each period *)
Definition spaced_task : string :=
  "Log into HackerNews. Username is 'bob' . Password is 'secret' .".

(** [step.get(k)], [None] also for a step that is not a dict *)
Definition step_field (k : string) (step : value) : value :=
  match Py.get step k VNone with
  | Ok v => v
  | Raise _ => VNone
  end.

Definition actions_of (steps : list value) : list value :=
  map (step_field "action") steps.

(** [step["data"]["value"]] *)
Definition data_value (step : value) : value :=
  step_field "value" (step_field "data" step).

(** collaborators that do nothing *)
Definition idle_browser (_ : list event) (_ : string) (_ : list value) : result value :=
  Ok (VDict []).
Definition plain_dumps (v : value) : string := Py.repr v.
Definition plain_int (v : value) : result Z :=
  match v with
  | VInt n => Ok n
  | _ => Raise (TypeError "int() argument must be a string or a number")
  end.

(** the state [execute_task_with_context] starts from: no plan yet *)
Definition unplanned_state : WebAutomationState :=
  initial_state "id" "t" hn_task hn_domain (VList []).

(** The fields the step executor leaves alone. *)
Definition kept (s s' : WebAutomationState) : Prop :=
  current_step s' = current_step s
  /\ plan s' = plan s
  /\ retries s' = retries s
  /\ steps_completed s' = steps_completed s
  /\ task s' = task s
  /\ domain s' = domain s.

Definition preserves {A} (m : M A) : Prop :=
  forall c, kept (st c) (st (snd (m c))).

(** steps an executor may meet, and browsers that answer or fail *)
Definition hover_step : value :=
  VDict [("step", VInt 1); ("action", VStr "Hover"); ("target", VStr "#menu")].

Definition state_with_steps (steps : list value) (current_step : Z)
  : WebAutomationState :=
  set_plan (VDict [("steps", VList steps)]) (state_at current_step VNone 0).

Definition home_page : value :=
  VDict [("url", VStr "http://example.com/"); ("title", VStr "Home");
         ("html", VStr "<html></html>")].

Definition ready_browser (_ : list event) (method : string) (args : list value)
  : result value :=
  if String.eqb method "get_page_state" then Ok home_page
  else if String.eqb method "screenshot"
       then Ok (match args with [path] => path | _ => VNone end)
       else Ok VNone.

Definition broken_browser (_ : list event) (_ : string) (_ : list value)
  : result value :=
  Raise (CollaboratorError "Target closed").

(** a plan of six steps as a language model may return it: log in, wait
    for the page, read its heading.  The validator's heuristics have no
    rule for waiting and none for extracting. *)
Definition long_steps : list value :=
  [VDict [("step", VInt 1); ("action", VStr "navigate");
          ("target", VStr "https://news.ycombinator.com/login")];
   VDict [("step", VInt 2); ("action", VStr "fill");
          ("target", VStr "input[name=acct]"); ("data", VDict [("value", VStr "bob")])];
   VDict [("step", VInt 3); ("action", VStr "fill");
          ("target", VStr "input[name=pw]"); ("data", VDict [("value", VStr "secret")])];
   VDict [("step", VInt 4); ("action", VStr "click");
          ("target", VStr "input[type=submit]")];
   VDict [("step", VInt 5); ("action", VStr "wait"); ("target", VStr "#hnmain")];
   VDict [("step", VInt 6); ("action", VStr "extract"); ("target", VStr "#me")]].

Definition long_plan : value := VDict [("steps", VList long_steps)].

Definition long_reply : string := "LONG PLAN".
Definition long_llm (_ : list event) (_ : string) : result string := Ok long_reply.
Definition long_loads (text : string) : option value :=
  if String.eqb text long_reply then Some long_plan else None.

(** a run on the six-step plan before its last step is validated: the
    router has stored nothing *)
Definition on_long_plan (s : WebAutomationState) : Prop :=
  plan s = long_plan
  /\ retries s = 0
  /\ success s = false
  /\ 0 <= current_step s <= 5.

(** the state and trace the graph is started on, for the task of [main] *)
Definition long_start : config :=
  mkConfig (initial_state "id" "t" hn_task hn_domain (VList []))
           [ToolCall "initialize" []].

(** a browser that stays on the login page *)
Definition login_browser (_ : list event) (method : string) (args : list value)
  : result value :=
  if String.eqb method "get_page_state" then Ok login_page
  else if String.eqb method "screenshot"
       then Ok (match args with [path] => path | _ => VNone end)
       else Ok VNone.

(** a text to stand for the engine's recursion error in runs that do not
    reach the limit *)
Definition limit_text (limit : nat) : string :=
  "Recursion limit of " ++ PyStr.of_Z (Z.of_nat limit) ++ " reached".

(** a small site for the scraper: a login page that links to a page that
    loads and to one that does not *)
Definition site_page : string :=
  "<html><head><title>Login</title></head><body><form id='login'>"
  ++ "<input name='acct'><input name='pw'></form>"
  ++ "<a href='/news'>news</a><a href='/missing'>gone</a></body></html>".

Definition site_news : string := "https://news.ycombinator.com/news".
Definition site_missing : string := "https://news.ycombinator.com/missing".

Definition site_browse (_ : list string) (url : string) : result string :=
  if String.eqb url site_missing then Raise (CollaboratorError "net::ERR_ABORTED")
  else Ok site_page.

Definition site_title (_ : string) : result string := Ok "Login".

Definition site_forms (_ : string) : result value := Ok (VList []).

Definition site_links (_ : string) (_ : value) : result (list string) :=
  Ok [site_news; site_missing; site_news].

Definition site_netloc (_ : string) : result bool := Ok true.

Definition site_order (urls : list string) : list string :=
  nodup string_dec urls.

(** * Properties *)

(** rewrite a comparison the hypotheses decide *)
Ltac settle b v :=
  let H := fresh "Hcmp" in
  assert (H : b = v) by lia; rewrite H; clear H.

(** ** The router *)

Lemma plan_steps_get_steps (s : WebAutomationState) (steps : list value) :
  plan_steps s = Some steps -> get_steps s = Ok (VList steps).
Proof.
  unfold plan_steps, get_steps, Py.get.
  destruct (plan s) as [| | | | | |d]; try discriminate.
  destruct (Py.lookup "steps" d) as [v|].
  - destruct v; try discriminate. now intros [= ->].
  - now intros [= <-].
Qed.

(** The five rules of the router, in their order, on a state whose plan is
    well formed. *)
Lemma should_continue_rules (s : WebAutomationState) (steps : list value) :
  plan_steps s = Some steps ->
  _should_continue s =
    if (Py.truthy s.(error) && (s.(retries) >=? 2))%bool then Ok (Done, s)
    else if (s.(success) || (s.(current_step) >=? Z.of_nat (List.length steps)))%bool
         then Ok (Done, set_success true s)
    else if s.(current_step) >=? 10 then Ok (Done, s)
    else if Py.truthy s.(error)
         then Ok (Continue, set_error VNone (set_retries (s.(retries) + 1) s))
    else Ok (Continue, s).
Proof.
  intros Hp. unfold _should_continue.
  rewrite (plan_steps_get_steps _ _ Hp). cbn [rbind Py.len].
  destruct (Py.truthy (error s) && (retries s >=? 2))%bool; [reflexivity|].
  destruct (success s); cbn [rbind orb]; [reflexivity|].
  destruct (current_step s >=? Z.of_nat (List.length steps)); reflexivity.
Qed.

(** C1: with [error] set, the router answers DONE once [retries >= 2];
    otherwise, when neither the completion rule nor the step ceiling fires,
    it answers CONTINUE with [retries] incremented by one and [error]
    cleared, every other field (so [current_step]) as it was.  From
    [retries = 1] this gives [retries = 2], and the next evaluation with
    [error] set again answers DONE. *)
Theorem router_error_precedence (s : WebAutomationState) :
  Py.truthy s.(error) = true ->
  (2 <= s.(retries) -> _should_continue s = Ok (Done, s))
  /\ (forall steps,
        plan_steps s = Some steps ->
        s.(retries) < 2 -> s.(success) = false ->
        s.(current_step) < Z.of_nat (List.length steps) -> s.(current_step) < 10 ->
        _should_continue s
        = Ok (Continue, set_error VNone (set_retries (s.(retries) + 1) s)))
  /\ (forall steps,
        plan_steps s = Some steps ->
        s.(retries) = 1 -> s.(success) = false ->
        s.(current_step) < Z.of_nat (List.length steps) -> s.(current_step) < 10 ->
        exists s',
          _should_continue s = Ok (Continue, s')
          /\ s'.(retries) = 2 /\ s'.(error) = VNone
          /\ s'.(current_step) = s.(current_step)
          /\ forall e, Py.truthy e = true ->
                       _should_continue (set_error e s') = Ok (Done, set_error e s')).
Proof.
  intros He.
  assert (Hcont : forall steps,
             plan_steps s = Some steps ->
             retries s < 2 -> success s = false ->
             current_step s < Z.of_nat (List.length steps) -> current_step s < 10 ->
             _should_continue s
             = Ok (Continue, set_error VNone (set_retries (retries s + 1) s))).
  { intros steps Hp Hr Hs Hl Hc.
    rewrite (should_continue_rules _ _ Hp), He, Hs. cbn [andb orb].
    settle (retries s >=? 2) false.
    settle (current_step s >=? Z.of_nat (List.length steps)) false.
    settle (current_step s >=? 10) false.
    reflexivity. }
  split; [|split].
  - intros Hr. unfold _should_continue. rewrite He.
    settle (retries s >=? 2) true. reflexivity.
  - exact Hcont.
  - intros steps Hp Hr Hs Hl Hc.
    exists (set_error VNone (set_retries (retries s + 1) s)).
    split; [apply (Hcont steps); auto; lia|].
    cbn. repeat split; try lia.
    intros e Hte. unfold _should_continue. cbn. rewrite Hte.
    settle (retries s + 1 >=? 2) true. reflexivity.
Qed.

Lemma router_error_precedence_witness :
  Py.truthy (VStr "Timeout") = true
  /\ exists s',
      _should_continue (state_at 3 (VStr "Timeout") 1) = Ok (Continue, s')
      /\ s'.(retries) = 2 /\ s'.(error) = VNone
      /\ s'.(current_step) = 3
      /\ forall e, Py.truthy e = true ->
                   _should_continue (set_error e s') = Ok (Done, set_error e s').
Proof.
  split; [reflexivity|].
  destruct (router_error_precedence (state_at 3 (VStr "Timeout") 1) eq_refl)
    as [_ [_ H]].
  apply (H hn_steps); reflexivity.
Defined.

(** C3: at [current_step >= 10] the router answers DONE whatever the plan,
    the error and the retries: rule 1 or rule 2 fires, or else the step
    ceiling does. *)
Theorem router_step_ceiling (s : WebAutomationState) (steps : list value) :
  plan_steps s = Some steps ->
  10 <= s.(current_step) ->
  exists s', _should_continue s = Ok (Done, s')
             /\ s'.(current_step) = s.(current_step)
             /\ s'.(error) = s.(error) /\ s'.(retries) = s.(retries).
Proof.
  intros Hp Hc. rewrite (should_continue_rules _ _ Hp).
  destruct (Py.truthy (error s) && (retries s >=? 2))%bool; [now exists s|].
  destruct (success s || (current_step s >=? Z.of_nat (List.length steps)))%bool;
    [now exists (set_success true s)|].
  settle (current_step s >=? 10) true.
  now exists s.
Qed.

Lemma router_step_ceiling_witness :
  plan_steps (state_at 10 VNone 0) = Some hn_steps
  /\ 10 <= current_step (state_at 10 VNone 0)
  /\ exists s', _should_continue (state_at 10 VNone 0) = Ok (Done, s')
                /\ s'.(current_step) = 10
                /\ s'.(error) = VNone /\ s'.(retries) = 0.
Proof.
  split; [reflexivity|]. split; [cbn; lia|].
  apply (router_step_ceiling (state_at 10 VNone 0) hn_steps); [reflexivity|cbn; lia].
Defined.

(** ** The validator *)

Lemma validate_recover_eq (e : exn) (s : WebAutomationState) (tr : list event) :
  validate_recover e (mkConfig s tr) = (Ok tt, mkConfig (recovered e s) tr).
Proof.
  unfold validate_recover, recovered, bind, read, modify. cbn [st trace].
  now destruct (current_step s <=? 4).
Qed.

(** case analysis on an innermost scrutinee of the goal *)
Ltac break_inner :=
  match goal with
  | |- context [match ?x with _ => _ end] =>
      lazymatch x with
      | context [match _ with _ => _ end] => fail
      | _ => destruct x eqn:?
      end
  end.

Section ValidatorFacts.

Variable llm : list event -> string -> result string.
Variable json_loads : string -> option value.

(** What one run of [validate_step] can do to the fields the router
    reads: it returns normally, keeps [plan] and [retries], and moves
    [current_step] by at most one, and only from below [len(steps)]. *)
Lemma validate_step_moves (c : config) (steps : list value) :
  plan_steps c.(st) = Some steps ->
  let r := validate_step llm json_loads c in
  fst r = Ok tt
  /\ plan (st (snd r)) = plan (st c)
  /\ retries (st (snd r)) = retries (st c)
  /\ (current_step (st (snd r)) = current_step (st c)
      \/ (current_step (st (snd r)) = current_step (st c) + 1
          /\ current_step (st c) < Z.of_nat (List.length steps))).
Proof.
  intros Hp. pose proof (plan_steps_get_steps _ _ Hp) as Hg.
  unfold get_steps in Hg.
  destruct c as [s tr]. cbn [st] in *.
  unfold validate_step, try_except, bind, read, lift, modify, ret, llm_ainvoke.
  cbn [st trace]. rewrite Hg. cbn [Py.len].
  destruct (current_step s >=? Z.of_nat (List.length steps)) eqn:Hge.
  - cbn. auto.
  - assert (Hlt : current_step s < Z.of_nat (List.length steps)) by lia.
    unfold validate_recover, bind, read, modify.
    repeat (break_inner; cbn [fst snd st trace current_step plan retries
                               set_success set_error set_current_step
                               set_steps_completed current_step_of]);
      auto 6.
Qed.

(** When the heuristic tier returns [None] for the current step, the
    verdict lookup raises and the handler alone decides. *)
Lemma validate_step_no_verdict (c : config) (steps : list value) (step : value) :
  plan_steps c.(st) = Some steps ->
  current_step c.(st) < Z.of_nat (List.length steps) ->
  Py.index (VList steps) (current_step c.(st)) = Ok step ->
  validate_heuristic step (browser_state c.(st)) (error c.(st))
                     (current_step c.(st)) = Ok VNone ->
  validate_step llm json_loads c
  = (Ok tt, mkConfig (recovered (AttributeError "NoneType" "get") c.(st)) c.(trace)).
Proof.
  intros Hp Hlt Hi Hv. pose proof (plan_steps_get_steps _ _ Hp) as Hg.
  unfold get_steps in Hg. destruct c as [s tr]. cbn [st trace] in *.
  unfold validate_step, try_except, bind, read, lift, modify, ret.
  cbn [st trace]. rewrite Hg. cbn [Py.len].
  settle (current_step s >=? Z.of_nat (List.length steps)) false.
  rewrite Hi.
  assert (Hd : exists d, step = VDict d).
  { unfold validate_heuristic in Hv. destruct step; cbn in Hv; try discriminate.
    eauto. }
  destruct Hd as [d ->]. cbn [Py.get]. rewrite Hv. cbn [Py.get Py.type_name].
  apply validate_recover_eq.
Qed.

End ValidatorFacts.

Lemma plan_steps_same_plan (s s' : WebAutomationState) :
  plan s' = plan s -> plan_steps s' = plan_steps s.
Proof. unfold plan_steps. now intros ->. Qed.

Lemma should_continue_frame (s s' : WebAutomationState) (r : route) :
  _should_continue s = Ok (r, s') ->
  plan s' = plan s /\ current_step s' = current_step s
  /\ steps_completed s' = steps_completed s.
Proof.
  unfold _should_continue, rbind.
  repeat (break_inner; try discriminate); intros [= <- <-]; cbn; auto.
Qed.

(** C4: from a state with [0 <= current_step <= len(plan.steps)], one run of
    the validator (whatever the language model answers) and one evaluation of
    the router each leave [0 <= current_step <= len(plan.steps)]; the
    validator moves [current_step] by at most one and only from below
    [len(plan.steps)], and the router returns with [current_step] as it
    found it. *)
Theorem step_index_invariant
        (llm : list event -> string -> result string)
        (json_loads : string -> option value)
        (c : config) (steps : list value) :
  plan_steps c.(st) = Some steps ->
  0 <= current_step c.(st) <= Z.of_nat (List.length steps) ->
  (let c' := snd (validate_step llm json_loads c) in
   fst (validate_step llm json_loads c) = Ok tt
   /\ plan_steps c'.(st) = Some steps
   /\ 0 <= current_step c'.(st) <= Z.of_nat (List.length steps)
   /\ current_step c.(st) <= current_step c'.(st) <= current_step c.(st) + 1)
  /\ (exists r s',
        _should_continue c.(st) = Ok (r, s')
        /\ plan_steps s' = Some steps
        /\ current_step s' = current_step c.(st)).
Proof.
  intros Hp Hb. split.
  - destruct (validate_step_moves llm json_loads c steps Hp) as (Hr & Hpl & _ & Hcs).
    cbn zeta. split; [exact Hr|]. split.
    + now rewrite (plan_steps_same_plan _ _ Hpl).
    + lia.
  - rewrite (should_continue_rules _ _ Hp).
    repeat break_inner; eexists _, _; (split; [reflexivity|]); cbn; auto.
Qed.

Lemma hn_steps_length : Z.of_nat (List.length hn_steps) = 5.
Proof. reflexivity. Qed.

Lemma step_index_invariant_witness :
  plan_steps (state_at 4 VNone 0) = Some hn_steps
  /\ 0 <= current_step (state_at 4 VNone 0) <= Z.of_nat (List.length hn_steps)
  /\ 0 <= current_step
            (st (snd (validate_step judge_llm judge_loads
                                    (mkConfig (state_at 4 VNone 0) []))))
       <= Z.of_nat (List.length hn_steps).
Proof.
  assert (Hb : 0 <= current_step (state_at 4 VNone 0)
               <= Z.of_nat (List.length hn_steps))
    by (rewrite hn_steps_length; cbn; lia).
  split; [reflexivity|]. split; [exact Hb|].
  destruct (step_index_invariant judge_llm judge_loads
              (mkConfig (state_at 4 VNone 0) []) hn_steps eq_refl Hb)
    as [(_ & _ & H & _) _].
  exact H.
Defined.

(** C10: when no success rule of the heuristic tier matches, it returns
    [None], not a failure record; the verdict lookup in [validate_step] then
    raises before the language model is consulted and before the failure
    branch, and the handler decides: [current_step <= 4] moves on by one with
    nothing recorded in [steps_completed] (and [error] untouched),
    [current_step >= 5] sets [error] and stays. *)
Theorem heuristic_miss_is_handled_as_exception
        (llm : list event -> string -> result string)
        (json_loads : string -> option value)
        (c : config) (steps : list value) (step : value)
        (action target url : string) :
  plan_steps c.(st) = Some steps ->
  current_step c.(st) < Z.of_nat (List.length steps) ->
  Py.index (VList steps) (current_step c.(st)) = Ok step ->
  Py.get step "action" (VStr "") = Ok (VStr action) ->
  Py.get step "target" (VStr "") = Ok (VStr target) ->
  Py.get (browser_state c.(st)) "url" (VStr "") = Ok (VStr url) ->
  rule_matches (PyStr.lower action) (PyStr.lower target)
               (PyStr.lower (Py.str (browser_state c.(st))))
               (PyStr.lower url) = false ->
  validate_heuristic step (browser_state c.(st)) (error c.(st))
                     (current_step c.(st)) = Ok VNone
  /\ exists s',
      validate_step llm json_loads c = (Ok tt, mkConfig s' c.(trace))
      /\ steps_completed s' = steps_completed c.(st)
      /\ success s' = success c.(st)
      /\ (current_step c.(st) <= 4 ->
          current_step s' = current_step c.(st) + 1 /\ error s' = error c.(st))
      /\ (5 <= current_step c.(st) ->
          current_step s' = current_step c.(st)
          /\ error s'
             = VStr "Validation failed: 'NoneType' object has no attribute 'get'").
Proof.
  intros Hp Hlt Hi Ha Ht Hu Hm.
  assert (Hv : validate_heuristic step (browser_state (st c)) (error (st c))
                                  (current_step (st c)) = Ok VNone).
  { unfold validate_heuristic. rewrite Ha, Ht, Hu. cbn [rbind Py.lower].
    unfold rule_matches in Hm. unfold second_pass.
    repeat (break_inner; try discriminate; try reflexivity). }
  split; [exact Hv|].
  rewrite (validate_step_no_verdict llm json_loads c steps step Hp Hlt Hi Hv).
  eexists; split; [reflexivity|]. unfold recovered.
  destruct (current_step (st c) <=? 4) eqn:Hle; cbn;
    (split; [reflexivity|]); (split; [reflexivity|]);
    split; intros; try lia; split; reflexivity.
Qed.

Lemma heuristic_miss_is_handled_as_exception_witness :
  exists s',
    validate_step judge_llm judge_loads (mkConfig (state_at 3 VNone 0) [])
    = (Ok tt, mkConfig s' [])
    /\ current_step s' = 4 /\ error s' = VNone /\ steps_completed s' = [].
Proof.
  destruct (heuristic_miss_is_handled_as_exception judge_llm judge_loads
              (mkConfig (state_at 3 VNone 0) []) hn_steps
              (nth 3 hn_steps VNone) "click"
              "input[type='submit'], button[type='submit'], #loginbtn, button:has-text('Log in'), button:has-text('Sign in')"
              "http://example.com/login/index.php")
    as [_ (s' & Hs & Hc & _ & Hle & _)];
    try reflexivity.
  exists s'. destruct (Hle ltac:(cbn; lia)) as [H1 H2].
  repeat split; [exact Hs | exact H1 | exact H2 | exact Hc].
Defined.

(** The second pass computes [has_success] and falls off the end of the
    function. *)
Lemma second_pass_returns_none (page_content : string) (current_step : Z) :
  second_pass page_content current_step = Ok VNone.
Proof. unfold second_pass. now destruct (current_step >=? 3). Qed.

(** The heuristic tier has two answers only: a success verdict or [None]. *)
Lemma validate_heuristic_answers (step page_state error v : value) (current_step : Z) :
  validate_heuristic step page_state error current_step = Ok v ->
  v = VNone \/ exists reason, v = verdict reason.
Proof.
  unfold validate_heuristic, rbind.
  repeat (break_inner; try discriminate);
    rewrite ?second_pass_returns_none; intros [= <-]; eauto.
Qed.

(** C7, where the code departs from the claim: at [current_step = 3], for a
    [wait] step on a page whose snapshot contains the marker "dashboard",
    the heuristic tier returns [None], not a success verdict; the second
    pass returns [None] on every input. *)
Theorem post_login_marker_gives_no_verdict :
  PyStr.contains "dashboard" (PyStr.lower (Py.str dashboard_page)) = true
  /\ validate_heuristic wait_step dashboard_page VNone 3 = Ok VNone
  /\ forall page_content current_step,
       second_pass page_content current_step = Ok VNone.
Proof.
  split; [reflexivity|]. split; [reflexivity|].
  exact second_pass_returns_none.
Qed.

(** C6, where the code departs from the claim: with a judge that would
    report failure without retry, a failed [click] at [current_step = 3] is
    advanced to 4 with no error set, and a failed [fill] at
    [current_step = 1] with an error pending is advanced with the error still
    pending; the judge is not consulted in either run. *)
Theorem failed_validation_bypasses_failure_branch :
  validate_step judge_llm judge_loads (mkConfig (state_at 3 VNone 0) [])
  = (Ok tt, mkConfig (set_current_step 4 (state_at 3 VNone 0)) [])
  /\ validate_step judge_llm judge_loads (mkConfig (state_at 1 (VStr "Timeout") 0) [])
     = (Ok tt, mkConfig (set_current_step 2 (state_at 1 (VStr "Timeout") 0)) []).
Proof. split; reflexivity. Qed.

(** ** The plan generator *)

(** The fallback plan: [navigate] first, [click] and [screenshot] last, at
    most two [fill] steps between. *)
Lemma heuristic_plan_shape (task domain : string) :
  exists first fills click shot,
    Planner.generate_heuristic_plan task domain
    = VDict [("steps", VList (first :: fills ++ [click; shot]))]
    /\ Py.get first "action" VNone = Ok (VStr "navigate")
    /\ Py.get first "target" VNone = Ok (VStr domain)
    /\ Py.get click "action" VNone = Ok (VStr "click")
    /\ Py.get shot "action" VNone = Ok (VStr "screenshot")
    /\ (List.length fills <= 2)%nat
    /\ Forall (fun f => Py.get f "action" VNone = Ok (VStr "fill")) fills.
Proof.
  unfold Planner.generate_heuristic_plan.
  destruct (PyStr.contains "user" (PyStr.lower task)
            || PyStr.contains "login" (PyStr.lower task))%bool;
    destruct (PyStr.contains "pass" (PyStr.lower task)); cbn [app].
  - eexists _, [_; _], _, _. split; [reflexivity|].
    repeat split; auto.
  - eexists _, [_], _, _. split; [reflexivity|]. repeat split; auto.
  - eexists _, [_], _, _. split; [reflexivity|]. repeat split; auto.
  - eexists _, [], _, _. split; [reflexivity|]. repeat split; auto.
Qed.

Lemma heuristic_plan_steps (task domain : string) (s : WebAutomationState) :
  exists steps,
    plan_steps (set_plan (Planner.generate_heuristic_plan task domain) s) = Some steps
    /\ (3 <= List.length steps)%nat.
Proof.
  destruct (heuristic_plan_shape task domain) as (f & fs & c & sh & -> & _).
  eexists. split; [reflexivity|].
  cbn [List.length]. rewrite List.length_app. cbn. lia.
Qed.

(** A value that passes the logging statement of [plan_workflow] is a
    non-empty list. *)
Lemma logged_steps_are_list (got : value) (n : Z) (items : list value)
      (actions : list value) :
  Py.truthy got = true ->
  Py.len got = Ok n ->
  Py.iter got = Ok items ->
  Py.map_result (fun s => Py.getitem s "action") items = Ok actions ->
  exists x l, got = VList (x :: l).
Proof.
  destruct got as [| | | |s|l|d]; cbn; try discriminate.
  - destruct s as [|ch t]; [discriminate|]. intros _ _ [= <-]. discriminate.
  - destruct l as [|x l]; [discriminate|]. eauto.
  - destruct d as [|[k v] t]; [discriminate|]. intros _ _ [= <-]. discriminate.
Qed.

Lemma plan_workflow_result
      (llm : list event -> string -> result string)
      (json_loads : string -> option value)
      (c : config) :
  exists c' steps,
    plan_workflow llm json_loads c = (Ok tt, c')
    /\ plan_steps (st c') = Some steps
    /\ (1 <= List.length steps)%nat.
Proof.
  assert (Hfall : forall s tr,
             exists c' steps,
               (@Ok unit tt,
                mkConfig (set_plan (Planner.generate_heuristic_plan (task s) (domain s)) s) tr)
               = (Ok tt, c')
               /\ plan_steps (st c') = Some steps
               /\ (1 <= List.length steps)%nat).
  { intros s tr.
    destruct (heuristic_plan_steps (task s) (domain s) s) as (steps & Hp & Hl).
    eexists _, steps. split; [reflexivity|]. split; [exact Hp|lia]. }
  destruct c as [s tr].
  unfold plan_workflow, try_except, bind, read, lift, modify, ret, llm_ainvoke.
  cbn [st trace].
  destruct (llm tr _) as [content|e]; [|apply (Hfall s)].
  set (pj := extract_json json_loads (PyStr.strip content)).
  destruct (Py.get pj "steps" VNone) as [got|e] eqn:Hget; [|apply (Hfall s)].
  destruct (Py.truthy got) eqn:Htr.
  - (* the model's plan passes the truth test *)
    destruct (Py.getitem pj "steps") as [stp|e] eqn:Hgi;
      [|apply (Hfall (set_steps_completed [] (set_current_step 0 (set_plan pj s))))].
    destruct (Py.len stp) as [n|e] eqn:Hlen;
      [|apply (Hfall (set_steps_completed [] (set_current_step 0 (set_plan pj s))))].
    destruct (Py.iter stp) as [items|e] eqn:Hit;
      [|apply (Hfall (set_steps_completed [] (set_current_step 0 (set_plan pj s))))].
    destruct (Py.map_result _ items) as [acts|e] eqn:Hmap;
      [|apply (Hfall (set_steps_completed [] (set_current_step 0 (set_plan pj s))))].
    destruct pj as [| | | | | |d]; try discriminate.
    cbn in Hget, Hgi.
    destruct (Py.lookup "steps" d) as [v|] eqn:Hl; [|discriminate].
    injection Hget as ->. injection Hgi as ->.
    destruct (logged_steps_are_list _ _ _ _ Htr Hlen Hit Hmap) as (x & l & ->).
    eexists _, (x :: l). split; [reflexivity|].
    unfold plan_steps. cbn. rewrite Hl. split; [reflexivity|lia].
  - (* the fallback plan replaces it *)
    set (hp := Planner.generate_heuristic_plan (task s) (domain s)).
    destruct (heuristic_plan_steps (task s) (domain s)
                (set_steps_completed [] (set_current_step 0 s))) as (steps & Hp & Hl).
    fold hp in Hp.
    destruct (Py.getitem hp "steps") as [stp|e] eqn:Hgi;
      [|apply (Hfall (set_steps_completed [] (set_current_step 0 (set_plan hp s))))].
    destruct (Py.len stp) as [n|e] eqn:Hlen;
      [|apply (Hfall (set_steps_completed [] (set_current_step 0 (set_plan hp s))))].
    destruct (Py.iter stp) as [items|e] eqn:Hit;
      [|apply (Hfall (set_steps_completed [] (set_current_step 0 (set_plan hp s))))].
    destruct (Py.map_result _ items) as [acts|e] eqn:Hmap;
      [|apply (Hfall (set_steps_completed [] (set_current_step 0 (set_plan hp s))))].
    eexists _, steps. split; [reflexivity|]. split; [exact Hp|lia].
Qed.

(** The plan [plan_workflow] leaves is the one read from the model's reply,
    or the fallback plan for the task and domain of the state. *)
Lemma plan_workflow_source
      (llm : list event -> string -> result string)
      (json_loads : string -> option value)
      (c : config) :
  plan (st (snd (plan_workflow llm json_loads c)))
  = Planner.generate_heuristic_plan (task c.(st)) (domain c.(st))
  \/ exists content,
       llm c.(trace) (planner_prompt_of c.(st)) = Ok content
       /\ plan (st (snd (plan_workflow llm json_loads c)))
          = extract_json json_loads (PyStr.strip content).
Proof.
  destruct c as [s tr].
  unfold plan_workflow, try_except, bind, read, lift, modify, ret, llm_ainvoke,
    planner_prompt_of.
  cbn [st trace].
  destruct (llm tr _) as [content|e] eqn:Hl; [|left; reflexivity].
  repeat (break_inner; cbn [st trace snd]); cbn;
    first [left; reflexivity | right; exists content; split; reflexivity].
Qed.

(** C5: whatever the language model does (a reply that parses to a plan, a
    reply that does not parse, a reply without usable steps, an exception)
    and whatever [json.loads] makes of its reply, [plan_workflow] returns
    without raising and leaves a plan whose ["steps"] is a list of length at
    least 1.  That plan is the one read from the reply or the fallback plan
    for the task and domain, and the fallback plan is, for every task and
    domain, a [navigate] to the domain, at most two [fill] steps, a [click]
    and a [screenshot], in this order: three steps at least. *)
Theorem plan_workflow_never_fails_and_plans
        (llm : list event -> string -> result string)
        (json_loads : string -> option value)
        (c : config) :
  fst (plan_workflow llm json_loads c) = Ok tt
  /\ (exists steps n,
        get_steps (st (snd (plan_workflow llm json_loads c))) = Ok (VList steps)
        /\ Py.len (VList steps) = Ok n
        /\ 1 <= n)
  /\ (plan (st (snd (plan_workflow llm json_loads c)))
      = Planner.generate_heuristic_plan (task c.(st)) (domain c.(st))
      \/ exists content,
           llm c.(trace) (planner_prompt_of c.(st)) = Ok content
           /\ plan (st (snd (plan_workflow llm json_loads c)))
              = extract_json json_loads (PyStr.strip content))
  /\ (forall task domain,
        exists first fills click shot,
          Planner.generate_heuristic_plan task domain
          = VDict [("steps", VList (first :: fills ++ [click; shot]))]
          /\ Py.get first "action" VNone = Ok (VStr "navigate")
          /\ Py.get first "target" VNone = Ok (VStr domain)
          /\ Forall (fun f => Py.get f "action" VNone = Ok (VStr "fill")) fills
          /\ (List.length fills <= 2)%nat
          /\ Py.get click "action" VNone = Ok (VStr "click")
          /\ Py.get shot "action" VNone = Ok (VStr "screenshot")
          /\ (3 <= List.length (first :: fills ++ [click; shot]))%nat).
Proof.
  split; [|split; [|split]].
  - destruct (plan_workflow_result llm json_loads c) as (c' & steps & -> & _).
    reflexivity.
  - destruct (plan_workflow_result llm json_loads c) as (c' & steps & -> & Hp & Hl).
    exists steps, (Z.of_nat (List.length steps)). cbn [snd].
    split; [now apply plan_steps_get_steps|]. split; [reflexivity|lia].
  - apply plan_workflow_source.
  - intros task domain.
    destruct (heuristic_plan_shape task domain)
      as (f & fs & cl & sh & Hp & Hf & Ht & Hc & Hs & Hl & Hfs).
    exists f, fs, cl, sh. repeat split; try assumption.
    cbn [List.length]. rewrite List.length_app. cbn. lia.
Qed.

(** C8, as the code has it: the fallback plan for the HackerNews task has the
    five actions navigate, fill, fill, click, screenshot; the first fill
    value is [bob'.] and the second [secret'.], because the word two places
    after the keyword carries the sentence's period and only the quote at
    its front is at an end of the word.  With a space before each period
    the values are [bob] and [secret]. *)
Theorem heuristic_plan_for_hackernews :
  hn_plan = VDict [("steps", VList hn_steps)]
  /\ actions_of hn_steps
     = [VStr "navigate"; VStr "fill"; VStr "fill"; VStr "click"; VStr "screenshot"]
  /\ nth 5 (PyStr.split hn_task) "" = "'bob'."
  /\ nth 8 (PyStr.split hn_task) "" = "'secret'."
  /\ data_value (nth 1 hn_steps VNone) = VStr "bob'."
  /\ data_value (nth 2 hn_steps VNone) = VStr "secret'."
  /\ Planner.extract_value spaced_task ["username"; "user"; "id"] = "bob"
  /\ Planner.extract_value spaced_task ["password"; "pass"] = "secret".
Proof. repeat split; reflexivity. Qed.

(** C8 as stated does not hold: the fill values are not [bob] and
    [secret]. *)
Lemma heuristic_plan_values_keep_punctuation :
  ~ (actions_of hn_steps
     = [VStr "navigate"; VStr "fill"; VStr "fill"; VStr "click"; VStr "screenshot"]
     /\ data_value (nth 1 hn_steps VNone) = VStr "bob"
     /\ data_value (nth 2 hn_steps VNone) = VStr "secret").
Proof. intros (_ & H & _). vm_compute in H. discriminate H. Qed.

(** ** The step executor *)

Lemma kept_refl (s : WebAutomationState) : kept s s.
Proof. unfold kept. tauto. Qed.

Lemma kept_trans (a b c : WebAutomationState) : kept a b -> kept b c -> kept a c.
Proof. unfold kept. intuition congruence. Qed.

Lemma preserves_ret {A} (a : A) : preserves (ret a).
Proof. intros c. apply kept_refl. Qed.

Lemma preserves_lift {A} (r : result A) : preserves (lift r).
Proof. intros c. apply kept_refl. Qed.

Lemma preserves_read : preserves read.
Proof. intros c. apply kept_refl. Qed.

Lemma preserves_modify (f : WebAutomationState -> WebAutomationState) :
  (forall s, kept s (f s)) -> preserves (modify f).
Proof. intros H c. apply H. Qed.

Lemma preserves_bind {A B} (m : M A) (k : A -> M B) :
  preserves m -> (forall a, preserves (k a)) -> preserves (bind m k).
Proof.
  intros Hm Hk c. unfold bind. specialize (Hm c).
  destruct (m c) as [[a|e] c']; cbn [snd] in *; [|exact Hm].
  eapply kept_trans; [exact Hm|apply Hk].
Qed.

Lemma preserves_try_except {A} (body : M A) (handler : exn -> M A) :
  preserves body -> (forall e, preserves (handler e)) ->
  preserves (try_except body handler).
Proof.
  intros Hb Hh c. unfold try_except. specialize (Hb c).
  destruct (body c) as [[a|e] c']; cbn [snd] in *; [exact Hb|].
  eapply kept_trans; [exact Hb|apply Hh].
Qed.

Lemma preserves_browser_call browser (method : string) (args : list value) :
  preserves (browser_call browser method args).
Proof. intros c. apply kept_refl. Qed.

(** frame reasoning over the structure of a node *)
Ltac frame :=
  repeat first
    [ apply preserves_ret
    | apply preserves_lift
    | apply preserves_read
    | apply preserves_browser_call
    | apply preserves_modify; intros; unfold kept; cbn; tauto
    | apply preserves_bind; [|intros]
    | apply preserves_try_except; [|intros]
    | match goal with
      | |- preserves (if ?b then _ else _) => destruct b
      | |- preserves (match ?x with _ => _ end) => destruct x
      end ].

Section ExecutorFacts.

Variable browser : list event -> string -> list value -> result value.
Variable json_dumps : value -> string.
Variable py_int : value -> result Z.

Lemma dispatch_preserves (action : string) (target data : value) (current_step : Z) :
  preserves (dispatch browser py_int action target data current_step).
Proof.
  unfold dispatch, dispatch_fill, tools_navigate, tools_fill_form, tools_click,
    tools_wait_for, tools_submit_form, tools_extract_text, tools_screenshot,
    tools_select_option.
  frame.
Qed.

Lemma execute_action_preserves :
  preserves (execute_action browser json_dumps py_int).
Proof.
  unfold execute_action.
  apply preserves_try_except; [|intros; frame].
  apply preserves_bind; [frame|intros state].
  apply preserves_bind; [frame|intros got].
  destruct (negb (Py.truthy got)); [frame|].
  cbn zeta.
  repeat (apply preserves_bind; [solve [frame | apply dispatch_preserves]|intros]).
  destruct (_ >=? _); [frame|].
  repeat (apply preserves_bind; [solve [frame | apply dispatch_preserves]|intros]).
  frame.
Qed.

Lemma execute_action_returns (c : config) :
  fst (execute_action browser json_dumps py_int c) = Ok tt.
Proof.
  unfold execute_action, try_except.
  match goal with |- fst (match ?b c with _ => _ end) = _ => destruct (b c) as [[[]|e] c'] end;
    reflexivity.
Qed.

End ExecutorFacts.

Lemma plan_steps_nonempty_get (s : WebAutomationState) (x : value) (l : list value) :
  plan_steps s = Some (x :: l) ->
  forall default, Py.get (plan s) "steps" default = Ok (VList (x :: l)).
Proof.
  unfold plan_steps, Py.get.
  destruct (plan s) as [| | | | | |d]; try discriminate.
  destruct (Py.lookup "steps" d) as [v|]; [|discriminate].
  destruct v; try discriminate. now intros [= ->].
Qed.

Lemma plan_steps_empty_get (s : WebAutomationState) :
  plan_steps s = Some [] ->
  exists got, Py.get (plan s) "steps" VNone = Ok got /\ Py.truthy got = false.
Proof.
  unfold plan_steps, Py.get.
  destruct (plan s) as [| | | | | |d]; try discriminate.
  destruct (Py.lookup "steps" d) as [v|].
  - destruct v; try discriminate. intros [= ->]. now exists (VList []).
  - intros _. now exists VNone.
Qed.

(** C9: on a state with a plan, which is the executor's contract and what
    the graph hands it (it runs after the plan node, and every plan has a
    step), with [current_step >= len(plan.steps)] the executor sets
    [success] and nothing else, calling no collaborator; and on every
    input, whatever the browser does, it returns with [current_step] (and
    [plan], [retries], [steps_completed]) as it found them.  Handed a
    state without steps, which is outside that contract, it sets [error]
    to "No plan available" and nothing else. *)
Theorem execute_action_frame
        (browser : list event -> string -> list value -> result value)
        (json_dumps : value -> string)
        (py_int : value -> result Z)
        (c : config) :
  (forall steps,
      plan_steps c.(st) = Some steps ->
      steps <> [] ->
      Z.of_nat (List.length steps) <= current_step c.(st) ->
      execute_action browser json_dumps py_int c
      = (Ok tt, mkConfig (set_success true c.(st)) c.(trace)))
  /\ (plan_steps c.(st) = Some [] ->
      execute_action browser json_dumps py_int c
      = (Ok tt, mkConfig (set_error (VStr "No plan available") c.(st)) c.(trace)))
  /\ fst (execute_action browser json_dumps py_int c) = Ok tt
  /\ kept c.(st) (st (snd (execute_action browser json_dumps py_int c))).
Proof.
  destruct c as [s tr]. cbn [st trace] in *.
  split; [|split; [|split]].
  - intros steps Hp Hne Hge. destruct steps as [|x l]; [congruence|].
    unfold execute_action, try_except, bind, read, lift, modify.
    cbn [st trace].
    rewrite !(plan_steps_nonempty_get _ _ _ Hp). cbn [Py.truthy negb Py.len].
    settle (current_step s >=? Z.of_nat (List.length (x :: l))) true.
    reflexivity.
  - intros Hp. destruct (plan_steps_empty_get _ Hp) as (got & Hg & Ht).
    unfold execute_action, try_except, bind, read, lift, modify.
    cbn [st trace]. rewrite Hg, Ht. reflexivity.
  - apply execute_action_returns.
  - apply (execute_action_preserves browser json_dumps py_int (mkConfig s tr)).
Qed.

Lemma execute_action_frame_witness :
  plan_steps (state_at 5 VNone 0) = Some hn_steps
  /\ hn_steps <> []
  /\ Z.of_nat (List.length hn_steps) <= current_step (state_at 5 VNone 0)
  /\ execute_action idle_browser plain_dumps plain_int (mkConfig (state_at 5 VNone 0) [])
     = (Ok tt, mkConfig (set_success true (state_at 5 VNone 0)) []).
Proof.
  assert (Hne : hn_steps <> []) by discriminate.
  assert (Hge : Z.of_nat (List.length hn_steps) <= current_step (state_at 5 VNone 0))
    by (rewrite hn_steps_length; cbn; lia).
  split; [reflexivity|]. split; [exact Hne|]. split; [exact Hge|].
  destruct (execute_action_frame idle_browser plain_dumps plain_int
              (mkConfig (state_at 5 VNone 0) [])) as [H _].
  exact (H hn_steps eq_refl Hne Hge).
Defined.

(** The guard for a state without a plan, on the state the orchestrator
    builds before the plan node has run. *)
Lemma execute_action_without_plan_sets_error :
  plan_steps unplanned_state = Some []
  /\ Z.of_nat (@List.length value []) <= current_step unplanned_state
  /\ execute_action idle_browser plain_dumps plain_int (mkConfig unplanned_state [])
     = (Ok tt, mkConfig (set_error (VStr "No plan available") unplanned_state) [])
  /\ success (st (snd (execute_action idle_browser plain_dumps plain_int
                                      (mkConfig unplanned_state [])))) = false
  /\ error (st (snd (execute_action idle_browser plain_dumps plain_int
                                    (mkConfig unplanned_state []))))
     <> error unplanned_state.
Proof.
  split; [reflexivity|]. split; [cbn; lia|]. split; [reflexivity|].
  split; [reflexivity|]. cbn. discriminate.
Qed.

(** ** The cycles of a run *)

Lemma cycles_snoc (visited : list node) (n : node) :
  cycles (visited ++ [n]) = (cycles visited + if node_eqb NValidate n then 1 else 0)%nat.
Proof.
  unfold cycles. rewrite List.filter_app, List.length_app. cbn [filter].
  destruct (node_eqb NValidate n); reflexivity.
Qed.

Section LoopFacts.

Variable llm : list event -> string -> result string.
Variable browser : list event -> string -> list value -> result value.
Variable json_loads : string -> option value.
Variable json_dumps : value -> string.
Variable py_int : value -> result Z.

(** A graph run holds no more Validate runs than its engine steps
    allow. *)
Lemma run_graph_cycles (limit : nat) :
  forall (n : node) (visited : list node) (c : config),
    (cycles (fst (run_graph llm browser json_loads json_dumps py_int
                            limit n visited c))
     <= cycles visited + budget n limit)%nat.
Proof.
  induction limit as [|k IH]; intros n visited c; cbn [run_graph].
  - cbn [fst]. lia.
  - assert (Hstop : (cycles (visited ++ [n]) <= cycles visited + budget n (S k))%nat).
    { rewrite cycles_snoc. destruct n; cbn [node_eqb budget]; try lia.
      assert (1 <= (S k + 1) / 2)%nat
        by (apply Nat.div_le_lower_bound; lia).
      lia. }
    destruct (run_node _ _ _ _ _ n c) as [[u|e] c']; [|exact Hstop].
    destruct n; cbn [next_node].
    + eapply Nat.le_trans; [apply IH|]. rewrite cycles_snoc.
      cbn [node_eqb budget]. replace (S k - 1)%nat with k by lia. lia.
    + eapply Nat.le_trans; [apply IH|]. rewrite cycles_snoc.
      cbn [node_eqb budget]. replace (k + 1)%nat with (S k) by lia. lia.
    + destruct (_should_continue (st c')) as [[[|] s']|e]; try exact Hstop.
      eapply Nat.le_trans; [apply IH|]. rewrite cycles_snoc.
      cbn [node_eqb budget].
      replace (S k + 1)%nat with (k + 1 * 2)%nat by lia.
      rewrite Nat.div_add by lia. lia.
Qed.

Lemma ainvoke_cycles (c : config) :
  (cycles (fst (ainvoke llm browser json_loads json_dumps py_int c)) <= 7)%nat.
Proof.
  unfold ainvoke.
  pose proof (run_graph_cycles recursion_limit NPlan [] c) as H.
  cbn [cycles filter List.length] in H.
  change (budget NPlan recursion_limit) with 7%nat in H. exact H.
Qed.

End LoopFacts.

(** The outer cap: a task runs at most 15 nodes, so at most 7 cycles of
    Execute, Validate and routing, whatever the router answers. *)
Lemma execute_task_cycles
      (llm : list event -> string -> result string)
      (browser : list event -> string -> list value -> result value)
      (json_loads : string -> option value)
      (json_dumps : value -> string)
      (py_int : value -> result Z)
      (kb_search : string -> result value)
      (new_uuid now : string)
      (recursion_error_text : nat -> string)
      (task domain : string) :
  (cycles (snd (fst (execute_task_with_context llm browser json_loads json_dumps
                       py_int kb_search new_uuid now recursion_error_text
                       task domain))) <= 7)%nat.
Proof.
  unfold execute_task_with_context.
  destruct (browser [] "initialize" []) as [v|e]; [|cbn; lia].
  destruct (kb_search _) as [ctx|e]; [|cbn; lia].
  pose proof (ainvoke_cycles llm browser json_loads json_dumps py_int
                {| st := initial_state new_uuid now task domain ctx;
                   trace := [ToolCall "initialize" []] |}) as H.
  destruct (ainvoke _ _ _ _ _ _) as [visited [c'|e c'|c']]; exact H.
Qed.

(** * Further properties of the nodes *)

(** ** The router *)

(** X1: whatever the router answers, it writes only [success], [error] and
    [retries]; [retries] moves by at most one, and moves only on a CONTINUE
    that forgives a pending error with fewer than two retries used, which
    also clears the error; [success] is never reset. *)
Theorem router_writes_only_its_fields
        (s s' : WebAutomationState) (r : route) :
  _should_continue s = Ok (r, s') ->
  router_frame s s'
  /\ retries s <= retries s' <= retries s + 1
  /\ (retries s' = retries s + 1 ->
      r = Continue /\ Py.truthy (error s) = true /\ error s' = VNone
      /\ retries s < 2)
  /\ (retries s' = retries s -> error s' = error s)
  /\ (success s = true -> success s' = true).
Proof.
  unfold _should_continue, rbind, router_frame.
  destruct (Py.truthy (error s)) eqn:He;
    destruct (retries s >=? 2) eqn:Hr; cbn [andb];
    repeat (break_inner; try discriminate);
    intros [= <- <-]; cbn;
    repeat split; auto; intros; try lia; try discriminate.
Qed.

Lemma router_writes_only_its_fields_witness :
  _should_continue (state_at 3 (VStr "Timeout") 1)
  = Ok (Continue, set_error VNone (set_retries 2 (state_at 3 (VStr "Timeout") 1)))
  /\ router_frame (state_at 3 (VStr "Timeout") 1)
                  (set_error VNone (set_retries 2 (state_at 3 (VStr "Timeout") 1))).
Proof.
  assert (H : _should_continue (state_at 3 (VStr "Timeout") 1)
              = Ok (Continue,
                    set_error VNone (set_retries 2 (state_at 3 (VStr "Timeout") 1))))
    by reflexivity.
  split; [exact H|].
  exact (proj1 (router_writes_only_its_fields _ _ _ H)).
Defined.

(** X2: after a CONTINUE on a well-formed plan the state carries no pending
    error, [success] is false and [current_step] is below both the plan
    length and the ceiling of 10: the executor is only ever re-entered on a
    step that exists. *)
Theorem router_continue_leaves_a_runnable_state
        (s s' : WebAutomationState) (steps : list value) :
  plan_steps s = Some steps ->
  _should_continue s = Ok (Continue, s') ->
  Py.truthy (error s') = false
  /\ success s' = false
  /\ current_step s' < Z.of_nat (List.length steps)
  /\ current_step s' < 10.
Proof.
  intros Hp. rewrite (should_continue_rules _ _ Hp).
  destruct (Py.truthy (error s)) eqn:He;
    destruct (retries s >=? 2) eqn:Hr; cbn [andb]; try discriminate;
    destruct (success s) eqn:Hs; cbn [orb]; try discriminate;
    destruct (current_step s >=? Z.of_nat (List.length steps)) eqn:Hn;
    try discriminate;
    destruct (current_step s >=? 10) eqn:H10; try discriminate;
    intros [= <-]; cbn; repeat split; auto; lia.
Qed.

Lemma router_continue_leaves_a_runnable_state_witness :
  plan_steps (state_at 3 (VStr "Timeout") 1) = Some hn_steps
  /\ Py.truthy (error (set_error VNone (set_retries 2 (state_at 3 (VStr "Timeout") 1))))
     = false
  /\ current_step (set_error VNone (set_retries 2 (state_at 3 (VStr "Timeout") 1)))
     < Z.of_nat (List.length hn_steps).
Proof.
  split; [reflexivity|].
  destruct (router_continue_leaves_a_runnable_state
              (state_at 3 (VStr "Timeout") 1)
              (set_error VNone (set_retries 2 (state_at 3 (VStr "Timeout") 1)))
              hn_steps eq_refl eq_refl) as (H1 & _ & H3 & _).
  split; [exact H1|exact H3].
Defined.

(** X3: DONE is stable: evaluating the router again on the state it
    returned with DONE answers DONE and changes nothing. *)
Theorem router_done_is_stable (s s' : WebAutomationState) :
  _should_continue s = Ok (Done, s') ->
  _should_continue s' = Ok (Done, s').
Proof.
  unfold _should_continue, rbind, get_steps.
  destruct (Py.truthy (error s) && (retries s >=? 2))%bool eqn:H1.
  - intros [= <-]. now rewrite H1.
  - destruct (Py.get (plan s) "steps" (VList [])) as [stp|e] eqn:Hg; [|discriminate].
    destruct (success s) eqn:Hs.
    + intros [= <-]. cbn. rewrite H1, Hg. reflexivity.
    + destruct (Py.len stp) as [n|e] eqn:Hl; [|discriminate].
      destruct (current_step s >=? n) eqn:Hn.
      * intros [= <-]. cbn. rewrite H1, Hg. reflexivity.
      * destruct (current_step s >=? 10) eqn:H10.
        -- intros [= <-]. rewrite H1, Hg, Hs, Hl, Hn, H10. reflexivity.
        -- destruct (Py.truthy (error s)); discriminate.
Qed.

Lemma router_done_is_stable_witness :
  _should_continue (state_at 5 VNone 0) = Ok (Done, set_success true (state_at 5 VNone 0))
  /\ _should_continue (set_success true (state_at 5 VNone 0))
     = Ok (Done, set_success true (state_at 5 VNone 0)).
Proof.
  split; [reflexivity|].
  apply (router_done_is_stable (state_at 5 VNone 0)). reflexivity.
Defined.

(** X4: a state whose plan has no steps (an empty list, or no ["steps"]
    key at all, as before planning) is routed to DONE whatever
    [current_step >= 0] is; unless the retries are exhausted on a pending
    error it is marked successful. *)
Theorem router_completes_a_plan_without_steps (s : WebAutomationState) :
  plan_steps s = Some [] ->
  0 <= current_step s ->
  _should_continue s
  = if (Py.truthy (error s) && (retries s >=? 2))%bool
    then Ok (Done, s)
    else Ok (Done, set_success true s).
Proof.
  intros Hp Hc. rewrite (should_continue_rules _ _ Hp). cbn [List.length].
  destruct (Py.truthy (error s) && (retries s >=? 2))%bool; [reflexivity|].
  settle (current_step s >=? Z.of_nat 0) true.
  now rewrite orb_true_r.
Qed.

Lemma router_completes_a_plan_without_steps_witness :
  plan_steps unplanned_state = Some []
  /\ 0 <= current_step unplanned_state
  /\ _should_continue unplanned_state = Ok (Done, set_success true unplanned_state).
Proof.
  assert (Hc : 0 <= current_step unplanned_state) by (cbn; lia).
  split; [reflexivity|]. split; [exact Hc|].
  exact (router_completes_a_plan_without_steps unplanned_state eq_refl Hc).
Defined.

(** ** The validator *)

Lemma validate_step_ignores_model
      (llm llm' : list event -> string -> result string)
      (json_loads json_loads' : string -> option value)
      (c : config) :
  validate_step llm json_loads c = validate_step llm' json_loads' c
  /\ trace (snd (validate_step llm json_loads c)) = trace c.
Proof.
  destruct c as [s tr].
  unfold validate_step, try_except, bind, read, lift, modify, ret.
  cbn [st trace].
  destruct (Py.get (plan s) "steps" (VList [])) as [stp|e];
    [|rewrite validate_recover_eq; auto].
  destruct (Py.len stp) as [n|e]; [|rewrite validate_recover_eq; auto].
  destruct (current_step s >=? n); [auto|].
  destruct (Py.index stp (current_step s)) as [step|e];
    [|rewrite validate_recover_eq; auto].
  destruct (Py.get step "expected_outcome" _) as [eo|e];
    [|rewrite validate_recover_eq; auto].
  destruct (validate_heuristic step (browser_state s) (error s) (current_step s))
    as [v|e] eqn:Hv; [|rewrite validate_recover_eq; auto].
  destruct (validate_heuristic_answers _ _ _ _ _ Hv) as [->|[reason ->]].
  - cbn [Py.get Py.type_name]. rewrite validate_recover_eq. auto.
  - cbn. destruct (current_step s + 1 >=? n); auto.
Qed.

(** X5: the validator never consults the language model: the heuristic tier
    answers with a success verdict or with [None], never with a failure
    record, so the judge prompt is never sent, whatever the state; the
    outcome of [validate_step] is the same under any model and any JSON
    reader, and it adds no collaborator call. *)
Theorem validate_step_never_consults_the_model
        (llm llm' : list event -> string -> result string)
        (json_loads json_loads' : string -> option value)
        (c : config) :
  validate_step llm json_loads c = validate_step llm' json_loads' c
  /\ trace (snd (validate_step llm json_loads c)) = trace c
  /\ forall step page_state error current_step v,
       validate_heuristic step page_state error current_step = Ok v ->
       v = VNone \/ exists reason, v = verdict reason.
Proof.
  destruct (validate_step_ignores_model llm llm' json_loads json_loads' c) as [H1 H2].
  split; [exact H1|]. split; [exact H2|].
  intros step page_state error current_step v. apply validate_heuristic_answers.
Qed.

Lemma validate_step_on_verdict
      (llm : list event -> string -> result string)
      (json_loads : string -> option value)
      (c : config) (steps : list value) (step : value) (reason : string) :
  plan_steps c.(st) = Some steps ->
  current_step c.(st) < Z.of_nat (List.length steps) ->
  Py.index (VList steps) (current_step c.(st)) = Ok step ->
  validate_heuristic step (browser_state c.(st)) (error c.(st))
                     (current_step c.(st)) = Ok (verdict reason) ->
  validate_step llm json_loads c
  = (Ok tt, mkConfig (validated (Z.of_nat (List.length steps)) c.(st)) c.(trace)).
Proof.
  intros Hp Hlt Hi Hv. pose proof (plan_steps_get_steps _ _ Hp) as Hg.
  unfold get_steps in Hg. destruct c as [s tr]. cbn [st trace] in *.
  unfold validate_step, try_except, bind, read, lift, modify, ret.
  cbn [st trace]. rewrite Hg. cbn [Py.len].
  settle (current_step s >=? Z.of_nat (List.length steps)) false.
  rewrite Hi.
  assert (Hd : exists d, step = VDict d).
  { unfold validate_heuristic in Hv. destruct step; cbn in Hv; try discriminate.
    eauto. }
  destruct Hd as [d ->]. cbn [Py.get]. rewrite Hv. unfold validated. cbn.
  destruct (current_step s + 1 >=? Z.of_nat (List.length steps)); reflexivity.
Qed.

(** X6: when the heuristic tier passes the current step, [validate_step]
    appends [current_step] to [steps_completed], advances [current_step] by
    one, sets [success] exactly when the new index reaches the plan length,
    and touches nothing else: a pending [error] stays pending. *)
Theorem validate_step_records_a_passed_step
        (llm : list event -> string -> result string)
        (json_loads : string -> option value)
        (c : config) (steps : list value) (step : value) (reason : string) :
  plan_steps c.(st) = Some steps ->
  current_step c.(st) < Z.of_nat (List.length steps) ->
  Py.index (VList steps) (current_step c.(st)) = Ok step ->
  validate_heuristic step (browser_state c.(st)) (error c.(st))
                     (current_step c.(st)) = Ok (verdict reason) ->
  exists s',
    validate_step llm json_loads c = (Ok tt, mkConfig s' c.(trace))
    /\ steps_completed s' = (steps_completed c.(st) ++ [current_step c.(st)])%list
    /\ current_step s' = current_step c.(st) + 1
    /\ success s'
       = (if current_step c.(st) + 1 >=? Z.of_nat (List.length steps)
          then true else success c.(st))
    /\ error s' = error c.(st)
    /\ retries s' = retries c.(st)
    /\ plan s' = plan c.(st)
    /\ browser_state s' = browser_state c.(st)
    /\ screenshots s' = screenshots c.(st).
Proof.
  intros Hp Hlt Hi Hv.
  rewrite (validate_step_on_verdict llm json_loads c steps step reason Hp Hlt Hi Hv).
  eexists. split; [reflexivity|]. unfold validated.
  destruct (current_step (st c) + 1 >=? Z.of_nat (List.length steps));
    cbn; repeat split; reflexivity.
Qed.

Lemma validate_step_records_a_passed_step_witness :
  exists s',
    validate_step judge_llm judge_loads (mkConfig (state_at 4 (VStr "Timeout") 0) [])
    = (Ok tt, mkConfig s' [])
    /\ steps_completed s' = [4]
    /\ current_step s' = 5
    /\ success s' = true
    /\ error s' = VStr "Timeout".
Proof.
  destruct (validate_step_records_a_passed_step judge_llm judge_loads
              (mkConfig (state_at 4 (VStr "Timeout") 0) []) hn_steps
              screenshot_step "Screenshot completed"
              eq_refl ltac:(rewrite hn_steps_length; cbn; lia) eq_refl eq_refl)
    as (s' & H0 & H1 & H2 & H3 & H4 & _).
  exists s'. repeat split; assumption.
Defined.

(** X7: on typed inputs the heuristic tier answers with a success verdict
    exactly when one of its rules matches, and always with
    [should_retry = False]; a [screenshot] step passes whatever the page
    shows. *)
Theorem validate_heuristic_passes_iff_a_rule_matches
        (step page_state error : value) (current_step : Z)
        (action target url : string) :
  Py.get step "action" (VStr "") = Ok (VStr action) ->
  Py.get step "target" (VStr "") = Ok (VStr target) ->
  Py.get page_state "url" (VStr "") = Ok (VStr url) ->
  (rule_matches (PyStr.lower action) (PyStr.lower target)
                (PyStr.lower (Py.str page_state)) (PyStr.lower url) = true
   <-> exists reason,
        validate_heuristic step page_state error current_step = Ok (verdict reason))
  /\ (forall v,
        validate_heuristic step page_state error current_step = Ok v ->
        v <> VNone ->
        Py.get v "success" VNone = Ok (VBool true)
        /\ Py.get v "should_retry" VNone = Ok (VBool false))
  /\ (PyStr.lower action = "screenshot" ->
      validate_heuristic step page_state error current_step
      = Ok (verdict "Screenshot completed")).
Proof.
  intros Ha Ht Hu. split; [|split].
  - unfold validate_heuristic, rule_matches. rewrite Ha, Ht, Hu.
    cbn [rbind Py.lower].
    repeat break_inner; rewrite ?second_pass_returns_none;
      split; intros H; try discriminate; eauto;
      destruct H as [reason H]; discriminate.
  - intros v Hv Hn.
    destruct (validate_heuristic_answers _ _ _ _ _ Hv) as [->|[reason ->]];
      [congruence|]. split; reflexivity.
  - intros Hs. unfold validate_heuristic. rewrite Ha, Ht, Hu.
    cbn [rbind Py.lower]. rewrite Hs. reflexivity.
Qed.

Lemma validate_heuristic_passes_iff_a_rule_matches_witness :
  validate_heuristic screenshot_step login_page (VStr "Timeout") 4
  = Ok (verdict "Screenshot completed").
Proof.
  destruct (validate_heuristic_passes_iff_a_rule_matches
              screenshot_step login_page (VStr "Timeout") 4
              "screenshot" "final_result" "http://example.com/login/index.php"
              eq_refl eq_refl eq_refl) as (_ & _ & H).
  exact (H eq_refl).
Defined.

(** ** The plan generator *)

Lemma map_result_ok {A B} (f : A -> result B) (l : list A) :
  Forall (fun x => exists y, f x = Ok y) l ->
  exists ys, Py.map_result f l = Ok ys.
Proof.
  induction 1 as [|x l [y Hy] _ [ys IH]]; cbn.
  - now exists [].
  - rewrite Hy, IH. now exists (y :: ys).
Qed.

(** X8: [plan_workflow] sends exactly one prompt to the language model.
    When the model call raises, only [plan] is written (the fallback plan):
    [current_step] and [steps_completed] stay as they were.  When the reply
    is read as a dict, [current_step] is reset to 0 and [steps_completed]
    to the empty list, also when the plan is then replaced by the fallback
    because the logging statement raised. *)
Theorem plan_workflow_resets_only_after_a_reply
        (llm : list event -> string -> result string)
        (json_loads : string -> option value)
        (c : config) :
  trace (snd (plan_workflow llm json_loads c))
  = (trace c ++ [LlmInvoke (planner_prompt_of c.(st))])%list
  /\ (forall e,
        llm c.(trace) (planner_prompt_of c.(st)) = Raise e ->
        st (snd (plan_workflow llm json_loads c))
        = set_plan (Planner.generate_heuristic_plan (task c.(st)) (domain c.(st)))
                   c.(st))
  /\ (forall content d,
        llm c.(trace) (planner_prompt_of c.(st)) = Ok content ->
        extract_json json_loads (PyStr.strip content) = VDict d ->
        exists pl,
          st (snd (plan_workflow llm json_loads c))
          = set_steps_completed [] (set_current_step 0 (set_plan pl c.(st)))).
Proof.
  destruct c as [s tr]. unfold planner_prompt_of.
  unfold plan_workflow, try_except, bind, read, lift, modify, ret, llm_ainvoke.
  cbn [st trace].
  destruct (llm tr _) as [content|e] eqn:Hl.
  - set (pj := extract_json json_loads (PyStr.strip content)).
    split; [|split].
    + destruct (Py.get pj "steps" VNone) as [got|e]; [|reflexivity].
      cbn [st trace]. repeat (break_inner; cbn [st trace snd]); reflexivity.
    + discriminate.
    + intros content' d [= <-] Hd. fold pj in Hd. rewrite Hd.
      cbn [Py.get st trace].
      repeat (break_inner; cbn [st trace snd set_plan set_current_step
                                 set_steps_completed task domain]);
        eexists; reflexivity.
  - split; [reflexivity|]. split; [|discriminate].
    intros e' _. reflexivity.
Qed.

Lemma plan_workflow_resets_only_after_a_reply_witness :
  st (snd (plan_workflow failing_llm judge_loads
                         (mkConfig (state_at 3 VNone 1) [])))
  = set_plan hn_plan (state_at 3 VNone 1).
Proof.
  destruct (plan_workflow_resets_only_after_a_reply failing_llm judge_loads
              (mkConfig (state_at 3 VNone 1) [])) as (_ & H & _).
  exact (H (CollaboratorError "connection refused") eq_refl).
Defined.

(** X9: a reply that [json.loads] reads as a dict whose ["steps"] is a
    non-empty list of steps that each have an ["action"] is adopted as the
    plan unchanged, with [current_step = 0] and [steps_completed = []]; the
    fallback is not used. *)
Theorem plan_workflow_adopts_a_well_formed_plan
        (llm : list event -> string -> result string)
        (json_loads : string -> option value)
        (c : config) (content : string) (d : list (string * value))
        (x : value) (l : list value) :
  llm c.(trace) (planner_prompt_of c.(st)) = Ok content ->
  json_loads (PyStr.strip content) = Some (VDict d) ->
  Py.lookup "steps" d = Some (VList (x :: l)) ->
  Forall (fun step => exists a, Py.getitem step "action" = Ok a) (x :: l) ->
  plan_workflow llm json_loads c
  = (Ok tt,
     mkConfig (set_steps_completed [] (set_current_step 0 (set_plan (VDict d) c.(st))))
              (c.(trace) ++ [LlmInvoke (planner_prompt_of c.(st))])%list).
Proof.
  intros Hl Hj Hs Hall. destruct c as [s tr]. unfold planner_prompt_of in *.
  cbn [st trace] in *.
  unfold plan_workflow, try_except, bind, read, lift, modify, ret, llm_ainvoke.
  cbn [st trace]. rewrite Hl. unfold extract_json. rewrite Hj.
  destruct (map_result_ok _ _ Hall) as [ys Hys].
  cbn [Py.get]. rewrite Hs. cbn [Py.truthy]. cbn [st trace].
  unfold Py.getitem at 1. rewrite Hs. cbn [Py.len Py.iter].
  rewrite Hys. reflexivity.
Qed.

Lemma plan_workflow_adopts_a_well_formed_plan_witness :
  plan (st (snd (plan_workflow planning_llm plan_loads
                               (mkConfig (state_at 3 VNone 0) []))))
  = model_plan.
Proof.
  rewrite (plan_workflow_adopts_a_well_formed_plan planning_llm plan_loads
             (mkConfig (state_at 3 VNone 0) []) plan_reply
             [("steps",
               VList [VDict [("step", VInt 1); ("action", VStr "navigate");
                             ("target", VStr "https://news.ycombinator.com/login")];
                      VDict [("step", VInt 2); ("action", VStr "click");
                             ("target", VStr "input[type=submit]")]])]
             (VDict [("step", VInt 1); ("action", VStr "navigate");
                     ("target", VStr "https://news.ycombinator.com/login")])
             [VDict [("step", VInt 2); ("action", VStr "click");
                     ("target", VStr "input[type=submit]")]]
             eq_refl eq_refl eq_refl).
  - reflexivity.
  - repeat constructor; eexists; reflexivity.
Defined.

Lemma string_app_assoc (a b c : string) : (a ++ b) ++ c = a ++ (b ++ c).
Proof. induction a as [|x a IH]; cbn; [reflexivity|now rewrite IH]. Qed.

Lemma string_app_nil_r (a : string) : a ++ "" = a.
Proof. induction a as [|x a IH]; cbn; [reflexivity|now rewrite IH]. Qed.

Lemma rev_string_app (s acc : string) :
  PyStr.rev_string acc s = PyStr.rev_string EmptyString s ++ acc.
Proof.
  revert acc. induction s as [|c t IH]; intros acc; cbn.
  - reflexivity.
  - rewrite IH, (IH (String c EmptyString)), string_app_assoc. reflexivity.
Qed.

Lemma scan_shape (s : string) :
  forall (inner : bool) (acc m : string),
    scan inner acc s = Some m ->
    exists mid rest,
      s = mid ++ String rbrace rest
      /\ m = PyStr.rev_string EmptyString acc ++ mid ++ String rbrace "".
Proof.
  induction s as [|c t IH]; intros inner acc m; cbn [scan]; [discriminate|].
  destruct (Ascii.eqb c rbrace) eqn:Hr.
  - apply Ascii.eqb_eq in Hr. subst c. destruct inner.
    + intros H. destruct (IH _ _ _ H) as (mid & rest & -> & ->).
      exists (String rbrace mid), rest. split; [reflexivity|].
      cbn [PyStr.rev_string]. rewrite (rev_string_app acc), string_app_assoc.
      reflexivity.
    + intros [= <-]. exists "", t. split; [reflexivity|].
      cbn [PyStr.rev_string]. now rewrite (rev_string_app acc).
  - assert (Hnext : forall i, scan i (String c acc) t = Some m ->
              exists mid rest,
                String c t = mid ++ String rbrace rest
                /\ m = PyStr.rev_string EmptyString acc ++ mid ++ String rbrace "").
    { intros i H. destruct (IH _ _ _ H) as (mid & rest & -> & ->).
      exists (String c mid), rest. split; [reflexivity|].
      cbn [PyStr.rev_string]. rewrite (rev_string_app acc), string_app_assoc.
      reflexivity. }
    destruct (Ascii.eqb c lbrace); [destruct inner; [discriminate|]|]; apply Hnext.
Qed.

Lemma scan_needs_a_closing_brace (s : string) :
  forall (inner : bool) (acc : string),
    PyStr.mem_char rbrace s = false -> scan inner acc s = None.
Proof.
  induction s as [|c t IH]; intros inner acc; cbn [scan PyStr.mem_char];
    [reflexivity|].
  rewrite Ascii.eqb_sym. destruct (Ascii.eqb c rbrace); [discriminate|].
  intros H. destruct (Ascii.eqb c lbrace); [destruct inner|]; auto.
Qed.

Lemma re_search_shape (s m : string) :
  re_search s = Some m ->
  exists pre mid rest,
    s = pre ++ String lbrace mid ++ String rbrace rest
    /\ m = String lbrace mid ++ String rbrace "".
Proof.
  induction s as [|c t IH]; cbn [re_search]; [discriminate|].
  assert (Hskip : re_search t = Some m ->
            exists pre mid rest,
              String c t = pre ++ String lbrace mid ++ String rbrace rest
              /\ m = String lbrace mid ++ String rbrace "").
  { intros H. destruct (IH H) as (pre & mid & rest & -> & ->).
    now exists (String c pre), mid, rest. }
  destruct (Ascii.eqb c lbrace) eqn:Hl; [|exact Hskip].
  apply Ascii.eqb_eq in Hl. subst c.
  destruct (scan false (String lbrace "") t) as [m'|] eqn:Hs; [|exact Hskip].
  intros [= <-]. destruct (scan_shape _ _ _ _ Hs) as (mid & rest & -> & ->).
  exists "", mid, rest. split; reflexivity.
Qed.

Lemma re_search_needs_braces (s : string) :
  PyStr.mem_char lbrace s = false \/ PyStr.mem_char rbrace s = false ->
  re_search s = None.
Proof.
  induction s as [|c t IH]; cbn [re_search PyStr.mem_char]; [reflexivity|].
  rewrite (Ascii.eqb_sym lbrace c), (Ascii.eqb_sym rbrace c).
  destruct (Ascii.eqb c lbrace) eqn:Hl.
  - intros [H|H]; [discriminate|].
    destruct (Ascii.eqb c rbrace); [discriminate|].
    rewrite (scan_needs_a_closing_brace t false _ H). apply IH. now right.
  - intros [H|H]; apply IH; [now left|].
    destruct (Ascii.eqb c rbrace); [discriminate|now right].
Qed.

(** X10: the tolerant JSON extraction.  What the pattern search finds is a
    piece of the text that opens with a brace and closes with one; a text
    without an opening or without a closing brace has no match; and when
    [json.loads] rejects the text and there is no match (or it rejects the
    match too), [extract_json] answers the empty plan [{"steps": []}]
    instead of raising. *)
Theorem extract_json_falls_back_to_the_empty_plan
        (json_loads : string -> option value) (text : string) :
  (forall m,
      re_search text = Some m ->
      exists pre mid rest,
        text = pre ++ String lbrace mid ++ String rbrace rest
        /\ m = String lbrace mid ++ String rbrace "")
  /\ (PyStr.mem_char lbrace text = false \/ PyStr.mem_char rbrace text = false ->
      re_search text = None)
  /\ (json_loads text = None ->
      (forall m, re_search text = Some m -> json_loads m = None) ->
      extract_json json_loads text = VDict [("steps", VList [])])
  /\ (forall v, json_loads text = Some v -> extract_json json_loads text = v).
Proof.
  split; [|split; [|split]].
  - intros m. apply re_search_shape.
  - apply re_search_needs_braces.
  - intros Hj Hm. unfold extract_json. rewrite Hj.
    destruct (re_search text) as [m|]; [|reflexivity].
    now rewrite (Hm m eq_refl).
  - intros v Hj. unfold extract_json. now rewrite Hj.
Qed.

Lemma extract_json_falls_back_to_the_empty_plan_witness :
  extract_json judge_loads "I cannot plan this task."
  = VDict [("steps", VList [])].
Proof.
  destruct (extract_json_falls_back_to_the_empty_plan judge_loads
              "I cannot plan this task.") as (_ & _ & H & _).
  apply H; [reflexivity|discriminate].
Defined.

(** X11: the fallback plan numbers its steps 1, 2, ... without gaps, and
    has three steps plus one [fill] when the task mentions "user" or
    "login" and one more when it mentions "pass" (case-insensitively); a
    task mentioning neither gets navigate, click, screenshot only. *)
Theorem heuristic_plan_numbering (task domain : string) :
  exists steps,
    Planner.generate_heuristic_plan task domain = VDict [("steps", VList steps)]
    /\ map (step_field "step") steps
       = map (fun i => VInt (Z.of_nat i)) (seq 1 (List.length steps))
    /\ List.length steps
       = (3 + (if (PyStr.contains "user" (PyStr.lower task)
                   || PyStr.contains "login" (PyStr.lower task))%bool
               then 1 else 0)
            + (if PyStr.contains "pass" (PyStr.lower task) then 1 else 0))%nat
    /\ List.length (filter (fun a => Py.is_str "fill" a) (actions_of steps))
       = (List.length steps - 3)%nat.
Proof.
  unfold Planner.generate_heuristic_plan.
  destruct (PyStr.contains "user" (PyStr.lower task)
            || PyStr.contains "login" (PyStr.lower task))%bool;
    destruct (PyStr.contains "pass" (PyStr.lower task)); cbn [app];
    eexists; (split; [reflexivity|]); repeat split; reflexivity.
Qed.

Lemma extract_value_needs_two_more_words (keys words : list string) :
  (List.length words <= 2)%nat ->
  forall rest i, Planner.extract_value_from keys words i rest = "unknown_value".
Proof.
  intros Hl rest. induction rest as [|w rest IH]; intros i;
    cbn [Planner.extract_value_from]; [reflexivity|].
  replace (Nat.ltb (i + 2) (List.length words)) with false
    by (symmetry; apply Nat.ltb_ge; lia).
  rewrite andb_false_r. apply IH.
Qed.

Lemma extract_value_needs_a_keyword (keys words : list string) :
  forall rest i,
    Forall (fun w => existsb (fun k => PyStr.contains k (PyStr.lower w)) keys = false)
           rest ->
    Planner.extract_value_from keys words i rest = "unknown_value".
Proof.
  induction rest as [|w rest IH]; intros i Hall;
    cbn [Planner.extract_value_from]; [reflexivity|].
  inversion Hall as [|? ? Hw Hrest]; subst. rewrite Hw. cbn [andb]. now apply IH.
Qed.

(** X12: [extract_value] answers the sentinel "unknown_value" when the text
    has fewer than three words, when no word contains a key, and when
    there are no keys; a keyword among the last two words is never used,
    since no word stands two places after it.  Words are what [str.split()]
    makes of a text in code points below 256: the no-break space and the
    next-line character part words as the ASCII blanks do. *)
Theorem extract_value_defaults (text : string) (keys : list string) :
  ((List.length (PyStr.split text) <= 2)%nat ->
   Planner.extract_value text keys = "unknown_value")
  /\ (Forall (fun w => existsb (fun k => PyStr.contains k (PyStr.lower w)) keys = false)
             (PyStr.split text) ->
      Planner.extract_value text keys = "unknown_value")
  /\ Planner.extract_value text [] = "unknown_value"
  /\ Planner.extract_value "" keys = "unknown_value".
Proof.
  unfold Planner.extract_value. split; [|split; [|split]].
  - intros H. now apply extract_value_needs_two_more_words.
  - apply extract_value_needs_a_keyword.
  - apply extract_value_needs_a_keyword. apply List.Forall_forall. reflexivity.
  - reflexivity.
Qed.

Lemma extract_value_defaults_witness :
  Planner.extract_value "password: hunter2" ["password"; "pass"] = "unknown_value".
Proof.
  destruct (extract_value_defaults "password: hunter2" ["password"; "pass"])
    as [H _].
  apply H. vm_compute. lia.
Defined.

(** ** The browser tools and the step executor *)

Lemma state_kept_ret {A} (a : A) : state_kept (ret a).
Proof. intros c. reflexivity. Qed.

Lemma state_kept_lift {A} (r : result A) : state_kept (lift r).
Proof. intros c. reflexivity. Qed.

Lemma state_kept_browser_call browser (method : string) (args : list value) :
  state_kept (browser_call browser method args).
Proof. intros c. reflexivity. Qed.

Lemma state_kept_bind {A B} (m : M A) (k : A -> M B) :
  state_kept m -> (forall a, state_kept (k a)) -> state_kept (bind m k).
Proof.
  intros Hm Hk c. unfold bind. specialize (Hm c).
  destruct (m c) as [[a|e] c']; cbn [snd] in *; [|exact Hm].
  now rewrite Hk.
Qed.

Lemma state_kept_try_except {A} (body : M A) (handler : exn -> M A) :
  state_kept body -> (forall e, state_kept (handler e)) ->
  state_kept (try_except body handler).
Proof.
  intros Hb Hh c. unfold try_except. specialize (Hb c).
  destruct (body c) as [[a|e] c']; cbn [snd] in *; [exact Hb|].
  now rewrite Hh.
Qed.

Ltac keep_state :=
  repeat first
    [ apply state_kept_ret
    | apply state_kept_lift
    | apply state_kept_browser_call
    | apply state_kept_bind; [|intros]
    | apply state_kept_try_except; [|intros]
    | match goal with
      | |- state_kept (if ?b then _ else _) => destruct b
      | |- state_kept (match ?x with _ => _ end) => destruct x
      end ].

Section ToolFacts.

Variable browser : list event -> string -> list value -> result value.
Variable py_int : value -> result Z.

Lemma dispatch_state_kept (action : string) (target data : value) (current_step : Z) :
  state_kept (dispatch browser py_int action target data current_step).
Proof.
  unfold dispatch, dispatch_fill, tools_navigate, tools_fill_form, tools_click,
    tools_wait_for, tools_submit_form, tools_extract_text, tools_screenshot,
    tools_select_option.
  keep_state.
Qed.






End ToolFacts.


Section StepFacts.

Variable browser : list event -> string -> list value -> result value.
Variable json_dumps : value -> string.
Variable py_int : value -> result Z.

(** On an existing step, [execute_action] is its dispatch followed by the
    storing of the result; an exception escaping the dispatch is reported
    as "Execution failed". *)
Lemma execute_action_after_dispatch
      (c : config) (steps : list value) (d : list (string * value)) (a : string) :
  plan_steps c.(st) = Some steps ->
  0 <= current_step c.(st) < Z.of_nat (List.length steps) ->
  Py.index (VList steps) (current_step c.(st)) = Ok (VDict d) ->
  Py.lookup "action" d = Some (VStr a) ->
  let target := match Py.lookup "target" d with Some t => t | None => VNone end in
  let data0 := match Py.lookup "data" d with Some x => x | None => VDict [] end in
  let data := if Py.truthy data0 then data0 else VDict [] in
  match dispatch browser py_int (PyStr.lower a) target data (current_step c.(st)) c with
  | (Ok (VDict rd), c1) =>
      execute_action browser json_dumps py_int c
      = (Ok tt, mkConfig (stored json_dumps rd c.(st)) c1.(trace))
  | (Ok _, c1) => True
  | (Raise e, c1) =>
      execute_action browser json_dumps py_int c
      = (Ok tt,
         mkConfig (set_error (VStr ("Execution failed: " ++ Py.str_exn e)) c.(st))
                  c1.(trace))
  end.
Proof.
  intros Hp Hb Hi Ha. destruct c as [s tr]. cbn [st trace] in *.
  destruct steps as [|x l]; [cbn in Hb; lia|].
  cbn zeta.
  pose proof (dispatch_state_kept browser py_int (PyStr.lower a)
                (match Py.lookup "target" d with Some t => t | None => VNone end)
                (if Py.truthy (match Py.lookup "data" d with
                               | Some x0 => x0 | None => VDict [] end)
                 then match Py.lookup "data" d with
                      | Some x0 => x0 | None => VDict [] end
                 else VDict [])
                (current_step s) (mkConfig s tr)) as Hk.
  unfold execute_action, try_except, bind, read, lift, modify, ret.
  cbn [st trace].
  rewrite !(plan_steps_nonempty_get _ _ _ Hp). cbn [Py.truthy negb Py.len].
  settle (current_step s >=? Z.of_nat (List.length (x :: l))) false.
  rewrite Hi. cbn [Py.get]. rewrite Ha. cbn [Py.lower].
  destruct (dispatch _ _ _ _ _ _ _) as [[result|e] [s1 tr1]].
  - cbn [st snd] in Hk. subst s1. destruct result as [| | | | | |rd]; try exact I.
    unfold stored. cbn [Py.get Py.contains Py.getitem st trace].
    destruct rd as [|kv rd']; [reflexivity|].
    cbn [Py.truthy andb].
    destruct (Py.lookup "success" (kv :: rd')) as [sv|]; cbn [Py.truthy];
      [destruct (Py.truthy sv)|]; cbn [st trace];
      try reflexivity.
    destruct (Py.lookup "path" (kv :: rd')); reflexivity.
  - cbn [st snd] in Hk. subst s1. reflexivity.
Qed.

End StepFacts.

(** X14: a step whose action, in lower case, is none of the nine
    dispatched names is refused without any browser call: [error] becomes
    "Unknown action: <action in lower case>", the refusal is serialised
    into [agent_reasoning], and nothing else changes.  The action is a text
    in code points below 256, lowered as [str.lower()] lowers it, Latin-1
    capitals included. *)
Theorem execute_action_refuses_unknown_actions
        (browser : list event -> string -> list value -> result value)
        (json_dumps : value -> string)
        (py_int : value -> result Z)
        (c : config) (steps : list value) (d : list (string * value)) (a : string) :
  plan_steps c.(st) = Some steps ->
  0 <= current_step c.(st) < Z.of_nat (List.length steps) ->
  Py.index (VList steps) (current_step c.(st)) = Ok (VDict d) ->
  Py.lookup "action" d = Some (VStr a) ->
  existsb (String.eqb (PyStr.lower a)) known_actions = false ->
  execute_action browser json_dumps py_int c
  = (Ok tt,
     mkConfig
       (set_agent_reasoning
          (json_dumps (VDict [("success", VBool false);
                              ("error", VStr ("Unknown action: " ++ PyStr.lower a))]))
          (set_error (VStr ("Unknown action: " ++ PyStr.lower a)) c.(st)))
       c.(trace)).
Proof.
  intros Hp Hb Hi Ha Hk.
  pose proof (execute_action_after_dispatch browser json_dumps py_int
                c steps d a Hp Hb Hi Ha) as H.
  cbn zeta in H. unfold dispatch in H.
  cbn [existsb known_actions] in Hk.
  repeat (apply orb_false_elim in Hk; destruct Hk as [?Hn Hk]).
  rewrite Hn, Hn0, Hn1, Hn2, Hn3, Hn4, Hn5, Hn6, Hn7 in H.
  cbn [orb] in H. unfold ret in H. exact H.
Qed.

Lemma execute_action_refuses_unknown_actions_witness :
  error (st (snd (execute_action ready_browser plain_dumps plain_int
                                 (mkConfig (state_with_steps [hover_step] 0) []))))
  = VStr "Unknown action: hover"
  /\ trace (snd (execute_action ready_browser plain_dumps plain_int
                                (mkConfig (state_with_steps [hover_step] 0) [])))
     = [].
Proof.
  rewrite (execute_action_refuses_unknown_actions ready_browser plain_dumps plain_int
             (mkConfig (state_with_steps [hover_step] 0) []) [hover_step]
             [("step", VInt 1); ("action", VStr "Hover"); ("target", VStr "#menu")]
             "Hover" eq_refl ltac:(cbn; lia) eq_refl eq_refl eq_refl).
  split; reflexivity.
Defined.

(** X15: a [navigate] step calls the adapter's [navigate] with the step's
    target and then [get_page_state].  If [navigate] raises, [error]
    becomes the message of the exception and [browser_state] keeps the
    previous snapshot; if both calls answer, [browser_state] is overwritten
    with the new snapshot and [error] is left as it was, pending or not. *)
Theorem execute_action_navigate
        (browser : list event -> string -> list value -> result value)
        (json_dumps : value -> string)
        (py_int : value -> result Z)
        (c : config) (steps : list value) (d : list (string * value))
        (a : string) (target : value) :
  plan_steps c.(st) = Some steps ->
  0 <= current_step c.(st) < Z.of_nat (List.length steps) ->
  Py.index (VList steps) (current_step c.(st)) = Ok (VDict d) ->
  Py.lookup "action" d = Some (VStr a) ->
  PyStr.lower a = "navigate" ->
  Py.lookup "target" d = Some target ->
  (forall e,
      browser c.(trace) "navigate" [target] = Raise e ->
      execute_action browser json_dumps py_int c
      = (Ok tt,
         mkConfig
           (set_agent_reasoning (json_dumps (failure e))
              (set_error (VStr (Py.str_exn e)) c.(st)))
           (c.(trace) ++ [ToolCall "navigate" [target]])%list))
  /\ (forall v page,
        browser c.(trace) "navigate" [target] = Ok v ->
        browser (c.(trace) ++ [ToolCall "navigate" [target]])%list
                "get_page_state" [] = Ok page ->
        execute_action browser json_dumps py_int c
        = (Ok tt,
           mkConfig
             (set_agent_reasoning
                (json_dumps
                   (VDict [("success", VBool true);
                           ("message", VStr ("Navigated to " ++ Py.str target));
                           ("page_state", page)]))
                (set_browser_state page c.(st)))
             ((c.(trace) ++ [ToolCall "navigate" [target]])
                ++ [ToolCall "get_page_state" []])%list)).
Proof.
  intros Hp Hb Hi Ha Hl Ht.
  pose proof (execute_action_after_dispatch browser json_dumps py_int
                c steps d a Hp Hb Hi Ha) as H.
  cbn zeta in H. rewrite Hl, Ht in H. unfold dispatch in H.
  rewrite String.eqb_refl in H.
  unfold tools_navigate, try_except, bind, browser_call, ret in H.
  cbn [st trace] in H.
  split.
  - intros e He. rewrite He in H. exact H.
  - intros v page Hn Hg. rewrite Hn, Hg in H. exact H.
Qed.

Lemma execute_action_navigate_witness :
  browser_state (st (snd (execute_action ready_browser plain_dumps plain_int
                                         (mkConfig (state_at 0 (VStr "Timeout") 0) []))))
  = home_page
  /\ error (st (snd (execute_action ready_browser plain_dumps plain_int
                                    (mkConfig (state_at 0 (VStr "Timeout") 0) []))))
     = VStr "Timeout".
Proof.
  destruct (execute_action_navigate ready_browser plain_dumps plain_int
              (mkConfig (state_at 0 (VStr "Timeout") 0) []) hn_steps
              [("step", VInt 1); ("action", VStr "navigate");
               ("target", VStr hn_domain); ("expected_outcome", VStr "Page loaded")]
              "navigate" (VStr hn_domain)
              eq_refl ltac:(rewrite hn_steps_length; cbn; lia) eq_refl eq_refl
              eq_refl eq_refl) as [_ H].
  rewrite (H VNone home_page eq_refl eq_refl). split; reflexivity.
Defined.

(** X16: a [fill] step whose data is [{"value": v}] never reaches the
    adapter's [fill] (the class has no such method): it calls [fill_form]
    with the step's target and the one-field map [{target: v}], then
    [get_page_state].  A failure of [fill_form] becomes [error]; on success
    [browser_state] is overwritten and the result reports one filled
    field. *)
Theorem execute_action_fill_goes_through_fill_form
        (browser : list event -> string -> list value -> result value)
        (json_dumps : value -> string)
        (py_int : value -> result Z)
        (c : config) (steps : list value) (d : list (string * value))
        (a t : string) (v : value) :
  plan_steps c.(st) = Some steps ->
  0 <= current_step c.(st) < Z.of_nat (List.length steps) ->
  Py.index (VList steps) (current_step c.(st)) = Ok (VDict d) ->
  Py.lookup "action" d = Some (VStr a) ->
  PyStr.lower a = "fill" ->
  Py.lookup "target" d = Some (VStr t) ->
  Py.lookup "data" d = Some (VDict [("value", v)]) ->
  (forall e,
      browser c.(trace) "fill_form" [VStr t; VDict [(t, v)]] = Raise e ->
      execute_action browser json_dumps py_int c
      = (Ok tt,
         mkConfig
           (set_agent_reasoning (json_dumps (failure e))
              (set_error (VStr (Py.str_exn e)) c.(st)))
           (c.(trace) ++ [ToolCall "fill_form" [VStr t; VDict [(t, v)]]])%list))
  /\ (forall r page,
        browser c.(trace) "fill_form" [VStr t; VDict [(t, v)]] = Ok r ->
        browser (c.(trace) ++ [ToolCall "fill_form" [VStr t; VDict [(t, v)]]])%list
                "get_page_state" [] = Ok page ->
        execute_action browser json_dumps py_int c
        = (Ok tt,
           mkConfig
             (set_agent_reasoning
                (json_dumps
                   (VDict [("success", VBool true);
                           ("message", VStr "Filled 1 fields");
                           ("page_state", page)]))
                (set_browser_state page c.(st)))
             ((c.(trace) ++ [ToolCall "fill_form" [VStr t; VDict [(t, v)]]])
                ++ [ToolCall "get_page_state" []])%list)).
Proof.
  intros Hp Hb Hi Ha Hl Ht Hd.
  pose proof (execute_action_after_dispatch browser json_dumps py_int
                c steps d a Hp Hb Hi Ha) as H.
  cbn zeta in H. rewrite Hl, Ht, Hd in H. cbn [Py.truthy] in H.
  unfold dispatch in H.
  change (String.eqb "fill" "navigate") with false in H.
  rewrite String.eqb_refl in H. cbn [orb] in H.
  unfold dispatch_fill, browser_has_fill, tools_fill_form, try_except, bind,
    browser_call, lift, ret in H.
  cbn [st trace Py.contains Py.lookup Py.len Py.getitem Py.singleton Py.is_dict
       Py.truthy List.length negb orb] in H.
  rewrite String.eqb_refl in H.
  change (Z.of_nat 1 =? 1) with true in H. cbn [st trace] in H.
  cbn [Py.len List.length] in H.
  split.
  - intros e He. rewrite He in H. exact H.
  - intros r page Hf Hg. rewrite Hf, Hg in H. exact H.
Qed.

Lemma execute_action_fill_goes_through_fill_form_witness :
  trace (snd (execute_action ready_browser plain_dumps plain_int
                             (mkConfig (state_at 1 VNone 0) [])))
  = [ToolCall "fill_form"
       [VStr "input[name='acct'], input[name='username'], input[name='email'], #username, #email";
        VDict [("input[name='acct'], input[name='username'], input[name='email'], #username, #email",
                VStr "bob'.")]];
     ToolCall "get_page_state" []].
Proof.
  destruct (execute_action_fill_goes_through_fill_form
              ready_browser plain_dumps plain_int
              (mkConfig (state_at 1 VNone 0) []) hn_steps
              [("step", VInt 2); ("action", VStr "fill");
               ("target",
                VStr "input[name='acct'], input[name='username'], input[name='email'], #username, #email");
               ("data", VDict [("value", VStr "bob'.")]);
               ("expected_outcome", VStr "Username filled")]
              "fill"
              "input[name='acct'], input[name='username'], input[name='email'], #username, #email"
              (VStr "bob'.")
              eq_refl ltac:(rewrite hn_steps_length; cbn; lia) eq_refl eq_refl
              eq_refl eq_refl eq_refl) as [_ H].
  rewrite (H VNone home_page eq_refl eq_refl). reflexivity.
Defined.

(** X17: a [screenshot] step asks the adapter for a capture at
    [screenshots/step-<current_step + 1>.png].  When the capture and the
    page snapshot both answer, the saved path is appended to [screenshots]
    and [browser_state] is overwritten; when the capture raises, the
    exception is not turned into a tool result: [error] becomes
    "Execution failed: <message>" and [agent_reasoning] keeps its previous
    content. *)
Theorem execute_action_screenshot
        (browser : list event -> string -> list value -> result value)
        (json_dumps : value -> string)
        (py_int : value -> result Z)
        (c : config) (steps : list value) (d : list (string * value)) (a : string) :
  plan_steps c.(st) = Some steps ->
  0 <= current_step c.(st) < Z.of_nat (List.length steps) ->
  Py.index (VList steps) (current_step c.(st)) = Ok (VDict d) ->
  Py.lookup "action" d = Some (VStr a) ->
  PyStr.lower a = "screenshot" ->
  let shot := ToolCall "screenshot" [VStr (screenshot_path (current_step c.(st)))] in
  (forall e,
      browser c.(trace) "screenshot" [VStr (screenshot_path (current_step c.(st)))]
      = Raise e ->
      execute_action browser json_dumps py_int c
      = (Ok tt,
         mkConfig (set_error (VStr ("Execution failed: " ++ Py.str_exn e)) c.(st))
                  (c.(trace) ++ [shot])%list))
  /\ (forall saved page,
        browser c.(trace) "screenshot" [VStr (screenshot_path (current_step c.(st)))]
        = Ok saved ->
        browser (c.(trace) ++ [shot])%list "get_page_state" [] = Ok page ->
        execute_action browser json_dumps py_int c
        = (Ok tt,
           mkConfig
             (set_agent_reasoning
                (json_dumps
                   (VDict [("success", VBool true); ("path", saved);
                           ("page_state", page)]))
                (set_screenshots (screenshots c.(st) ++ [saved])%list
                   (set_browser_state page c.(st))))
             ((c.(trace) ++ [shot]) ++ [ToolCall "get_page_state" []])%list)).
Proof.
  intros Hp Hb Hi Ha Hl shot.
  pose proof (execute_action_after_dispatch browser json_dumps py_int
                c steps d a Hp Hb Hi Ha) as H.
  cbn zeta in H. rewrite Hl in H. unfold dispatch in H.
  change (String.eqb "screenshot" "navigate") with false in H.
  change (String.eqb "screenshot" "fill") with false in H.
  change (String.eqb "screenshot" "fill_form") with false in H.
  change (String.eqb "screenshot" "click") with false in H.
  change (String.eqb "screenshot" "select") with false in H.
  change (String.eqb "screenshot" "submit") with false in H.
  change (String.eqb "screenshot" "wait") with false in H.
  change (String.eqb "screenshot" "extract") with false in H.
  rewrite String.eqb_refl in H. cbn [orb] in H.
  unfold browser_has_screenshot, bind, browser_call, ret in H.
  cbn [st trace] in H. fold (screenshot_path (current_step (st c))) in H.
  split.
  - intros e He. rewrite He in H. exact H.
  - intros saved page Hs Hg. unfold shot in Hg. rewrite Hs, Hg in H. exact H.
Qed.

Lemma execute_action_screenshot_witness :
  screenshots (st (snd (execute_action ready_browser plain_dumps plain_int
                                       (mkConfig (state_at 4 VNone 0) []))))
  = [VStr "screenshots/step-5.png"]
  /\ error (st (snd (execute_action broken_browser plain_dumps plain_int
                                    (mkConfig (state_at 4 VNone 0) []))))
     = VStr "Execution failed: Target closed".
Proof.
  destruct (execute_action_screenshot ready_browser plain_dumps plain_int
              (mkConfig (state_at 4 VNone 0) []) hn_steps
              [("step", VInt 5); ("action", VStr "screenshot");
               ("target", VStr "final_result");
               ("expected_outcome", VStr "Evidence captured")]
              "screenshot"
              eq_refl ltac:(rewrite hn_steps_length; cbn; lia) eq_refl eq_refl
              eq_refl) as [_ H].
  destruct (execute_action_screenshot broken_browser plain_dumps plain_int
              (mkConfig (state_at 4 VNone 0) []) hn_steps
              [("step", VInt 5); ("action", VStr "screenshot");
               ("target", VStr "final_result");
               ("expected_outcome", VStr "Evidence captured")]
              "screenshot"
              eq_refl ltac:(rewrite hn_steps_length; cbn; lia) eq_refl eq_refl
              eq_refl) as [H' _].
  rewrite (H (VStr "screenshots/step-5.png") home_page eq_refl eq_refl).
  rewrite (H' (CollaboratorError "Target closed") eq_refl).
  split; reflexivity.
Defined.

Ltac frame_goal :=
  unfold executor_frame;
  cbn [task domain retrieved_context website_schema plan current_step
       steps_completed browser_state form_data success error screenshots
       agent_reasoning execution_id timestamp retries
       set_error set_success set_browser_state set_screenshots
       set_agent_reasoning st snd];
  repeat split; eauto.

Lemma execute_action_frame_all
      (browser : list event -> string -> list value -> result value)
      (json_dumps : value -> string)
      (py_int : value -> result Z)
      (c : config) :
  executor_frame c.(st) (st (snd (execute_action browser json_dumps py_int c))).
Proof.
  destruct c as [s tr].
  unfold execute_action, try_except, bind, read, lift, modify, ret.
  cbn [st trace].
  destruct (Py.get (plan s) "steps" VNone) as [got|e]; [|frame_goal].
  destruct (negb (Py.truthy got)); [frame_goal|].
  destruct (Py.get (plan s) "steps" (VList [])) as [stp|e] eqn:Hg; [|frame_goal].
  destruct (Py.len stp) as [n|e] eqn:Hn; [|frame_goal].
  destruct (current_step s >=? n) eqn:Hc.
  { frame_goal. right. split; [reflexivity|]. exists stp, n. repeat split; auto. lia. }
  destruct (Py.index stp (current_step s)) as [step|e]; [|frame_goal].
  destruct (Py.get step "action" (VStr "")) as [a|e]; [|frame_goal].
  destruct (Py.lower a) as [action|e]; [|frame_goal].
  destruct (Py.get step "target" VNone) as [target|e]; [|frame_goal].
  destruct (Py.get step "data" (VDict [])) as [d|e]; [|frame_goal].
  match goal with
  | |- context [dispatch browser py_int action target ?data (current_step s) ?cfg] =>
      pose proof (dispatch_state_kept browser py_int action target data
                    (current_step s) cfg) as Hk;
      destruct (dispatch browser py_int action target data (current_step s) cfg)
        as [[result|e] [s1 tr1]]
  end; cbn [st snd] in Hk; subst s1; [|frame_goal].
  repeat (break_inner; cbn [st trace snd]); frame_goal.
Qed.

(** X18: whatever the plan, the step and the browser do, [execute_action]
    writes only [browser_state], [error], [screenshots], [agent_reasoning]
    and [success]: [screenshots] is extended by one path at most and never
    shortened, and [success] is never reset; it is raised only when
    [current_step] has reached the length of the plan. *)
Theorem execute_action_writes_only_its_fields
        (browser : list event -> string -> list value -> result value)
        (json_dumps : value -> string)
        (py_int : value -> result Z)
        (c : config) :
  executor_frame c.(st) (st (snd (execute_action browser json_dumps py_int c)))
  /\ (success c.(st) = true ->
      success (st (snd (execute_action browser json_dumps py_int c))) = true)
  /\ (forall steps,
        plan_steps c.(st) = Some steps ->
        success (st (snd (execute_action browser json_dumps py_int c))) = true ->
        success c.(st) = true
        \/ Z.of_nat (List.length steps) <= current_step c.(st)).
Proof.
  pose proof (execute_action_frame_all browser json_dumps py_int c) as H.
  split; [exact H|].
  destruct H as (_ & _ & _ & _ & _ & _ & _ & _ & _ & _ & _ & _ & Hs).
  split.
  - intros Ht. destruct Hs as [Hs|[Hs _]]; congruence.
  - intros steps Hp Ht. destruct Hs as [Hs|[_ (stp & n & Hg & Hn & Hle)]].
    + left. congruence.
    + right. pose proof (plan_steps_get_steps _ _ Hp) as Hg'.
      unfold get_steps in Hg'. rewrite Hg' in Hg. injection Hg as <-.
      cbn in Hn. injection Hn as <-. exact Hle.
Qed.

(** ** Invariants of a run *)

Lemma plan_workflow_fields
      (llm : list event -> string -> result string)
      (json_loads : string -> option value)
      (c : config) :
  let s := c.(st) in
  let s' := st (snd (plan_workflow llm json_loads c)) in
  retries s' = retries s
  /\ success s' = success s
  /\ error s' = error s
  /\ screenshots s' = screenshots s
  /\ browser_state s' = browser_state s
  /\ ((current_step s' = current_step s /\ steps_completed s' = steps_completed s)
      \/ (current_step s' = 0 /\ steps_completed s' = [])).
Proof.
  destruct c as [s tr]. cbn zeta.
  unfold plan_workflow, try_except, bind, read, lift, modify, ret, llm_ainvoke.
  cbn [st trace].
  repeat (break_inner; cbn [st trace snd]); cbn; repeat split; auto.
Qed.

Lemma plan_workflow_establishes
      (llm : list event -> string -> result string)
      (json_loads : string -> option value)
      (c : config) :
  fresh c.(st) -> run_inv (st (snd (plan_workflow llm json_loads c))).
Proof.
  intros (Hc & Hs & Hr & Hsu).
  destruct (plan_workflow_result llm json_loads c) as (c' & steps & Heq & Hp & Hl).
  pose proof (plan_workflow_fields llm json_loads c) as Hf. cbn zeta in Hf.
  rewrite Heq in *. cbn [snd] in *.
  destruct Hf as (Hr' & Hs' & _ & _ & _ & Hcs).
  assert (Hz : current_step (st c') = 0 /\ steps_completed (st c') = [])
    by (destruct Hcs as [[H1 H2]|[H1 H2]]; split; congruence).
  destruct Hz as [Hz1 Hz2].
  exists steps. unfold recorded_below. rewrite Hz1, Hz2, Hr', Hr.
  repeat split; auto; try lia; try constructor; congruence.
Qed.

Lemma execute_action_keeps_inv
      (browser : list event -> string -> list value -> result value)
      (json_dumps : value -> string)
      (py_int : value -> result Z)
      (c : config) :
  run_inv c.(st) -> run_inv (st (snd (execute_action browser json_dumps py_int c))).
Proof.
  intros (steps & Hp & Hl & Hb & Hr & [Hrec Hnd] & Hsu).
  pose proof (execute_action_frame_all browser json_dumps py_int c) as Hf.
  destruct Hf as (_ & _ & _ & _ & Hpl & Hcs & Hsc & _ & _ & _ & Hre & _ & Hs).
  exists steps. unfold recorded_below. rewrite Hcs, Hsc, Hre.
  rewrite (plan_steps_same_plan _ _ Hpl).
  repeat split; auto; try lia.
  intros Ht. destruct Hs as [Hs|[_ (stp & n & Hg & Hn & Hle)]].
  - apply Hsu. congruence.
  - pose proof (plan_steps_get_steps _ _ Hp) as Hg'. unfold get_steps in Hg'.
    rewrite Hg' in Hg. injection Hg as <-. cbn in Hn. injection Hn as <-. lia.
Qed.

(** The validator has three outcomes on a well-formed plan. *)
Lemma validate_step_cases
      (llm : list event -> string -> result string)
      (json_loads : string -> option value)
      (c : config) (steps : list value) :
  plan_steps c.(st) = Some steps ->
  exists s',
    validate_step llm json_loads c = (Ok tt, mkConfig s' c.(trace))
    /\ ((Z.of_nat (List.length steps) <= current_step c.(st)
         /\ s' = set_success true c.(st))
        \/ (current_step c.(st) < Z.of_nat (List.length steps)
            /\ s' = validated (Z.of_nat (List.length steps)) c.(st))
        \/ (current_step c.(st) < Z.of_nat (List.length steps)
            /\ exists e, s' = recovered e c.(st))).
Proof.
  intros Hp. pose proof (plan_steps_get_steps _ _ Hp) as Hg.
  unfold get_steps in Hg. destruct c as [s tr]. cbn [st trace] in *.
  unfold validate_step, try_except, bind, read, lift, modify, ret.
  cbn [st trace]. rewrite Hg. cbn [Py.len].
  destruct (current_step s >=? Z.of_nat (List.length steps)) eqn:Hc.
  { eexists. split; [reflexivity|]. left. split; [lia|reflexivity]. }
  assert (Hlt : current_step s < Z.of_nat (List.length steps)) by lia.
  assert (Hrec : forall e,
             exists s',
               validate_recover e (mkConfig s tr) = (Ok tt, mkConfig s' tr)
               /\ ((Z.of_nat (List.length steps) <= current_step s
                    /\ s' = set_success true s)
                   \/ (current_step s < Z.of_nat (List.length steps)
                       /\ s' = validated (Z.of_nat (List.length steps)) s)
                   \/ (current_step s < Z.of_nat (List.length steps)
                       /\ exists e, s' = recovered e s))).
  { intros e. rewrite validate_recover_eq. eexists. split; [reflexivity|].
    right. right. split; [exact Hlt|]. now exists e. }
  destruct (Py.index (VList steps) (current_step s)) as [step|e]; [|apply Hrec].
  destruct (Py.get step "expected_outcome" _) as [eo|e]; [|apply Hrec].
  destruct (validate_heuristic step (browser_state s) (error s) (current_step s))
    as [v|e] eqn:Hv; [|apply Hrec].
  destruct (validate_heuristic_answers _ _ _ _ _ Hv) as [->|[reason ->]].
  - cbn [Py.get Py.type_name]. apply Hrec.
  - cbn. unfold validated.
    destruct (current_step s + 1 >=? Z.of_nat (List.length steps));
      (eexists; split; [reflexivity|]); right; left; (split; [exact Hlt|]);
      reflexivity.
Qed.

Lemma recorded_below_snoc (sc : list Z) (cs : Z) :
  0 <= cs ->
  Forall (fun i => 0 <= i < cs) sc -> NoDup sc ->
  Forall (fun i => 0 <= i < cs + 1) (sc ++ [cs]) /\ NoDup (sc ++ [cs]).
Proof.
  intros Hc Hall Hnd. split.
  - apply List.Forall_app. split.
    + eapply List.Forall_impl; [|exact Hall]. cbn. intros. lia.
    + constructor; [lia|constructor].
  - apply List.NoDup_app; [exact Hnd|repeat constructor; auto|].
    intros a Ha [<-|[]]. rewrite List.Forall_forall in Hall.
    specialize (Hall _ Ha). lia.
Qed.

Lemma validate_step_keeps_inv
      (llm : list event -> string -> result string)
      (json_loads : string -> option value)
      (c : config) :
  run_inv c.(st) ->
  run_inv (st (snd (validate_step llm json_loads c)))
  /\ current_step (st (snd (validate_step llm json_loads c)))
     <= current_step c.(st) + 1.
Proof.
  intros (steps & Hp & Hl & Hb & Hr & [Hrec Hnd] & Hsu).
  destruct (validate_step_cases llm json_loads c steps Hp)
    as (s' & -> & [[Hge ->]|[[Hlt ->]|[Hlt [e ->]]]]); cbn [snd st].
  - split; [|cbn; lia]. exists steps. unfold recorded_below. cbn.
    repeat split; auto; lia.
  - assert (Hsf : success (st c) = false).
    { destruct (success (st c)) eqn:E; [|reflexivity].
      specialize (Hsu eq_refl). lia. }
    destruct (recorded_below_snoc _ _ (proj1 Hb) Hrec Hnd) as [H1 H2].
    unfold validated.
    destruct (current_step (st c) + 1 >=? Z.of_nat (List.length steps)) eqn:E;
      (split; [|cbn; lia]); exists steps; unfold recorded_below; cbn;
      repeat split; auto; try lia; intros; congruence.
  - assert (Hsf : success (st c) = false).
    { destruct (success (st c)) eqn:E; [|reflexivity].
      specialize (Hsu eq_refl). lia. }
    unfold recovered. destruct (current_step (st c) <=? 4);
      (split; [|cbn; lia]); exists steps; unfold recorded_below; cbn;
      repeat split; auto; try lia; try congruence.
    eapply List.Forall_impl; [|exact Hrec]. cbn. intros. lia.
Qed.

(** The router on a state of a run: it returns, and it answers DONE only
    at the end of the plan or at the step ceiling.  With [retries] at 0 the
    rule for exhausted retries cannot fire. *)
Lemma should_continue_in_run (s : WebAutomationState) :
  run_inv s ->
  exists r s',
    _should_continue s = Ok (r, s')
    /\ (r = Done -> done_reason s)
    /\ (r = Continue ->
        success s = false
        /\ exists steps,
            plan_steps s = Some steps
            /\ current_step s < Z.of_nat (List.length steps)).
Proof.
  intros (steps & Hp & Hl & Hb & Hr & [Hrec Hnd] & Hsu).
  rewrite (should_continue_rules _ _ Hp).
  settle (retries s >=? 2) false. rewrite Bool.andb_false_r.
  destruct (success s) eqn:Hs; cbn [orb].
  - eexists _, _. split; [reflexivity|]. split; [|discriminate].
    intros _. left. exists steps. auto.
  - destruct (current_step s >=? Z.of_nat (List.length steps)) eqn:Hn.
    + eexists _, _. split; [reflexivity|]. split; [|discriminate].
      intros _. left. exists steps. split; [exact Hp|lia].
    + assert (Hc : Continue = Continue ->
                   false = false
                   /\ exists steps0,
                       plan_steps s = Some steps0
                       /\ current_step s < Z.of_nat (List.length steps0))
        by (intros _; split; [reflexivity|]; exists steps; split; [exact Hp|lia]).
      destruct (current_step s >=? 10) eqn:H10.
      * eexists _, _. split; [reflexivity|]. split; [|discriminate].
        intros _. right. lia.
      * destruct (Py.truthy (error s)); eexists _, _;
          (split; [reflexivity|]); (split; [discriminate|exact Hc]).
Qed.

Section RunFacts.

Variable llm : list event -> string -> result string.
Variable browser : list event -> string -> list value -> result value.
Variable json_loads : string -> option value.
Variable json_dumps : value -> string.
Variable py_int : value -> result Z.

(** One node run under its precondition: it returns, establishes the
    invariant, and only Validate may move [current_step], by one at most.
    Plan and Execute leave a run under way; after Validate, [success] is
    set if and only if the last step of the plan is recorded as passed. *)
Lemma run_node_step (n : node) (c : config) :
  node_pre n c.(st) ->
  exists c1,
    run_node llm browser json_loads json_dumps py_int n c = (Ok tt, c1)
    /\ run_inv c1.(st)
    /\ current_step c1.(st)
       <= current_step c.(st) + (if node_eqb NValidate n then 1 else 0)
    /\ (if node_eqb NValidate n then reports_last_step c1.(st)
        else underway c1.(st)).
Proof.
  destruct n; cbn [node_pre run_node node_eqb]; intros Hpre.
  - pose proof (plan_workflow_establishes llm json_loads c Hpre) as Hinv.
    pose proof (plan_workflow_fields llm json_loads c) as Hf. cbn zeta in Hf.
    destruct (plan_workflow_result llm json_loads c) as (c1 & steps & Heq & Hp & Hl).
    rewrite Heq in *. cbn [snd] in *. exists c1.
    split; [reflexivity|]. split; [exact Hinv|].
    destruct Hpre as (Hc & Hsc & _ & Hsu).
    destruct Hf as (_ & Hsu' & _ & _ & _ & Hcs).
    assert (Hz : current_step (st c1) = 0 /\ steps_completed (st c1) = [])
      by (destruct Hcs as [[H1 H2]|[H1 H2]]; split; congruence).
    destruct Hz as [Hz1 Hz2]. split; [lia|].
    exists steps. rewrite Hz1, Hz2, Hsu'. repeat split; auto; try lia.
  - destruct Hpre as [Hpre (steps & Hp & Hlt & Hsu & Hni)].
    pose proof (execute_action_keeps_inv browser json_dumps py_int c Hpre) as Hinv.
    pose proof (execute_action_frame_all browser json_dumps py_int c) as Hf.
    pose proof (execute_action_returns browser json_dumps py_int c) as Hr.
    destruct (execute_action browser json_dumps py_int c) as [r c1].
    cbn [fst snd] in *. subst r. exists c1.
    split; [reflexivity|]. split; [exact Hinv|].
    destruct Hf as (_ & _ & _ & _ & Hpl & Hcs & Hsc & _ & _ & _ & _ & _ & Hs).
    split; [lia|]. exists steps. rewrite (plan_steps_same_plan _ _ Hpl), Hcs, Hsc.
    repeat split; auto.
    destruct Hs as [Hs|[_ (stp & n & Hg & Hn & Hle)]]; [congruence|].
    pose proof (plan_steps_get_steps _ _ Hp) as Hg'. unfold get_steps in Hg'.
    rewrite Hg' in Hg. injection Hg as <-. cbn in Hn. injection Hn as <-. lia.
  - destruct Hpre as [Hpre (steps & Hp & Hlt & Hsu & Hni)].
    destruct (validate_step_keeps_inv llm json_loads c Hpre) as [Hinv Hcs].
    destruct (validate_step_cases llm json_loads c steps Hp)
      as (s' & Heq & Hcases).
    rewrite Heq in *. cbn [snd st] in *. eexists.
    split; [reflexivity|]. split; [exact Hinv|]. split; [exact Hcs|].
    cbn [st]. exists steps.
    destruct Hcases as [[Hge ->]|[[_ ->]|[_ [e ->]]]]; [lia| |].
    + unfold validated.
      destruct (current_step (st c) + 1 >=? Z.of_nat (List.length steps)) eqn:E;
        (split; [unfold plan_steps in *; exact Hp|]); cbn;
        rewrite List.in_app_iff; cbn; split; intros H;
        try reflexivity; try congruence.
      * right. left. lia.
      * destruct H as [H|[H|[]]]; [contradiction|lia].
    + unfold recovered. destruct (current_step (st c) <=? 4);
        (split; [unfold plan_steps in *; exact Hp|]); cbn;
        split; intros H; try congruence; contradiction.
Qed.

(** A run from a state as [execute_task_with_context] builds it ends at
    [END] or at the recursion limit, never with an exception of a node or
    of the router. *)
Lemma run_graph_outcome (limit : nat) :
  forall (n : node) (visited : list node) (c : config),
    node_pre n c.(st) ->
    current_step c.(st) <= Z.of_nat (cycles visited) ->
    let r := run_graph llm browser json_loads json_dumps py_int
                       limit n visited c in
    current_step (st (final_config (snd r))) <= Z.of_nat (cycles (fst r))
    /\ match snd r with
       | Finished c' =>
           run_inv c'.(st) /\ done_reason c'.(st) /\ reports_last_step c'.(st)
       | Failed _ _ => False
       | RecursionLimit _ =>
           List.length (fst r) = (List.length visited + limit)%nat
       end.
Proof.
  induction limit as [|k IH]; intros n visited c Hpre Hcs; cbn zeta;
    cbn [run_graph].
  - cbn [fst snd final_config]. split; [exact Hcs|lia].
  - destruct (run_node_step n c Hpre) as (c1 & -> & Hinv & Hstep & Hafter).
    assert (Hcs1 : current_step (st c1) <= Z.of_nat (cycles (visited ++ [n])))
      by (rewrite cycles_snoc; destruct (node_eqb NValidate n); lia).
    assert (Hlen : forall r : list node * outcome,
               List.length (fst r) = (List.length (visited ++ [n]) + k)%nat ->
               List.length (fst r) = (List.length visited + S k)%nat)
      by (intros r; rewrite List.length_app; cbn; lia).
    assert (Hnext : forall n',
               n' <> NPlan ->
               underway (st c1) ->
               let r := run_graph llm browser json_loads json_dumps py_int
                                  k n' (visited ++ [n])%list c1 in
               current_step (st (final_config (snd r))) <= Z.of_nat (cycles (fst r))
               /\ match snd r with
                  | Finished c' =>
                      run_inv c'.(st) /\ done_reason c'.(st)
                      /\ reports_last_step c'.(st)
                  | Failed _ _ => False
                  | RecursionLimit _ =>
                      List.length (fst r) = (List.length visited + S k)%nat
                  end).
    { intros n' Hn' Hund.
      assert (Hpre' : node_pre n' (st c1))
        by (destruct n'; [congruence| |]; split; assumption).
      specialize (IH n' (visited ++ [n])%list c1 Hpre' Hcs1).
      cbn zeta in *. destruct IH as [H1 H2]. split; [exact H1|].
      destruct (snd (run_graph _ _ _ _ _ k n' _ c1)); [exact H2|exact H2|].
      now apply Hlen. }
    destruct n; cbn [next_node node_eqb] in *.
    + apply Hnext; [discriminate|exact Hafter].
    + apply Hnext; [discriminate|exact Hafter].
    + destruct (should_continue_in_run _ Hinv) as (r & s' & -> & Hd & Hc).
      destruct r.
      * apply Hnext; [discriminate|].
        destruct (Hc eq_refl) as (Hsu & steps & Hp & Hlt).
        destruct Hafter as (steps' & Hp' & Hiff).
        rewrite Hp in Hp'. injection Hp' as <-.
        exists steps. repeat split; auto.
        intros Hin. apply Hiff in Hin. congruence.
      * cbn [fst snd final_config]. split; [exact Hcs1|].
        split; [exact Hinv|]. split; [auto|exact Hafter].
Qed.

(** The nodes run in the order of the graph's edges, at most [limit] of
    them; a run that finishes ends on a Validate. *)
Lemma run_graph_order (limit : nat) :
  forall (n : node) (visited : list node) (c : config),
    let r := run_graph llm browser json_loads json_dumps py_int
                       limit n visited c in
    (exists j, (j <= limit)%nat /\ (1 <= limit -> 1 <= j)%nat
               /\ fst r = (visited ++ expected_order j n)%list)
    /\ (forall c', snd r = Finished c' ->
                   exists before, fst r = (before ++ [NValidate])%list).
Proof.
  induction limit as [|k IH]; intros n visited c; cbn zeta; cbn [run_graph].
  - split; [|discriminate]. exists 0%nat. cbn. rewrite List.app_nil_r.
    repeat split; lia.
  - assert (Hone : exists j, (j <= S k)%nat /\ (1 <= S k -> 1 <= j)%nat
                       /\ (visited ++ [n])%list = (visited ++ expected_order j n)%list)
      by (exists 1%nat; repeat split; lia).
    assert (Hmore : forall r : list node * outcome,
               (exists j, (j <= k)%nat /\ (1 <= k -> 1 <= j)%nat
                          /\ fst r = ((visited ++ [n]) ++ expected_order j (next_in_order n))%list) ->
               exists j, (j <= S k)%nat /\ (1 <= S k -> 1 <= j)%nat
                         /\ fst r = (visited ++ expected_order j n)%list).
    { intros r (j & Hj & _ & ->). exists (S j). split; [lia|]. split; [lia|].
      rewrite <- List.app_assoc. reflexivity. }
    destruct (run_node _ _ _ _ _ n c) as [[u|e] c1];
      [|cbn [fst snd]; split; [exact Hone|discriminate]].
    destruct n; cbn [next_node].
    + destruct (IH NExecute (visited ++ [NPlan])%list c1) as [H1 H2].
      split; [apply Hmore; exact H1|exact H2].
    + destruct (IH NValidate (visited ++ [NExecute])%list c1) as [H1 H2].
      split; [apply Hmore; exact H1|exact H2].
    + destruct (_should_continue (st c1)) as [[[|] s']|e];
        cbn [fst snd]; try (split; [exact Hone|discriminate]).
      * destruct (IH NExecute (visited ++ [NValidate])%list c1) as [H1 H2].
        split; [apply Hmore; exact H1|exact H2].
      * split; [exact Hone|]. intros c' _. now exists visited.
Qed.

(** *** A step the validator never passes *)

Lemma long_plan_steps (s : WebAutomationState) :
  plan s = long_plan -> plan_steps s = Some long_steps.
Proof. intros H. unfold plan_steps. now rewrite H. Qed.

(** The router on the six-step plan, before its end: CONTINUE, whatever
    [error] holds, as long as [retries] stays below 2. *)
Lemma router_continues_on_long_plan (s : WebAutomationState) :
  on_long_plan s -> exists s', _should_continue s = Ok (Continue, s').
Proof.
  intros (Hp & Hr & Hs & Hc).
  rewrite (should_continue_rules _ _ (long_plan_steps _ Hp)).
  rewrite Hr, Hs. change (0 >=? 2) with false. rewrite Bool.andb_false_r.
  cbn [orb]. change (Z.of_nat (List.length long_steps)) with 6.
  settle (current_step s >=? 6) false. settle (current_step s >=? 10) false.
  destruct (Py.truthy (error s)); eexists; reflexivity.
Qed.

Lemma execute_action_on_long_plan (c : config) :
  on_long_plan c.(st) ->
  exists c1,
    execute_action browser json_dumps py_int c = (Ok tt, c1)
    /\ on_long_plan c1.(st)
    /\ current_step c1.(st) = current_step c.(st).
Proof.
  intros (Hp & Hr & Hs & Hc).
  pose proof (execute_action_frame_all browser json_dumps py_int c) as Hf.
  pose proof (execute_action_returns browser json_dumps py_int c) as Hret.
  destruct (execute_action browser json_dumps py_int c) as [r c1].
  cbn [fst snd] in *. subst r. exists c1. split; [reflexivity|].
  destruct Hf as (_ & _ & _ & _ & Hpl & Hcs & _ & _ & _ & _ & Hre & _ & Hsu).
  split; [|exact Hcs]. unfold on_long_plan. rewrite Hpl, Hcs, Hre.
  repeat split; auto; try lia.
  destruct Hsu as [Hsu|[_ (stp & n & Hg & Hn & Hle)]]; [congruence|].
  pose proof (plan_steps_get_steps _ _ (long_plan_steps _ Hp)) as Hg'.
  unfold get_steps in Hg'. rewrite Hg' in Hg. injection Hg as <-.
  cbn in Hn. injection Hn as <-. lia.
Qed.

(** at the last step of the six-step plan, an [extract], the heuristics
    give no verdict whatever the page shows *)
Lemma extract_step_has_no_verdict (page_state error : value) (current_step : Z) :
  validate_heuristic (nth 5 long_steps VNone) page_state error current_step = Ok VNone
  \/ exists e,
      validate_heuristic (nth 5 long_steps VNone) page_state error current_step
      = Raise e.
Proof.
  unfold validate_heuristic. cbn [nth long_steps Py.get Py.lookup String.eqb
                                  Ascii.eqb Bool.eqb rbind Py.lower].
  destruct (Py.get page_state "url" (VStr "")) as [u|e]; cbn [rbind]; [|eauto].
  destruct (Py.lower u) as [url|e]; cbn [rbind]; [|eauto].
  left. apply second_pass_returns_none.
Qed.

Lemma validate_step_on_long_plan (c : config) :
  on_long_plan c.(st) ->
  exists c1,
    validate_step llm json_loads c = (Ok tt, c1)
    /\ on_long_plan c1.(st).
Proof.
  intros (Hp & Hr & Hs & Hc).
  pose proof (long_plan_steps _ Hp) as Hps.
  change (Z.of_nat (List.length long_steps)) with 6 in *.
  destruct (Z.eq_dec (current_step (st c)) 5) as [H5|H5].
  - (* the last step: no verdict, the handler sets [error] *)
    pose proof (plan_steps_get_steps _ _ Hps) as Hg. unfold get_steps in Hg.
    destruct c as [s tr]. cbn [st] in *.
    unfold validate_step, try_except, bind, read, lift, modify, ret.
    cbn [st trace]. rewrite Hg. cbn [Py.len].
    change (Z.of_nat (List.length long_steps)) with 6. rewrite H5.
    change (5 >=? 6) with false. cbv iota.
    change (Py.index (VList long_steps) 5) with (Ok (nth 5 long_steps VNone)).
    cbv iota beta.
    change (Py.get (nth 5 long_steps VNone) "expected_outcome" (VStr "Complete step"))
      with (@Ok value (VStr "Complete step")).
    cbv iota beta.
    assert (Hrec : forall e,
               exists c1, validate_recover e (mkConfig s tr) = (Ok tt, c1)
                          /\ on_long_plan (st c1)).
    { intros e. rewrite validate_recover_eq. eexists. split; [reflexivity|].
      cbn [st]. unfold recovered. rewrite H5. change (5 <=? 4) with false.
      unfold on_long_plan. cbn. repeat split; auto; lia. }
    destruct (extract_step_has_no_verdict (browser_state s) (error s) 5)
      as [Hv|[e Hv]]; rewrite Hv; cbv iota beta.
    + cbn [Py.get Py.type_name]. apply Hrec.
    + apply Hrec.
  - destruct (validate_step_cases llm json_loads c long_steps Hps)
      as (s' & -> & [[Hge ->]|[[Hlt ->]|[Hlt [e ->]]]]);
      change (Z.of_nat (List.length long_steps)) with 6 in *;
      (eexists; split; [reflexivity|]); cbn [st].
    + lia.
    + unfold validated. settle (current_step (st c) + 1 >=? 6) false.
      unfold on_long_plan. cbn. repeat split; auto; lia.
    + unfold recovered. settle (current_step (st c) <=? 4) true.
      unfold on_long_plan. cbn. repeat split; auto; lia.
Qed.

(** On the six-step plan a run never reaches [END]: each Validate leaves
    the router a state it answers CONTINUE on, and the engine stops the run
    at its limit, whatever that is. *)
Lemma long_plan_run (limit : nat) :
  forall (n : node) (visited : list node) (c : config),
    n <> NPlan ->
    on_long_plan c.(st) ->
    exists c',
      run_graph llm browser json_loads json_dumps py_int limit n visited c
      = ((visited ++ expected_order limit n)%list, RecursionLimit c')
      /\ on_long_plan c'.(st).
Proof.
  induction limit as [|k IH]; intros n visited c Hn Hl; cbn [run_graph expected_order].
  - exists c. rewrite List.app_nil_r. split; [reflexivity|exact Hl].
  - assert (Hcons : forall n', ((visited ++ [n]) ++ expected_order k n')%list
                                = (visited ++ n :: expected_order k n')%list)
      by (intros n'; now rewrite <- List.app_assoc).
    destruct n; [congruence| |]; cbn [run_node next_node next_in_order].
    + destruct (execute_action_on_long_plan c Hl) as (c1 & -> & Hl1 & _).
      destruct (IH NValidate (visited ++ [NExecute])%list c1 ltac:(discriminate) Hl1)
        as (c' & -> & Hl'). exists c'. now rewrite Hcons.
    + destruct (validate_step_on_long_plan c Hl) as (c1 & -> & Hl1).
      destruct (router_continues_on_long_plan _ Hl1) as (s' & ->).
      destruct (IH NExecute (visited ++ [NValidate])%list c1 ltac:(discriminate) Hl1)
        as (c' & -> & Hl'). exists c'. now rewrite Hcons.
Qed.

End RunFacts.

Lemma initial_state_is_fresh (new_uuid now task domain : string) (ctx : value) :
  fresh (initial_state new_uuid now task domain ctx).
Proof. repeat split. Qed.

Lemma expected_order_has_no_plan (j : nat) :
  forall n, n <> NPlan ->
            List.length (filter (node_eqb NPlan) (expected_order j n)) = 0%nat.
Proof.
  induction j as [|j IH]; intros n Hn; cbn [expected_order filter]; [reflexivity|].
  destruct n; [congruence| |]; cbn [node_eqb next_in_order]; apply IH; discriminate.
Qed.

Lemma expected_order_length (j : nat) :
  forall n, List.length (expected_order j n) = j.
Proof. induction j as [|j IH]; intros n; cbn; [reflexivity|now rewrite IH]. Qed.

(** C2, where the code departs from it: the router's count of retries is
    written to a state the graph does not keep.  On a six-step plan whose
    last step the validator never passes, whatever the browser does and
    whatever the recursion limit, the run ends at the limit and not at
    [END]: the router answers CONTINUE at every cycle, on a state whose
    [retries] is still 0, so the retries are never exhausted and DONE is
    not reached within [max(6, 10) + 2 = 12] cycles or later.  Under the
    coded limit of 15 the run is cut after 15 nodes, 7 cycles, at step 5
    with [error] set and [retries = 0], and the task is aborted with the
    engine's recursion error.  The outer cap of the claim does hold: no
    task runs more than 7 cycles, whatever the collaborators do. *)
Theorem router_never_exhausts_the_retries :
  (forall (browser : list event -> string -> list value -> result value)
          (json_dumps : value -> string)
          (py_int : value -> result Z)
          (limit : nat),
      exists c',
        run_graph long_llm browser long_loads json_dumps py_int limit NPlan []
                  long_start
        = (expected_order limit NPlan, RecursionLimit c')
        /\ retries c'.(st) = 0
        /\ success c'.(st) = false)
  /\ (exists c',
        ainvoke long_llm ready_browser long_loads plain_dumps plain_int long_start
        = (expected_order 15 NPlan, RecursionLimit c')
        /\ cycles (expected_order 15 NPlan) = 7%nat
        /\ plan c'.(st) = long_plan
        /\ current_step c'.(st) = 5
        /\ retries c'.(st) = 0
        /\ error c'.(st)
           = VStr "Validation failed: 'NoneType' object has no attribute 'get'")
  /\ (forall recursion_error_text : nat -> string,
        fst (execute_task_with_context long_llm ready_browser long_loads
               plain_dumps plain_int empty_kb "id" "t" recursion_error_text
               hn_task hn_domain)
        = (Aborted (recursion_error_text 15%nat), expected_order 15 NPlan))
  /\ (forall llm browser json_loads json_dumps py_int kb_search new_uuid now
             recursion_error_text (task domain : string),
        (cycles (snd (fst (execute_task_with_context llm browser json_loads
                             json_dumps py_int kb_search new_uuid now
                             recursion_error_text task domain))) <= 7)%nat).
Proof.
  split; [|split; [|split]].
  - intros browser json_dumps py_int [|k]; cbn [run_graph expected_order].
    + exists long_start. repeat split.
    + cbn [run_node next_node next_in_order].
      assert (E : exists c1,
                 plan_workflow long_llm long_loads long_start = (Ok tt, c1)
                 /\ on_long_plan c1.(st)).
      { eexists. split; [vm_compute; reflexivity|].
        unfold on_long_plan. cbn. repeat split; try reflexivity; lia. }
      destruct E as (c1 & -> & Hl). cbn [next_node app].
      destruct (long_plan_run long_llm browser long_loads json_dumps py_int k
                  NExecute [NPlan] c1 ltac:(discriminate) Hl)
        as (c' & -> & (_ & Hr & Hs & _)).
      exists c'. repeat split; assumption.
  - eexists. split; [vm_compute; reflexivity|]. repeat split.
  - intros text. vm_compute. reflexivity.
  - intros llm browser json_loads json_dumps py_int kb_search new_uuid now
           text tk dm.
    apply execute_task_cycles.
Qed.

(** X19: what a completed task looks like.  When
    [execute_task_with_context] returns the state its graph run ended in,
    the plan has been walked to its end: the plan has between 1 and 7
    steps (the recursion limit leaves room for seven cycles) and
    [current_step] is its length; [retries] is 0, since what the router
    adds to it is not kept, so neither the rule for exhausted retries nor
    the step ceiling of 10 is ever what ends a run; every index in
    [steps_completed] is below [current_step] and recorded once; and
    [success] is set if and only if the validator passed the last step of
    the plan: a run whose last step was advanced by the validator's
    exception handler comes back without [success], though no step is
    left. *)
Theorem completed_task_state
        (llm : list event -> string -> result string)
        (browser : list event -> string -> list value -> result value)
        (json_loads : string -> option value)
        (json_dumps : value -> string)
        (py_int : value -> result Z)
        (kb_search : string -> result value)
        (new_uuid now : string)
        (recursion_error_text : nat -> string)
        (task domain : string)
        (s : WebAutomationState) (visited : list node) (tr : list event) :
  execute_task_with_context llm browser json_loads json_dumps py_int kb_search
                            new_uuid now recursion_error_text task domain
  = (Completed s, visited, tr) ->
  exists steps,
    plan_steps s = Some steps
    /\ (1 <= List.length steps <= 7)%nat
    /\ current_step s = Z.of_nat (List.length steps)
    /\ retries s = 0
    /\ Forall (fun i => 0 <= i < current_step s) (steps_completed s)
    /\ NoDup (steps_completed s)
    /\ (success s = true <-> In (current_step s - 1) (steps_completed s)).
Proof.
  unfold execute_task_with_context.
  destruct (browser [] "initialize" []) as [v|e]; [|discriminate].
  destruct (kb_search _) as [ctx|e]; [|discriminate].
  set (c0 := mkConfig (initial_state new_uuid now task domain ctx)
                      [ToolCall "initialize" []]).
  pose proof (run_graph_outcome llm browser json_loads json_dumps py_int
                recursion_limit NPlan [] c0
                (initial_state_is_fresh _ _ _ _ _) ltac:(cbn; lia)) as H.
  pose proof (ainvoke_cycles llm browser json_loads json_dumps py_int c0) as Hc.
  unfold ainvoke in *. cbn zeta in H.
  destruct (run_graph _ _ _ _ _ _ _ _ c0) as [vis [c'|e c'|c']];
    [|discriminate|discriminate].
  intros [= <- <- <-]. cbn [fst snd final_config] in *.
  destruct H as (Hcs & (steps & Hp & Hl & Hb & Hr & [Hrec Hnd] & Hsu) & Hd
                 & (steps' & Hp' & Hiff)).
  rewrite Hp in Hp'. injection Hp' as <-.
  assert (Hlen : current_step (st c') = Z.of_nat (List.length steps)).
  { destruct Hd as [(steps' & Hp' & Hd)|Hd]; [|lia].
    rewrite Hp in Hp'. injection Hp' as <-. exact Hd. }
  exists steps. rewrite Hlen. repeat split; auto; try lia; try apply Hiff.
  now rewrite <- Hlen.
Qed.

Lemma completed_task_state_witness :
  exists s visited tr,
    execute_task_with_context planning_llm login_browser plan_loads plain_dumps
                              plain_int empty_kb "id" "t" limit_text
                              hn_task hn_domain
    = (Completed s, visited, tr)
    /\ current_step s = 2
    /\ retries s = 0
    /\ success s = false.
Proof.
  assert (E : exists s visited tr,
             execute_task_with_context planning_llm login_browser plan_loads
                                       plain_dumps plain_int empty_kb "id" "t"
                                       limit_text hn_task hn_domain
             = (Completed s, visited, tr)
             /\ plan_steps s = plan_steps (set_plan model_plan s)
             /\ success s = false)
    by (vm_compute; eexists _, _, _; repeat split; reflexivity).
  destruct E as (s & visited & tr & E & Hp & Hs).
  exists s, visited, tr. split; [exact E|].
  destruct (completed_task_state _ _ _ _ _ _ _ _ _ _ _ _ _ _ E)
    as (steps & Hp' & _ & Hc & Hr & _).
  rewrite Hp in Hp'. injection Hp' as <-.
  split; [exact Hc|]. split; [exact Hr|exact Hs].
Defined.

(** X20: a task is aborted only in two ways: the browser session or the
    knowledge base failed before any node ran, or the graph engine gave up
    at the recursion limit after exactly 15 node runs, and then the record
    carries the engine's own message.  The nodes and the router never
    abort a run themselves. *)
Theorem aborted_task_causes
        (llm : list event -> string -> result string)
        (browser : list event -> string -> list value -> result value)
        (json_loads : string -> option value)
        (json_dumps : value -> string)
        (py_int : value -> result Z)
        (kb_search : string -> result value)
        (new_uuid now : string)
        (recursion_error_text : nat -> string)
        (task domain : string)
        (msg : string) (visited : list node) (tr : list event) :
  execute_task_with_context llm browser json_loads json_dumps py_int kb_search
                            new_uuid now recursion_error_text task domain
  = (Aborted msg, visited, tr) ->
  (visited = []
   /\ ((exists e, browser [] "initialize" [] = Raise e /\ msg = Py.str_exn e)
       \/ (exists e, kb_search "login form username password" = Raise e
                     /\ msg = Py.str_exn e)))
  \/ (visited = expected_order 15 NPlan
      /\ msg = recursion_error_text 15%nat).
Proof.
  unfold execute_task_with_context.
  destruct (browser [] "initialize" []) as [v|e].
  2:{ intros [= <- <- <-]. left. split; [reflexivity|]. left. now exists e. }
  destruct (kb_search _) as [ctx|e].
  2:{ intros [= <- <- <-]. left. split; [reflexivity|]. right. now exists e. }
  set (c0 := mkConfig (initial_state new_uuid now task domain ctx)
                      [ToolCall "initialize" []]).
  pose proof (run_graph_outcome llm browser json_loads json_dumps py_int
                recursion_limit NPlan [] c0
                (initial_state_is_fresh _ _ _ _ _) ltac:(cbn; lia)) as H.
  destruct (run_graph_order llm browser json_loads json_dumps py_int
              recursion_limit NPlan [] c0) as [(j & Hj & _ & Ho) _].
  unfold ainvoke in *. cbn zeta in H.
  destruct (run_graph _ _ _ _ _ _ _ _ c0) as [vis [c'|e c'|c']];
    [discriminate| |].
  - cbn [snd] in H. destruct H as [_ []].
  - intros [= <- <- <-]. cbn [fst snd app] in *. destruct H as (_ & Hl).
    right. split; [|reflexivity].
    rewrite Ho in Hl. rewrite expected_order_length in Hl.
    cbn [List.length Nat.add] in Hl. subst j. exact Ho.
Qed.

Lemma aborted_task_causes_witness :
  execute_task_with_context failing_llm broken_browser judge_loads plain_dumps
                            plain_int empty_kb "id" "t" limit_text
                            hn_task hn_domain
  = (Aborted "Target closed", [],
     [ToolCall "initialize" []; ToolCall "close" []])
  /\ exists e, broken_browser [] "initialize" [] = Raise e
               /\ "Target closed" = Py.str_exn e.
Proof.
  assert (E : execute_task_with_context failing_llm broken_browser judge_loads
                                        plain_dumps plain_int empty_kb "id" "t"
                                        limit_text hn_task hn_domain
              = (Aborted "Target closed", [],
                 [ToolCall "initialize" []; ToolCall "close" []]))
    by reflexivity.
  split; [exact E|].
  destruct (aborted_task_causes _ _ _ _ _ _ _ _ _ _ _ _ _ _ E)
    as [[_ [H|(e & He & _)]]|[Hl _]].
  - exact H.
  - discriminate He.
  - discriminate Hl.
Defined.

(** X21: the graph runs its nodes in the order of its edges: the plan node
    first and only once (there is no replanning), then Execute and Validate
    in turn, at most 15 nodes in all; a run that finishes ends on a
    Validate. *)
Theorem graph_runs_nodes_in_order
        (llm : list event -> string -> result string)
        (browser : list event -> string -> list value -> result value)
        (json_loads : string -> option value)
        (json_dumps : value -> string)
        (py_int : value -> result Z)
        (c : config) :
  let r := ainvoke llm browser json_loads json_dumps py_int c in
  (exists j, (1 <= j <= 15)%nat /\ fst r = expected_order j NPlan)
  /\ List.length (filter (node_eqb NPlan) (fst r)) = 1%nat
  /\ (forall c', snd r = Finished c' ->
                 exists before, fst r = (before ++ [NValidate])%list).
Proof.
  cbn zeta. unfold ainvoke.
  destruct (run_graph_order llm browser json_loads json_dumps py_int
              recursion_limit NPlan [] c) as [(j & Hj & Hj1 & He) Hf].
  cbn [app] in He. unfold recursion_limit in Hj, Hj1.
  specialize (Hj1 ltac:(lia)).
  split; [exists j; split; [lia|exact He]|].
  split; [|exact Hf].
  rewrite He. destruct j; [lia|]. cbn [expected_order filter node_eqb next_in_order].
  cbn [List.length]. now rewrite expected_order_has_no_plan.
Qed.

(** ** Chunking of page text *)

Module ChunkerFacts.
Import Chunker.

Lemma take_skip (n : nat) (x : string) : PyStr.take n x ++ skip n x = x.
Proof.
  revert x. induction n as [|n IH]; intros [|c t]; cbn; try reflexivity.
  now rewrite IH.
Qed.

Lemma length_skip (n : nat) (x : string) :
  String.length (skip n x) = (String.length x - n)%nat.
Proof.
  revert x. induction n as [|n IH]; intros [|c t]; cbn; try reflexivity; try lia.
  apply IH.
Qed.

Lemma length_take (n : nat) (x : string) :
  String.length (PyStr.take n x) = Nat.min n (String.length x).
Proof.
  revert x. induction n as [|n IH]; intros [|c t]; cbn; try reflexivity.
  now rewrite IH.
Qed.

Lemma take_take (m n : nat) (x : string) :
  (m <= n)%nat -> PyStr.take m (PyStr.take n x) = PyStr.take m x.
Proof.
  revert n x. induction m as [|m IH]; intros n x Hle; [reflexivity|].
  destruct n as [|n]; [lia|]. destruct x as [|c t]; cbn; [reflexivity|].
  rewrite IH by lia. reflexivity.
Qed.

Lemma take_all (n : nat) (x : string) :
  (String.length x <= n)%nat -> PyStr.take n x = x.
Proof.
  revert x. induction n as [|n IH]; intros [|c t]; cbn; intros H;
    try reflexivity; try lia.
  rewrite IH by lia. reflexivity.
Qed.

Lemma take_min (n : nat) (x : string) :
  PyStr.take (Nat.min n (String.length x)) x = PyStr.take n x.
Proof.
  revert x. induction n as [|n IH]; intros [|c t]; cbn; try reflexivity.
  now rewrite IH.
Qed.

Lemma skip_skip (a b : nat) (x : string) : skip a (skip b x) = skip (b + a) x.
Proof.
  revert x. induction b as [|b IH]; intros x; cbn [Nat.add]; [reflexivity|].
  destruct x as [|c t]; cbn [skip]; [now destruct a|apply IH].
Qed.

Lemma skip_take (a b : nat) (x : string) :
  skip a (PyStr.take b x) = PyStr.take (b - a) (skip a x).
Proof.
  revert b x. induction a as [|a IH]; intros b x; cbn [skip].
  - now rewrite Nat.sub_0_r.
  - destruct b as [|b]; destruct x as [|c t]; cbn [PyStr.take skip Nat.sub];
      try reflexivity.
    + now destruct (b - a)%nat.
    + apply IH.
Qed.

(** a slice that starts inside the text and has a positive width is the
    next [width] characters, or what is left of the text *)
Lemma slice_chunk (text : string) (i c : Z) :
  0 <= i <= Z.of_nat (String.length text) -> 0 < c ->
  slice text i (i + c) = PyStr.take (Z.to_nat c) (skip (Z.to_nat i) text).
Proof.
  intros Hi Hc. unfold slice, clamp. cbn zeta.
  pose proof (length_skip (Z.to_nat i) text) as Hl.
  settle (i <? 0) false. settle (i + c <? 0) false.
  rewrite (Z.min_l i) by lia.
  destruct (i <? Z.min (i + c) (Z.of_nat (String.length text))) eqn:Hlt.
  - rewrite <- (take_min (Z.to_nat c)). f_equal. lia.
  - rewrite take_all by lia.
    destruct (skip (Z.to_nat i) text) eqn:E; [reflexivity|].
    cbn in Hl. lia.
Qed.

(** the chunks, written with [take] and [skip], when the step is positive *)
Lemma chunk_text_form (text : string) (c o : Z) :
  0 <= o < c ->
  _chunk_text text c o
  = Some (map (fun k => PyStr.take (Z.to_nat c)
                          (skip (k * Z.to_nat (c - o)) text))
              (seq 0 (Z.to_nat ((Z.of_nat (String.length text) + (c - o) - 1)
                                / (c - o))))).
Proof.
  intros Ho. unfold _chunk_text, range0.
  set (n := Z.of_nat (String.length text)). set (st := c - o).
  assert (Hst : 0 < st) by (unfold st; lia).
  settle (st =? 0) false. settle (st <? 0) false.
  rewrite List.map_map. f_equal. apply List.map_ext_in. intros k Hk.
  apply List.in_seq in Hk.
  pose proof (Z.mul_div_le (n + st - 1) st Hst) as Hq.
  assert (Hks : 0 <= Z.of_nat k * st <= n) by nia.
  rewrite slice_chunk by (fold n; lia).
  rewrite Z2Nat.inj_mul, Nat2Z.id by lia. reflexivity.
Qed.

Lemma join_takes (st : nat) :
  (0 < st)%nat ->
  forall (count : nat) (text : string),
    (String.length text <= count * st)%nat ->
    join (map (fun k => PyStr.take st (skip (k * st) text)) (seq 0 count)) = text.
Proof.
  intros Hst. induction count as [|count IH]; intros text Hlen.
  - cbn in *. destruct text; [reflexivity|cbn in Hlen; lia].
  - cbn [seq map join]. rewrite <- List.seq_shift, List.map_map.
    rewrite (List.map_ext _ (fun k => PyStr.take st (skip (k * st) (skip st text)))).
    + rewrite IH by (rewrite length_skip; lia). cbn [Nat.mul skip].
      apply take_skip.
    + intros k. now rewrite skip_skip.
Qed.

Lemma nth_chunk (f : nat -> string) (count k : nat) :
  (k < count)%nat -> nth k (map f (seq 0 count)) "" = f k.
Proof.
  intros Hk. rewrite (List.nth_indep _ "" (f 0%nat)) by
      (rewrite List.length_map, List.length_seq; exact Hk).
  rewrite List.map_nth, List.seq_nth by exact Hk. reflexivity.
Qed.

End ChunkerFacts.

(** X22: for [0 <= overlap < chunk_size], [_chunk_text] loses nothing and
    keeps its bounds: the first [chunk_size - overlap] characters of the
    chunks, put end to end, are the text again; every chunk is non-empty
    and at most [chunk_size] long; there are
    [ceil(len(text) / (chunk_size - overlap))] chunks, none for the empty
    text. *)
Theorem chunks_cover_the_text (text : string) (chunk_size overlap : Z) :
  0 <= overlap < chunk_size ->
  exists chunks,
    Chunker._chunk_text text chunk_size overlap = Some chunks
    /\ Chunker.join (map (PyStr.take (Z.to_nat (chunk_size - overlap))) chunks) = text
    /\ Forall (fun ch => 1 <= Z.of_nat (String.length ch) <= chunk_size) chunks
    /\ Z.of_nat (List.length chunks)
       = (Z.of_nat (String.length text) + (chunk_size - overlap) - 1)
         / (chunk_size - overlap)
    /\ (text = "" -> chunks = []).
Proof.
  intros Ho. rewrite (ChunkerFacts.chunk_text_form text chunk_size overlap Ho).
  set (n := Z.of_nat (String.length text)). set (st := chunk_size - overlap).
  assert (Hst : 0 < st) by (unfold st; lia).
  pose proof (Z.mul_div_le (n + st - 1) st Hst) as Hq.
  pose proof (Z.mul_succ_div_gt (n + st - 1) st Hst) as Hq'.
  assert (Hq0 : 0 <= (n + st - 1) / st) by (apply Z.div_pos; unfold n; lia).
  eexists. split; [reflexivity|]. split; [|split; [|split]].
  - rewrite List.map_map.
    rewrite (List.map_ext _ (fun k => PyStr.take (Z.to_nat st)
                                        (Chunker.skip (k * Z.to_nat st) text)))
      by (intros k; apply ChunkerFacts.take_take; unfold st; lia).
    apply ChunkerFacts.join_takes; [lia|]. unfold n in *. nia.
  - apply List.Forall_forall. intros ch Hin.
    apply List.in_map_iff in Hin. destruct Hin as (k & <- & Hk).
    apply List.in_seq in Hk.
    rewrite ChunkerFacts.length_take, ChunkerFacts.length_skip. unfold n in *. nia.
  - rewrite List.length_map, List.length_seq. lia.
  - intros ->. cbn in n. subst n.
    replace ((0 + st - 1) / st) with 0; [reflexivity|].
    symmetry. apply Z.div_small. lia.
Qed.

Lemma chunks_cover_the_text_witness :
  0 <= 1 < 4
  /\ Chunker._chunk_text "abcdefghij" 4 1 = Some ["abcd"; "defg"; "ghij"; "j"]
  /\ exists chunks,
      Chunker._chunk_text "abcdefghij" 4 1 = Some chunks
      /\ Chunker.join (map (PyStr.take (Z.to_nat (4 - 1))) chunks) = "abcdefghij".
Proof.
  assert (H : 0 <= 1 < 4) by lia.
  split; [exact H|]. split; [reflexivity|].
  destruct (chunks_cover_the_text "abcdefghij" 4 1 H) as (chunks & H1 & H2 & _).
  now exists chunks.
Defined.

(** X23: consecutive chunks share [overlap] characters: what follows the
    first [chunk_size - overlap] characters of a chunk is the beginning of
    the next chunk, [overlap] characters of it or all of it when the text
    ends sooner. *)
Theorem chunks_overlap (text : string) (chunk_size overlap : Z)
        (chunks : list string) (k : nat) :
  0 <= overlap < chunk_size ->
  Chunker._chunk_text text chunk_size overlap = Some chunks ->
  (S k < List.length chunks)%nat ->
  Chunker.skip (Z.to_nat (chunk_size - overlap)) (nth k chunks "")
  = PyStr.take (Z.to_nat overlap) (nth (S k) chunks "").
Proof.
  intros Ho Hc Hk.
  rewrite (ChunkerFacts.chunk_text_form text chunk_size overlap Ho) in Hc.
  injection Hc as <-. rewrite List.length_map, List.length_seq in Hk.
  rewrite !ChunkerFacts.nth_chunk by lia.
  rewrite ChunkerFacts.skip_take, ChunkerFacts.skip_skip.
  rewrite ChunkerFacts.take_take by lia.
  f_equal; [lia|]. f_equal. lia.
Qed.

Lemma chunks_overlap_witness :
  Chunker.skip (Z.to_nat (4 - 1)) (nth 0 ["abcd"; "defg"; "ghij"; "j"] "")
  = PyStr.take (Z.to_nat 1) (nth 1 ["abcd"; "defg"; "ghij"; "j"] "").
Proof.
  apply (chunks_overlap "abcdefghij" 4 1 ["abcd"; "defg"; "ghij"; "j"] 0);
    [lia|reflexivity|cbn; lia].
Defined.

(** X24: outside that range [_chunk_text] does not chunk: with
    [overlap = chunk_size] the step of its [range] is zero and it raises
    (ValueError), and with [overlap > chunk_size] it returns no chunk at
    all, whatever the text: the text is dropped without an error. *)
Theorem chunking_with_a_non_positive_step (text : string) (chunk_size overlap : Z) :
  (overlap = chunk_size -> Chunker._chunk_text text chunk_size overlap = None)
  /\ (chunk_size < overlap ->
      Chunker._chunk_text text chunk_size overlap = Some []).
Proof.
  unfold Chunker._chunk_text, Chunker.range0. split.
  - intros ->. now rewrite Z.sub_diag.
  - intros Hlt. settle (chunk_size - overlap =? 0) false.
    settle (chunk_size - overlap <? 0) true.
    set (n := Z.of_nat (String.length text)).
    assert (Hq : (- n - (chunk_size - overlap) - 1) / - (chunk_size - overlap) < 1)
      by (apply Z.div_lt_upper_bound; unfold n; lia).
    replace (Z.to_nat ((- n - (chunk_size - overlap) - 1) / - (chunk_size - overlap)))
      with 0%nat by lia.
    reflexivity.
Qed.

Lemma chunking_with_a_non_positive_step_witness :
  Chunker._chunk_text "abcdefghij" 4 4 = None
  /\ Chunker._chunk_text "abcdefghij" 4 6 = Some [].
Proof.
  destruct (chunking_with_a_non_positive_step "abcdefghij" 4 4) as [H1 _].
  destruct (chunking_with_a_non_positive_step "abcdefghij" 4 6) as [_ H2].
  split; [apply H1; reflexivity|apply H2; lia].
Defined.

(** X25: a scraped page, whose HTML the scraper cuts to 30000 characters,
    is split by the knowledge base builder ([chunk_size] 1500, default
    [overlap] 100) into at most 22 chunks, and the chunks still hold all of
    the cut HTML. *)
Theorem page_html_gives_at_most_22_chunks (html : string) :
  let cut := PyStr.take (Z.to_nat 30000) html in
  exists chunks,
    Chunker._chunk_text cut Chunker.page_chunk_size Chunker.default_overlap
    = Some chunks
    /\ (List.length chunks <= 22)%nat
    /\ Chunker.join (map (PyStr.take 1400) chunks) = cut.
Proof.
  cbn zeta. unfold Chunker.page_chunk_size, Chunker.default_overlap.
  pose proof (ChunkerFacts.length_take (Z.to_nat 30000) html) as Hl.
  set (text := PyStr.take (Z.to_nat 30000) html) in *.
  rewrite (ChunkerFacts.chunk_text_form text 1500 100) by lia.
  set (n := Z.of_nat (String.length text)).
  assert (Hn : 0 <= n <= 30000) by (unfold n; lia).
  assert (Hq : (n + (1500 - 100) - 1) / (1500 - 100) < 23)
    by (apply Z.div_lt_upper_bound; lia).
  assert (Hq0 : 0 <= (n + (1500 - 100) - 1) / (1500 - 100))
    by (apply Z.div_pos; lia).
  pose proof (Z.mul_succ_div_gt (n + (1500 - 100) - 1) (1500 - 100) ltac:(lia)) as Hq'.
  eexists. split; [reflexivity|]. split.
  - rewrite List.length_map, List.length_seq. lia.
  - rewrite List.map_map.
    rewrite (List.map_ext _ (fun k => PyStr.take 1400 (Chunker.skip (k * 1400) text))).
    + apply ChunkerFacts.join_takes; [lia|]. unfold n in *. lia.
    + intros k.
      change (Z.to_nat (1500 - 100)) with 1400%nat.
      change (Z.to_nat 1500) with 1500%nat.
      apply ChunkerFacts.take_take. lia.
Qed.

(** * The scraper *)

Module ScraperFacts.
Import Scraper.

Lemma mem_In (url : string) (urls : list string) :
  mem url urls = true <-> In url urls.
Proof.
  unfold mem. rewrite List.existsb_exists. split.
  - intros (x & Hx & He). apply String.eqb_eq in He. now subst.
  - intros H. exists url. split; [exact H|apply String.eqb_refl].
Qed.

Lemma mem_not_In (url : string) (urls : list string) :
  mem url urls = false <-> ~ In url urls.
Proof.
  rewrite <- mem_In. destruct (mem url urls); split; congruence.
Qed.

Lemma lookup_dict_set (k : string) (v : value) (d : list (string * value)) :
  Py.lookup k (dict_set k v d) = Some v.
Proof.
  induction d as [|[k' v'] t IH]; cbn [dict_set Py.lookup].
  - now rewrite String.eqb_refl.
  - destruct (String.eqb k k') eqn:E; cbn [Py.lookup]; rewrite ?String.eqb_refl, ?E;
      [reflexivity|exact IH].
Qed.

Lemma lookup_dict_set_other (k k0 : string) (v : value) (d : list (string * value)) :
  k <> k0 -> Py.lookup k (dict_set k0 v d) = Py.lookup k d.
Proof.
  intros Hne. induction d as [|[k' v'] t IH]; cbn [dict_set Py.lookup].
  - destruct (String.eqb k k0) eqn:E; [apply String.eqb_eq in E; congruence|reflexivity].
  - destruct (String.eqb k0 k') eqn:E0; cbn [Py.lookup].
    + apply String.eqb_eq in E0. subst k'.
      destruct (String.eqb k k0) eqn:E; [apply String.eqb_eq in E; congruence|reflexivity].
    + now rewrite IH.
Qed.

Lemma in_dict_set (k k0 : string) (v v0 : value) (d : list (string * value)) :
  In (k, v) (dict_set k0 v0 d) -> (k = k0 /\ v = v0) \/ In (k, v) d.
Proof.
  induction d as [|[k' v'] t IH]; cbn [dict_set].
  - intros [H|[]]. left. now inversion H.
  - destruct (String.eqb k0 k') eqn:E.
    + intros [H|H]; [left; now inversion H|right; now right].
    + intros [H|H]; [right; now left|].
      destruct (IH H) as [Hl|Hr]; [now left|right; now right].
Qed.

Lemma keys_dict_set (k : string) (v : value) (d : list (string * value)) :
  ~ In k (map fst d) -> map fst (dict_set k v d) = (map fst d ++ [k])%list.
Proof.
  induction d as [|[k' v'] t IH]; cbn [dict_set map fst app]; intros Hn;
    [reflexivity|].
  destruct (String.eqb k k') eqn:E.
  - apply String.eqb_eq in E. subst. exfalso. apply Hn. now left.
  - cbn [map fst]. rewrite IH; [reflexivity|]. intros H. apply Hn. now right.
Qed.

Lemma NoDup_snoc (k : string) (l : list string) :
  NoDup l -> ~ In k l -> NoDup (l ++ [k])%list.
Proof.
  intros Hl Hk. induction Hl as [|x l Hx Hl IH]; cbn [app].
  - constructor; [intros []|constructor].
  - constructor.
    + rewrite List.in_app_iff. intros [H|[H|[]]]; [now apply Hx|].
      subst. apply Hk. now left.
    + apply IH. intros H. apply Hk. now right.
Qed.

Lemma fresh_inv : scraper_inv fresh.
Proof.
  repeat split; cbn; try constructor; intros; contradiction.
Qed.

Lemma fresh_consistent : consistent fresh.
Proof. intros url _. reflexivity. Qed.

Lemma inv_consistent (s : scraper) : scraper_inv s -> consistent s.
Proof.
  intros (_ & _ & _ & Hp) url Hm. apply mem_not_In in Hm.
  destruct (Py.lookup url (scraped_pages s)) as [page|] eqn:E; [|reflexivity].
  exfalso. apply Hm.
  assert (Hin : In (url, page) (scraped_pages s)).
  { clear Hp Hm. induction (scraped_pages s) as [|[k v] t IH];
      cbn [Py.lookup] in E; [discriminate|].
    destruct (String.eqb url k) eqn:Ek.
    - apply String.eqb_eq in Ek. injection E as <-. subst. now left.
    - right. now apply IH. }
  now apply Hp in Hin.
Qed.

Section Facts.

Variable domain : string.
Variable depth : Z.
Variable initialize : result unit.
Variable browse : list string -> string -> result string.
Variable page_title : string -> result string.
Variable find_forms : string -> result value.
Variable find_links : string -> value -> result (list string).
Variable same_netloc : string -> result bool.
Variable set_order : list string -> list string.

Let scrape_page := scrape_page browse page_title find_forms.
Let visit := visit browse page_title find_forms find_links same_netloc.
Let levels := levels depth browse page_title find_forms find_links same_netloc set_order.

(** the three ways [scrape_page] ends on a URL it has not visited *)
Lemma scrape_page_new (url : string) (s : scraper) :
  mem url (visited s) = false ->
  let s1 := {| visited := url :: visited s;
               scraped_pages := scraped_pages s;
               loads := url :: loads s |} in
  (exists msg, scrape_page url s = (error_page url msg, s1))
  \/ (exists title html forms,
         100 <= Z.of_nat (String.length html)
         /\ browse (loads s) url = Ok html
         /\ scrape_page url s
            = (success_page url title html forms,
               {| visited := url :: visited s;
                  scraped_pages :=
                    dict_set url (success_page url title html forms) (scraped_pages s);
                  loads := url :: loads s |})).
Proof.
  intros Hm. cbn zeta. unfold scrape_page, Scraper.scrape_page. rewrite Hm.
  destruct (browse (loads s) url) as [html|e]; [|left; eauto].
  destruct (String.eqb html "" || (Z.of_nat (String.length html) <? 100))%bool eqn:El;
    [left; eauto|].
  apply Bool.orb_false_iff in El. destruct El as [_ El].
  destruct (find_forms html) as [forms|e]; [|left; eauto].
  right. eexists. exists html, forms. split; [lia|]. split; reflexivity.
Qed.

Lemma scrape_page_old (url : string) (s : scraper) :
  mem url (visited s) = true ->
  scrape_page url s
  = (match Py.lookup url (scraped_pages s) with
     | Some page => page
     | None => VDict []
     end, s).
Proof.
  intros Hm. unfold scrape_page, Scraper.scrape_page. now rewrite Hm.
Qed.

Lemma scrape_page_inv (url : string) (s : scraper) :
  scraper_inv s ->
  mem url (visited s) = false ->
  scraper_inv (snd (scrape_page url s))
  /\ visited (snd (scrape_page url s)) = url :: visited s.
Proof.
  intros Hinv Hm. pose proof Hinv as (Hv & Hl & Hk & Hp).
  assert (Hn : ~ In url (visited s)) by now apply mem_not_In.
  assert (Hv1 : NoDup (url :: visited s)) by now constructor.
  destruct (scrape_page_new url s Hm) as [(msg & ->)|(title & html & forms & Hlen & _ & ->)];
    cbn [snd visited scraped_pages loads]; (split; [|reflexivity]).
  - repeat split; cbn [visited scraped_pages loads]; try assumption.
    + now rewrite Hl.
    + right. now apply Hp in H.
    + now apply Hp in H.
  - assert (Hnk : ~ In url (map fst (scraped_pages s))).
    { intros H. apply List.in_map_iff in H. destruct H as ([k v] & Hk1 & Hk2).
      cbn in Hk1. subst k. apply Hp in Hk2. now apply Hn. }
    repeat split; cbn [visited scraped_pages loads]; try assumption.
    + now rewrite Hl.
    + rewrite keys_dict_set by assumption. now apply NoDup_snoc.
    + apply in_dict_set in H. destruct H as [[-> _]|H]; [now left|].
      right. now apply Hp in H.
    + apply in_dict_set in H. destruct H as [[-> ->]|H]; [|now apply Hp in H].
      exists title, html, forms. now split.
Qed.

Lemma visit_inv (urls : list string) :
  forall (next_level : list string) (s : scraper),
    scraper_inv s ->
    scraper_inv (snd (visit urls next_level s))
    /\ (List.length (visited (snd (visit urls next_level s)))
        <= List.length (visited s) + List.length urls)%nat.
Proof.
  induction urls as [|url t IH]; intros next_level s Hinv;
    cbn [Scraper.visit visit snd List.length]; unfold visit; cbn [Scraper.visit].
  - cbn [snd]. split; [assumption|lia].
  - fold visit. destruct (mem url (visited s)) eqn:Hm.
    + destruct (IH next_level s Hinv) as [H1 H2]. split; [assumption|lia].
    + destruct (scrape_page_inv url s Hinv Hm) as [Hinv1 Hv1].
      fold scrape_page.
      destruct (scrape_page url s) as [page_data s1] eqn:Es.
      cbn [snd] in Hinv1, Hv1.
      assert (Hlen : List.length (visited s1) = S (List.length (visited s)))
        by now rewrite Hv1.
      destruct (Py.get page_data "status" VNone) as [status|e];
        [|cbn [snd]; split; [assumption|lia]].
      destruct (Py.is_str "success" status).
      * destruct (html <- Py.getitem page_data "html";;
                  links <- find_links url html;;
                  add_links same_netloc s1 links next_level)%result
          as [next_level'|e]; [|cbn [snd]; split; [assumption|lia]].
        destruct (IH next_level' s1 Hinv1) as [H1 H2]. split; [assumption|lia].
      * destruct (IH next_level s1 Hinv1) as [H1 H2]. split; [assumption|lia].
Qed.

Lemma levels_run (fuel : nat) :
  forall (to_visit : list string) (current_depth : Z) (s : scraper),
    scraper_inv s ->
    (Z.to_nat (depth - current_depth) < fuel)%nat ->
    exists r s',
      levels fuel to_visit current_depth s = Some (r, s')
      /\ scraper_inv s'
      /\ (List.length (visited s')
          <= List.length (visited s) + page_bound to_visit (depth - current_depth))%nat.
Proof.
  induction fuel as [|fuel IH]; intros to_visit current_depth s Hinv Hf; [lia|].
  unfold levels. cbn [Scraper.levels]. fold levels.
  destruct (negb (is_empty to_visit) && (current_depth <? depth))%bool eqn:Ec.
  - apply Bool.andb_true_iff in Ec. destruct Ec as [_ Ec].
    assert (Hd : current_depth < depth) by lia.
    destruct (visit_inv (firstn 5 to_visit) [] s Hinv) as [Hinv1 Hlen1].
    rewrite List.length_firstn in Hlen1. fold visit.
    destruct (visit (firstn 5 to_visit) [] s) as [[next_level|e] s1]; cbn [snd] in *.
    + destruct (IH (firstn 10 (set_order next_level)) (current_depth + 1) s1 Hinv1)
        as (r & s' & Hr & Hinv' & Hlen'); [lia|].
      exists r, s'. split; [exact Hr|]. split; [exact Hinv'|].
      unfold page_bound in *.
      settle (depth - current_depth <=? 0) false.
      destruct (depth - (current_depth + 1) <=? 0) eqn:E1; lia.
    + exists (Raise e), s1. split; [reflexivity|]. split; [assumption|].
      unfold page_bound. settle (depth - current_depth <=? 0) false. lia.
  - exists (Ok tt), s. split; [reflexivity|]. split; [assumption|lia].
Qed.

Lemma levels_keep_inv (fuel : nat) :
  forall (to_visit : list string) (current_depth : Z) (s : scraper)
         (r : result unit) (s' : scraper),
    scraper_inv s ->
    levels fuel to_visit current_depth s = Some (r, s') ->
    scraper_inv s'.
Proof.
  induction fuel as [|fuel IH]; intros to_visit current_depth s r s' Hinv;
    unfold levels; cbn [Scraper.levels]; fold levels; [discriminate|].
  destruct (negb (is_empty to_visit) && (current_depth <? depth))%bool.
  - destruct (visit_inv (firstn 5 to_visit) [] s Hinv) as [Hinv1 _]. fold visit.
    destruct (visit (firstn 5 to_visit) [] s) as [[next_level|e] s1]; cbn [snd] in *.
    + apply IH. exact Hinv1.
    + intros H. injection H as _ <-. exact Hinv1.
  - intros H. injection H as _ <-. exact Hinv.
Qed.

Lemma scrape_keeps_inv (fuel : nat) (r : result (list (string * value)))
      (s' : scraper) :
  scrape domain depth initialize browse page_title find_forms find_links
         same_netloc set_order fuel fresh = Some (r, s') ->
  scraper_inv s' /\ forall pages, r = Ok pages -> pages = scraped_pages s'.
Proof.
  unfold scrape. destruct initialize as [[]|e].
  - fold levels. destruct (levels fuel [domain] 0 fresh) as [[r0 s0]|] eqn:E;
      [|discriminate].
    pose proof (levels_keep_inv fuel _ _ _ _ _ fresh_inv E) as Hinv.
    destruct r0 as [[]|e]; intros H; injection H as <- <-;
      (split; [exact Hinv|intros; congruence]).
  - intros H. injection H as <- <-. split; [apply fresh_inv|intros; congruence].
Qed.

(** a run of [scrape] from [__init__] *)
Lemma scrape_run :
  exists r s',
    scrape domain depth initialize browse page_title find_forms find_links
           same_netloc set_order (enough_fuel depth) fresh = Some (r, s')
    /\ scraper_inv s'
    /\ Z.of_nat (List.length (visited s')) <= Z.max 0 (5 * depth - 4)
    /\ (forall pages, r = Ok pages -> pages = scraped_pages s')
    /\ (forall e, initialize = Raise e -> r = Raise e /\ s' = fresh).
Proof.
  unfold scrape. destruct initialize as [[]|e].
  - destruct (levels_run (enough_fuel depth) [domain] 0 fresh fresh_inv)
      as (r & s' & Hr & Hinv & Hlen); [unfold enough_fuel; lia|].
    fold levels. rewrite Hr.
    assert (Hb : Z.of_nat (List.length (visited s')) <= Z.max 0 (5 * depth - 4)).
    { unfold page_bound in Hlen. cbn [fresh visited List.length] in Hlen.
      destruct (depth - 0 <=? 0) eqn:E; lia. }
    destruct r as [[]|e]; do 2 eexists; (split; [reflexivity|]);
      (split; [exact Hinv|]); (split; [exact Hb|]); split; intros; congruence.
  - exists (Raise e), fresh. split; [reflexivity|]. split; [apply fresh_inv|].
    split; [cbn; lia|]. split; intros; [congruence|].
    split; congruence.
Qed.

End Facts.

Lemma stored_page_fields (url : string) (page : value) :
  stored_page url page ->
  Py.get page "status" VNone = Ok (VStr "success")
  /\ Py.getitem page "url" = Ok (VStr url)
  /\ exists html,
      Py.getitem page "html" = Ok (VStr html)
      /\ 100 <= Z.of_nat (String.length html) <= 30000.
Proof.
  intros (title & html & forms & -> & Hlen).
  split; [reflexivity|]. split; [reflexivity|].
  exists (PyStr.take (Z.to_nat 30000) html). split; [reflexivity|].
  rewrite ChunkerFacts.length_take. lia.
Qed.

End ScraperFacts.

(** X26: [scrape], started on a new scraper, always comes to an end, and
    by then it has given the browser at most one page for the first level
    and five for each further level, [5 * depth - 4] in all (6 for the
    depth of 2 that [main] asks for) and none for a depth below 1; no URL
    is loaded twice, and no more pages are stored than were loaded. *)
Theorem scrape_loads_a_bounded_number_of_pages
        (domain : string) (depth : Z)
        (initialize : result unit)
        (browse : list string -> string -> result string)
        (page_title : string -> result string)
        (find_forms : string -> result value)
        (find_links : string -> value -> result (list string))
        (same_netloc : string -> result bool)
        (set_order : list string -> list string) :
  exists r s',
    Scraper.scrape domain depth initialize browse page_title find_forms
                   find_links same_netloc set_order
                   (Scraper.enough_fuel depth) Scraper.fresh
    = Some (r, s')
    /\ Z.of_nat (List.length (Scraper.loads s')) <= Z.max 0 (5 * depth - 4)
    /\ NoDup (Scraper.loads s')
    /\ (List.length (Scraper.scraped_pages s') <= List.length (Scraper.loads s'))%nat.
Proof.
  destruct (ScraperFacts.scrape_run domain depth initialize browse page_title
              find_forms find_links same_netloc set_order)
    as (r & s' & Hr & (Hv & Hl & Hk & Hp) & Hb & _).
  exists r, s'. split; [exact Hr|]. rewrite Hl.
  split; [exact Hb|]. split; [exact Hv|].
  rewrite <- (List.length_map fst (Scraper.scraped_pages s')).
  apply List.NoDup_incl_length; [exact Hk|].
  intros url Hin. apply List.in_map_iff in Hin.
  destruct Hin as ([k v] & Hk1 & Hk2). cbn in Hk1. subst k.
  now apply Hp in Hk2.
Qed.

(** X27: the pages [scrape] returns are all successes: each is stored once,
    under its own URL, which the browser was given; its status is
    ["success"], so the status filter of the knowledge base builder skips
    none of them; and its HTML has between 100 and 30000 characters, so
    the builder cuts it into at least 1 and at most 22 chunks.  Pages that
    failed to load are not in the result. *)
Theorem scrape_returns_only_successful_pages
        (domain : string) (depth : Z)
        (initialize : result unit)
        (browse : list string -> string -> result string)
        (page_title : string -> result string)
        (find_forms : string -> result value)
        (find_links : string -> value -> result (list string))
        (same_netloc : string -> result bool)
        (set_order : list string -> list string)
        (fuel : nat) (pages : list (string * value)) (s' : Scraper.scraper) :
  Scraper.scrape domain depth initialize browse page_title find_forms
                 find_links same_netloc set_order fuel Scraper.fresh
  = Some (Ok pages, s') ->
  NoDup (map fst pages)
  /\ forall url page,
      In (url, page) pages ->
      In url (Scraper.loads s')
      /\ Py.get page "status" VNone = Ok (VStr "success")
      /\ Py.getitem page "url" = Ok (VStr url)
      /\ exists html chunks,
          Py.getitem page "html" = Ok (VStr html)
          /\ 100 <= Z.of_nat (String.length html) <= 30000
          /\ Chunker._chunk_text html Chunker.page_chunk_size Chunker.default_overlap
             = Some chunks
          /\ (1 <= List.length chunks <= 22)%nat.
Proof.
  intros Hrun.
  destruct (ScraperFacts.scrape_keeps_inv _ _ _ _ _ _ _ _ _ _ _ _ Hrun)
    as [(Hv & Hl & Hk & Hp) Hr].
  rewrite (Hr pages eq_refl). split; [exact Hk|].
  intros url page Hin. destruct (Hp url page Hin) as [Hu Hs].
  rewrite Hl. split; [exact Hu|].
  destruct (ScraperFacts.stored_page_fields url page Hs)
    as (Hst & Hurl & html & Hh & Hlen).
  split; [exact Hst|]. split; [exact Hurl|].
  unfold Chunker.page_chunk_size, Chunker.default_overlap.
  exists html. eexists. split; [exact Hh|]. split; [exact Hlen|].
  split; [apply (ChunkerFacts.chunk_text_form html 1500 100); lia|].
  rewrite List.length_map, List.length_seq.
  set (n := Z.of_nat (String.length html)) in *.
  assert (Hq : (n + (1500 - 100) - 1) / (1500 - 100) < 23)
    by (apply Z.div_lt_upper_bound; lia).
  assert (Hq1 : 1 <= (n + (1500 - 100) - 1) / (1500 - 100))
    by (apply Z.div_le_lower_bound; lia).
  lia.
Qed.

Lemma scrape_returns_only_successful_pages_witness :
  exists pages s',
    Scraper.scrape hn_domain 2 (Ok tt) site_browse site_title site_forms
                   site_links site_netloc site_order 3 Scraper.fresh
    = Some (Ok pages, s')
    /\ map fst pages = [hn_domain; site_news]
    /\ Scraper.loads s' = [site_news; site_missing; hn_domain]
    /\ NoDup (map fst pages).
Proof.
  assert (E : exists pages s',
             Scraper.scrape hn_domain 2 (Ok tt) site_browse site_title site_forms
                            site_links site_netloc site_order 3 Scraper.fresh
             = Some (Ok pages, s')
             /\ map fst pages = [hn_domain; site_news]
             /\ Scraper.loads s' = [site_news; site_missing; hn_domain])
    by (vm_compute; eexists _, _; repeat split; reflexivity).
  destruct E as (pages & s' & E & Hk & Hl).
  exists pages, s'. split; [exact E|]. split; [exact Hk|]. split; [exact Hl|].
  destruct (scrape_returns_only_successful_pages _ _ _ _ _ _ _ _ _ _ _ _ E)
    as [Hnd _].
  exact Hnd.
Defined.

(** X28: [scrape_page] never raises and loads a URL once.  On a scraper
    that stores no page under an unvisited URL, a first request for a new
    URL gives the browser that URL; a second request gives the browser
    nothing and changes nothing, whatever the site would answer by then:
    it returns the stored page if the first load succeeded, and the empty
    dict, not the error record, if it failed, so a page that failed is
    never tried again. *)
Theorem scrape_page_loads_a_url_once
        (browse browse' : list string -> string -> result string)
        (page_title page_title' : string -> result string)
        (find_forms find_forms' : string -> result value)
        (url : string) (s : Scraper.scraper) :
  Scraper.consistent s ->
  Scraper.mem url (Scraper.visited s) = false ->
  exists page s1,
    Scraper.scrape_page browse page_title find_forms url s = (page, s1)
    /\ Scraper.loads s1 = url :: Scraper.loads s
    /\ Scraper.consistent s1
    /\ ((Py.get page "status" VNone = Ok (VStr "success")
         /\ Scraper.scrape_page browse' page_title' find_forms' url s1 = (page, s1))
        \/ (Py.get page "status" VNone = Ok (VStr "error")
            /\ Py.lookup url (Scraper.scraped_pages s1) = None
            /\ Scraper.scrape_page browse' page_title' find_forms' url s1
               = (VDict [], s1))).
Proof.
  intros Hc Hm.
  assert (Hcons : forall pages,
             (forall u, u <> url -> Py.lookup u pages
                                    = Py.lookup u (Scraper.scraped_pages s)) ->
             Scraper.consistent {| Scraper.visited := url :: Scraper.visited s;
                                   Scraper.scraped_pages := pages;
                                   Scraper.loads := url :: Scraper.loads s |}).
  { intros pages Hp u Hu. cbn [Scraper.visited Scraper.scraped_pages] in *.
    unfold Scraper.mem in Hu. cbn [existsb] in Hu.
    apply Bool.orb_false_iff in Hu. destruct Hu as [Hne Hu].
    apply String.eqb_neq in Hne. rewrite Hp by exact Hne. now apply Hc. }
  destruct (ScraperFacts.scrape_page_new browse page_title find_forms url s Hm)
    as [(msg & E)|(title & html & forms & _ & _ & E)];
    rewrite E; do 2 eexists; (split; [reflexivity|]);
      (split; [reflexivity|]).
  - split; [apply Hcons; reflexivity|]. right.
    split; [reflexivity|].
    assert (Hnone : Py.lookup url (Scraper.scraped_pages s) = None) by now apply Hc.
    split; [exact Hnone|].
    rewrite ScraperFacts.scrape_page_old
      by (unfold Scraper.mem; cbn [Scraper.visited existsb];
          now rewrite String.eqb_refl).
    cbn [Scraper.scraped_pages]. now rewrite Hnone.
  - split; [apply Hcons; intros u Hu; now apply ScraperFacts.lookup_dict_set_other|].
    left. split; [reflexivity|].
    rewrite ScraperFacts.scrape_page_old
      by (unfold Scraper.mem; cbn [Scraper.visited existsb];
          now rewrite String.eqb_refl).
    cbn [Scraper.scraped_pages]. now rewrite ScraperFacts.lookup_dict_set.
Qed.

Lemma scrape_page_loads_a_url_once_witness :
  Scraper.consistent Scraper.fresh
  /\ Scraper.mem site_missing (Scraper.visited Scraper.fresh) = false
  /\ exists page s1,
      Scraper.scrape_page site_browse site_title site_forms site_missing
                          Scraper.fresh = (page, s1)
      /\ Scraper.loads s1 = [site_missing].
Proof.
  split; [apply ScraperFacts.fresh_consistent|]. split; [reflexivity|].
  destruct (scrape_page_loads_a_url_once site_browse site_browse site_title
              site_title site_forms site_forms site_missing Scraper.fresh
              ScraperFacts.fresh_consistent eq_refl)
    as (page & s1 & E & Hl & _).
  exists page, s1. split; [exact E|exact Hl].
Defined.
